(** * Recipe PDF generator ([tools/generate_pdfs.py]): model and properties

    The development embeds the formatting helpers ([format_time],
    [format_ingredient], [format_substitution]), the [RecipePDF] renderer and
    the batch driver [main] of [tools/generate_pdfs.py].

    - YAML data is the inductive type [yaml]; a mapping is an association list
      in insertion order, which is the iteration order of a Python [dict].
    - Text is a [string] of UTF-8 bytes.  White space is that of Python,
      outside ASCII too; letter case ([str.title]) and decimal digits
      ([int]) are those of ASCII only.
    - Python exceptions are values of [exn]; a computation that may raise has
      type [result A].
    - The page-accumulation object (class [FPDF]) is a record [pdf] holding the
      cursor, the page counter, the graphic state and the list of objects
      drawn so far.  Lengths are rationals, in millimetres, computed exactly:
      the rounding of the library's floating point is outside the model.  How
      many lines a text needs at a given width is a parameter of the renderer
      ([line_count]).  The renderer lays out what the library accepts; that
      the library raises on a text outside Latin-1 under the core font is
      accounted for where a document is written ([attempt_file]).  A
      TrueType font takes any text, whatever glyphs it has.
    - What the system does in a run is given with each file: the outcome of
      loading it, of creating its output directory, of constructing the
      renderer and of writing the document, and the reading of the clock.
      Printing is taken to succeed. *)

From Stdlib Require Import List Bool Ascii String ZArith QArith Lia Lqa.
From Stdlib Require Import Permutation DecimalString Sorted.
From Stdlib Require OrderedTypeEx.
Import ListNotations.

Open Scope string_scope.

(** ** Results and exceptions *)

Inductive exn : Type :=
| KeyError
| TypeError
| ValueError
| IndexError
| AttributeError
| OSError
| YAMLError
| FPDFUnicodeEncodingException.

Inductive result (A : Type) : Type :=
| Ok (a : A)
| Raise (e : exn).

Arguments Ok {A} a.
Arguments Raise {A} e.

Definition rbind {A B} (r : result A) (f : A -> result B) : result B :=
  match r with
  | Ok a => f a
  | Raise e => Raise e
  end.

(** [try: body  except (handled): handler] *)
Definition try_except {A} (body : result A) (handled : exn -> bool)
    (handler : result A) : result A :=
  match body with
  | Ok a => Ok a
  | Raise e => if handled e then handler else Raise e
  end.

Declare Scope result_scope.
Delimit Scope result_scope with res.
Notation "x <- r ;; k" := (rbind r (fun x => k))
  (at level 61, r at next level, right associativity) : result_scope.

(** ** Text: the [str] methods used by the program *)

Module Str.

Definition is_lower (c : ascii) : bool :=
  let n := nat_of_ascii c in ((97 <=? n) && (n <=? 122))%nat.

Definition is_upper (c : ascii) : bool :=
  let n := nat_of_ascii c in ((65 <=? n) && (n <=? 90))%nat.

Definition is_digit (c : ascii) : bool :=
  let n := nat_of_ascii c in ((48 <=? n) && (n <=? 57))%nat.

Definition to_upper (c : ascii) : ascii :=
  if is_lower c then ascii_of_nat (nat_of_ascii c - 32) else c.

Definition to_lower (c : ascii) : ascii :=
  if is_upper c then ascii_of_nat (nat_of_ascii c + 32) else c.

Fixpoint rev_onto (s acc : string) : string :=
  match s with
  | EmptyString => acc
  | String c r => rev_onto r (String c acc)
  end.

Definition rev (s : string) : string := rev_onto s EmptyString.

(** the code points of a UTF-8 text, each as a string *)
Definition is_continuation (c : ascii) : bool :=
  let n := nat_of_ascii c in ((128 <=? n) && (n <=? 191))%nat.

Fixpoint chars_onto (s : string) (cur : string) : list string :=
  match s with
  | EmptyString => match cur with EmptyString => [] | _ => [rev cur] end
  | String c r =>
      if is_continuation c then chars_onto r (String c cur)
      else match cur with
           | EmptyString => chars_onto r (String c EmptyString)
           | _ => rev cur :: chars_onto r (String c EmptyString)
           end
  end.

Definition chars (s : string) : list string := chars_onto s EmptyString.

(** a character given by its bytes *)
Definition utf8 (bytes : list nat) : string :=
  fold_right (fun n s => String (ascii_of_nat n) s) EmptyString bytes.

(** The white space that [int] skips around a literal: tab to carriage
    return, the space, and the white space outside ASCII (U+0085, U+00A0,
    U+1680, U+2000 to U+200A, U+2028, U+2029, U+202F, U+205F, U+3000). *)
Definition int_spaces : list string :=
  app (map (fun n => utf8 [n]) [9; 10; 11; 12; 13; 32]%nat)
 (app [utf8 [194; 133]%nat; utf8 [194; 160]%nat; utf8 [225; 154; 128]%nat]
 (app (map (fun n => utf8 [226; 128; n]%nat)
           [128; 129; 130; 131; 132; 133; 134; 135; 136; 137; 138]%nat)
      [utf8 [226; 128; 168]%nat; utf8 [226; 128; 169]%nat;
       utf8 [226; 128; 175]%nat; utf8 [226; 129; 159]%nat;
       utf8 [227; 128; 128]%nat])).

(** [c.isspace()]: the same and the separators U+001C to U+001F *)
Definition spaces : list string :=
  app (map (fun n => utf8 [n]) [28; 29; 30; 31]%nat) int_spaces.

Definition is_space (c : string) : bool := existsb (String.eqb c) spaces.

Definition is_int_space (c : string) : bool :=
  existsb (String.eqb c) int_spaces.

Fixpoint drop_while (p : string -> bool) (cs : list string) : list string :=
  match cs with
  | [] => []
  | c :: r => if p c then drop_while p r else cs
  end.

(** the text without the characters of class [p] at both ends *)
Definition strip_by (p : string -> bool) (s : string) : string :=
  String.concat EmptyString
    (List.rev (drop_while p (List.rev (drop_while p (chars s))))).

(** [s.strip()] *)
Definition strip (s : string) : string := strip_by is_space s.

(** [s.split(sep)] for a one-character separator: never the empty list. *)
Fixpoint split_onto (sep : ascii) (s : string) (cur : string) : list string :=
  match s with
  | EmptyString => [rev cur]
  | String c r =>
      if Ascii.eqb c sep then rev cur :: split_onto sep r EmptyString
      else split_onto sep r (String c cur)
  end.

Definition split (sep : ascii) (s : string) : list string :=
  split_onto sep s EmptyString.

(** [sep.join(parts)] *)
Fixpoint join (sep : string) (parts : list string) : string :=
  match parts with
  | [] => EmptyString
  | [p] => p
  | p :: ps => p ++ sep ++ join sep ps
  end.

(** [s.replace(a, b)] for one-character [a] and [b] *)
Fixpoint replace_char (a b : ascii) (s : string) : string :=
  match s with
  | EmptyString => EmptyString
  | String c r => String (if Ascii.eqb c a then b else c) (replace_char a b r)
  end.

(** [s.title()]: the first letter of every run of letters in upper case, the
    others in lower case. *)
Fixpoint title_from (prev_cased : bool) (s : string) : string :=
  match s with
  | EmptyString => EmptyString
  | String c r =>
      if is_lower c then
        String (if prev_cased then c else to_upper c) (title_from true r)
      else if is_upper c then
        String (if prev_cased then to_lower c else c) (title_from true r)
      else String c (title_from false r)
  end.

Definition title (s : string) : string := title_from false s.

(** [a in s] for strings *)
Definition contains (a s : string) : bool :=
  match String.index 0 a s with
  | Some _ => true
  | None => false
  end.

Fixpoint rfind_from (c : ascii) (s : string) (i : nat) (last : option nat)
    : option nat :=
  match s with
  | EmptyString => last
  | String d r =>
      rfind_from c r (S i) (if Ascii.eqb d c then Some i else last)
  end.

(** [s.rfind(c)], [None] standing for -1 *)
Definition rfind (c : ascii) (s : string) : option nat := rfind_from c s 0 None.

(** [str(n)] for an [int] *)
Definition of_Z (n : Z) : string := NilZero.string_of_int (Z.to_int n).

Definition digit_val (c : ascii) : Z := Z.of_nat (nat_of_ascii c - 48).

(** digits of a decimal literal: groups of digits separated by single
    underscores *)
Fixpoint digits (s : string) (acc : Z) (after_digit : bool) : option Z :=
  match s with
  | EmptyString => if after_digit then Some acc else None
  | String c r =>
      if is_digit c then digits r (10 * acc + digit_val c)%Z true
      else if Ascii.eqb c "_" && after_digit then digits r acc false
      else None
  end.

Fixpoint count_digits (s : string) : nat :=
  match s with
  | EmptyString => 0
  | String c r => ((if is_digit c then 1 else 0) + count_digits r)%nat
  end.

(** the default of [sys.get_int_max_str_digits()] *)
Definition int_max_str_digits : nat := 4300%nat.

(** [int(s)]: surrounding white space, an optional sign, a decimal literal
    of ASCII digits with no more digits than the limit *)
Definition to_int (s : string) : result Z :=
  let body := strip_by is_int_space s in
  let parsed :=
    match body with
    | String "-" r => option_map Z.opp (digits r 0 false)
    | String "+" r => digits r 0 false
    | _ => digits body 0 false
    end in
  match parsed with
  | Some n =>
      if (int_max_str_digits <? count_digits body)%nat then Raise ValueError
      else Ok n
  | None => Raise ValueError
  end.

End Str.

(** ** YAML values as [yaml.safe_load] returns them *)

(** A [float] is carried by its [repr]; timestamps, binary data and sets are
    not modelled. *)
#[warnings="-register-all"]
Inductive yaml : Type :=
| YNull
| YBool (b : bool)
| YInt (n : Z)
| YFloat (repr : string)
| YStr (s : string)
| YList (items : list yaml)
| YDict (entries : list (yaml * yaml)).

Definition dict : Type := list (yaml * yaml).

Module Py.

Import Str.

Definition hex_digit (n : nat) : ascii :=
  ascii_of_nat (if (n <? 10)%nat then 48 + n else 87 + n).

(** one character of [repr(s)] inside quotes [q] *)
Definition repr_char (q c : ascii) : string :=
  let n := nat_of_ascii c in
  if Ascii.eqb c "\" then "\\"
  else if Ascii.eqb c q then String "\" (String c EmptyString)
  else if (n =? 10)%nat then "\n"
  else if (n =? 13)%nat then "\r"
  else if (n =? 9)%nat then "\t"
  else if ((n <? 32) || (n =? 127))%nat then
    String "\" (String "x" (String (hex_digit (n / 16))
                              (String (hex_digit (n mod 16)) EmptyString)))
  else String c EmptyString.

Fixpoint repr_body (q : ascii) (s : string) : string :=
  match s with
  | EmptyString => EmptyString
  | String c r => repr_char q c ++ repr_body q r
  end.

Definition has_char (c : ascii) (s : string) : bool :=
  match rfind c s with Some _ => true | None => false end.

(** [repr(s)] for a [str]: double quotes only when the text has a single
    quote and no double quote. *)
Definition repr_str (s : string) : string :=
  let dq : ascii := ascii_of_nat 34 in
  let q : ascii := if has_char "'" s && negb (has_char dq s) then dq
                   else "'"%char in
  String q (repr_body q s ++ String q EmptyString).

Fixpoint repr (v : yaml) : string :=
  match v with
  | YNull => "None"
  | YBool true => "True"
  | YBool false => "False"
  | YInt n => of_Z n
  | YFloat r => r
  | YStr s => repr_str s
  | YList items => "[" ++ join ", " (map repr items) ++ "]"
  | YDict entries =>
      "{" ++ join ", " (map (fun '(k, x) => repr k ++ ": " ++ repr x) entries)
          ++ "}"
  end.

(** [str(v)], which is also how an f-string formats [v] *)
Definition str (v : yaml) : string :=
  match v with
  | YStr s => s
  | _ => repr v
  end.

(** [bool(v)] *)
Definition truthy (v : yaml) : bool :=
  match v with
  | YNull => false
  | YBool b => b
  | YInt n => negb (n =? 0)%Z
  | YFloat r => negb ((r =? "0.0") || (r =? "-0.0"))
  | YStr s => negb (s =? EmptyString)
  | YList items => match items with [] => false | _ => true end
  | YDict entries => match entries with [] => false | _ => true end
  end.

(** whether a key of a mapping equals the text [k] *)
Definition is_key (k : string) (key : yaml) : bool :=
  match key with
  | YStr s => (s =? k)
  | _ => false
  end.

Fixpoint lookup (k : string) (d : dict) : option yaml :=
  match d with
  | [] => None
  | (key, x) :: rest => if is_key k key then Some x else lookup k rest
  end.

Definition has_key (k : string) (d : dict) : bool :=
  match lookup k d with Some _ => true | None => false end.

(** [k in v] for a text [k] *)
Definition contains (k : string) (v : yaml) : result bool :=
  match v with
  | YDict d => Ok (has_key k d)
  | YList items => Ok (existsb (is_key k) items)
  | YStr s => Ok (Str.contains k s)
  | _ => Raise TypeError
  end.

(** [v[k]] for a text [k] *)
Definition getitem (v : yaml) (k : string) : result yaml :=
  match v with
  | YDict d => match lookup k d with Some x => Ok x | None => Raise KeyError end
  | _ => Raise TypeError
  end.

(** [v.get(k, default)] *)
Definition get (v : yaml) (k : string) (default : yaml) : result yaml :=
  match v with
  | YDict d => Ok (match lookup k d with Some x => x | None => default end)
  | _ => Raise AttributeError
  end.

(** the items [for x in v] runs over *)
Definition iter (v : yaml) : result (list yaml) :=
  match v with
  | YList items => Ok items
  | YDict d => Ok (map fst d)
  | YStr s => Ok (map YStr (chars s))
  | _ => Raise TypeError
  end.

Definition is_dict (v : yaml) : bool :=
  match v with YDict _ => true | _ => false end.

Definition is_list (v : yaml) : bool :=
  match v with YList _ => true | _ => false end.

Definition is_str (v : yaml) : bool :=
  match v with YStr _ => true | _ => false end.

(** a value expected to be a [str] *)
Definition expect_str (v : yaml) : result string :=
  match v with
  | YStr s => Ok s
  | _ => Raise TypeError
  end.

(** [sep.join(parts)] for a list of values: every item must be a [str] *)
Fixpoint strs (parts : list yaml) : result (list string) :=
  match parts with
  | [] => Ok []
  | p :: ps =>
      (s <- expect_str p ;; ss <- strs ps ;; Ok (s :: ss))%res
  end.

Definition join (sep : string) (parts : list yaml) : result string :=
  (ss <- strs parts ;; Ok (Str.join sep ss))%res.

(** [parts[i]] on a list *)
Definition index {A} (parts : list A) (i : nat) : result A :=
  match nth_error parts i with
  | Some a => Ok a
  | None => Raise IndexError
  end.

(** [Path(p).name]: the last component of a POSIX path *)
Definition path_name (p : string) : string :=
  last (filter (fun part => negb ((part =? EmptyString) || (part =? ".")))
               (Str.split "/" p)) EmptyString.

(** [Path(p).stem]: the name without its last suffix *)
Definition path_stem (p : string) : string :=
  let name := path_name p in
  match rfind "." name with
  | Some i =>
      if ((0 <? i) && (i <? String.length name - 1))%nat
      then substring 0 i name else name
  | None => name
  end.

End Py.

(** ** Field formatters *)

Local Open Scope result_scope.

(** [format_time]: the handler of the [try] catches [ValueError] and
    [IndexError] only. *)
Definition format_time_handled (e : exn) : bool :=
  match e with
  | ValueError | IndexError => true
  | _ => false
  end.

Definition format_time (time_str : yaml) : result string :=
  try_except
    (let parts := Str.split ":" (Py.str time_str) in
     p0 <- Py.index parts 0 ;;
     hours <- Str.to_int p0 ;;
     p1 <- Py.index parts 1 ;;
     mins <- Str.to_int p1 ;;
     if (0 <? hours)%Z
     then Ok (Str.of_Z hours ++ "h " ++ Str.of_Z mins ++ "min")
     else Ok (Str.of_Z mins ++ " min"))
    format_time_handled
    (Ok (Py.str time_str)).

Definition nonempty (s : string) : bool := negb (s =? EmptyString).

Definition format_ingredient (ing : yaml) : result string :=
  amount <- Py.get ing "amount" (YStr EmptyString) ;;
  let amount_str := Str.strip (Py.str amount) in
  unit <- Py.get ing "unit" (YStr EmptyString) ;;
  let unit_str := Str.strip (Py.str unit) in
  let parts := [] in
  let parts := if nonempty amount_str then app parts [YStr amount_str]
               else parts in
  let parts := if nonempty unit_str then app parts [YStr unit_str]
               else parts in
  item <- Py.getitem ing "item" ;;
  let parts := app parts [item] in
  line <- Py.join " " parts ;;
  has_amount_alt <- Py.contains "amount_alt" ing ;;
  has_both <- (if has_amount_alt then Py.contains "unit_alt" ing
               else Ok false) ;;
  line <- (if has_both then
             amount_alt <- Py.getitem ing "amount_alt" ;;
             unit_alt <- Py.getitem ing "unit_alt" ;;
             Ok (line ++ "  (" ++ Py.str amount_alt ++ " "
                      ++ Py.str unit_alt ++ ")")
           else
             has_amount_alt <- Py.contains "amount_alt" ing ;;
             if has_amount_alt then
               amount_alt <- Py.getitem ing "amount_alt" ;;
               Ok (line ++ "  (" ++ Py.str amount_alt ++ ")")
             else Ok line) ;;
  optional <- Py.get ing "optional" YNull ;;
  let line := if Py.truthy optional then line ++ "  [optional]" else line in
  brand <- Py.get ing "brand" YNull ;;
  line <- (if Py.truthy brand then
             brand <- Py.getitem ing "brand" ;;
             Ok (line ++ "  [Brand: " ++ Py.str brand ++ "]")
           else Ok line) ;;
  ref <- Py.get ing "ref" YNull ;;
  line <- (if Py.truthy ref then
             ref <- Py.getitem ing "ref" ;;
             path <- Py.expect_str ref ;;
             let ref_name :=
               Str.title (Str.replace_char "_" " " (Py.path_stem path)) in
             Ok (line ++ "  (see: " ++ ref_name ++ ")")
           else Ok line) ;;
  garnish <- Py.get ing "garnish" YNull ;;
  let line := if Py.truthy garnish then line ++ "  [garnish]" else line in
  Ok line.

Definition format_substitution (sub : yaml) : result string :=
  line <- format_ingredient sub ;;
  replaces <- Py.get sub "replaces" YNull ;;
  target <- (if Py.truthy replaces then Ok replaces
             else Py.get sub "for" (YStr EmptyString)) ;;
  let line := if Py.truthy target
              then line ++ "  → replaces " ++ Py.str target else line in
  Ok line.

(** ** The page-accumulation object *)

Definition color : Type := (Z * Z * Z)%type.

Record font : Type := mkFont {
  family : string;
  style : string;
  size : Z
}.

(** What has been drawn: a text block (one [cell] or [multi_cell] call, placed
    at the position of its first line) or a rule. *)
Inductive op : Type :=
| OText (footer : bool) (pg : nat) (x y : Q) (f : font) (c : color)
        (txt : string)
| ORule (pg : nat) (x1 y1 x2 y2 : Q) (lw : Q) (c : color).

Record pdf : Type := mkPdf {
  font_name : string;        (* [RecipePDF._font_name] *)
  page : nat;
  cur_x : Q;
  cur_y : Q;
  cur_font : font;
  text_color : color;
  draw_color : color;
  line_width : Q;
  in_footer : bool;
  str_alias_nb_pages : string;
  ops : list op
}.

Definition BROWN_DARK : color := (62, 39, 35)%Z.
Definition BROWN_MED : color := (93, 64, 55)%Z.
Definition TEXT_COLOR : color := (33, 33, 33)%Z.
Definition GRAY_ACCENT : color := (188, 170, 164)%Z.
Definition GRAY_TEXT : color := (97, 97, 97)%Z.
Definition LINK_COLOR : color := (0, 0, 180)%Z.

Inductive new_x_mode : Type := X_RIGHT | X_LMARGIN.
Inductive new_y_mode : Type := Y_TOP | Y_NEXT.

Definition Qlt_bool (a b : Q) : bool := negb (Qle_bool b a).

Module Fpdf.

(** A4 portrait: 595.28 by 841.89 points, in millimetres by the scale factor
    [k] of the library (a page is a little over 210 by 297); the default
    margins of 1 cm, and the bottom margin set by
    [set_auto_page_break(auto=True, margin=15)]. *)
Definition k : Q := 72 / 25.4.
Definition page_w : Q := 595.28 / k.
Definition page_h : Q := 841.89 / k.
Definition l_margin : Q := 10.
Definition t_margin : Q := 10.
Definition r_margin : Q := 10.
Definition b_margin : Q := 15.
Definition page_break_trigger : Q := page_h - b_margin.

Definition with_cursor (x y : Q) (st : pdf) : pdf :=
  mkPdf (font_name st) (page st) x y (cur_font st) (text_color st)
        (draw_color st) (line_width st) (in_footer st)
        (str_alias_nb_pages st) (ops st).

Definition with_in_footer (b : bool) (st : pdf) : pdf :=
  mkPdf (font_name st) (page st) (cur_x st) (cur_y st) (cur_font st)
        (text_color st) (draw_color st) (line_width st) b
        (str_alias_nb_pages st) (ops st).

Definition emit (o : op) (st : pdf) : pdf :=
  mkPdf (font_name st) (page st) (cur_x st) (cur_y st) (cur_font st)
        (text_color st) (draw_color st) (line_width st) (in_footer st)
        (str_alias_nb_pages st) (app (ops st) [o]).

Definition set_font (fam sty : string) (sz : Z) (st : pdf) : pdf :=
  mkPdf (font_name st) (page st) (cur_x st) (cur_y st) (mkFont fam sty sz)
        (text_color st) (draw_color st) (line_width st) (in_footer st)
        (str_alias_nb_pages st) (ops st).

Definition set_text_color (c : color) (st : pdf) : pdf :=
  mkPdf (font_name st) (page st) (cur_x st) (cur_y st) (cur_font st)
        c (draw_color st) (line_width st) (in_footer st)
        (str_alias_nb_pages st) (ops st).

Definition set_draw_color (c : color) (st : pdf) : pdf :=
  mkPdf (font_name st) (page st) (cur_x st) (cur_y st) (cur_font st)
        (text_color st) c (line_width st) (in_footer st)
        (str_alias_nb_pages st) (ops st).

Definition set_line_width (w : Q) (st : pdf) : pdf :=
  mkPdf (font_name st) (page st) (cur_x st) (cur_y st) (cur_font st)
        (text_color st) (draw_color st) w (in_footer st)
        (str_alias_nb_pages st) (ops st).

Definition alias_nb_pages (st : pdf) : pdf :=
  mkPdf (font_name st) (page st) (cur_x st) (cur_y st) (cur_font st)
        (text_color st) (draw_color st) (line_width st) (in_footer st)
        "{nb}" (ops st).

Definition get_y (st : pdf) : Q := cur_y st.

Definition page_no (st : pdf) : nat := page st.

(** a negative position counts from the right or bottom edge *)
Definition set_x (x : Q) (st : pdf) : pdf :=
  with_cursor (if Qle_bool 0 x then x else page_w + x) (cur_y st) st.

Definition set_y (y : Q) (st : pdf) : pdf :=
  with_cursor l_margin (if Qle_bool 0 y then y else page_h + y) st.

Definition ln (h : Q) (st : pdf) : pdf :=
  with_cursor l_margin (cur_y st + h) st.

Definition line (x1 y1 x2 y2 : Q) (st : pdf) : pdf :=
  emit (ORule (page st) x1 y1 x2 y2 (line_width st) (draw_color st)) st.

(** a width of 0 extends to the right margin *)
Definition cell_width (w : Q) (st : pdf) : Q :=
  if Qeq_bool w 0 then page_w - r_margin - cur_x st else w.

Definition will_page_break (h : Q) (st : pdf) : bool :=
  Qlt_bool page_break_trigger (cur_y st + h) && negb (in_footer st).

(** the automatic page break of [cell] and [multi_cell]: a new page, with the
    abscissa kept *)
Definition page_break_with (new_page : pdf -> pdf) (h : Q) (st : pdf) : pdf :=
  if will_page_break h st
  then with_cursor (cur_x st) (cur_y (new_page st)) (new_page st)
  else st.

Definition draw_cell (w h : Q) (txt : string) (nx : new_x_mode)
    (ny : new_y_mode) (st : pdf) : pdf :=
  let w' := cell_width w st in
  let st1 := emit (OText (in_footer st) (page st) (cur_x st) (cur_y st)
                         (cur_font st) (text_color st) txt) st in
  with_cursor (match nx with
               | X_RIGHT => cur_x st + w'
               | X_LMARGIN => l_margin
               end)
              (match ny with Y_TOP => cur_y st | Y_NEXT => cur_y st + h end)
              st1.

Definition cell_with (new_page : pdf -> pdf) (w h : Q) (txt : string)
    (nx : new_x_mode) (ny : new_y_mode) (st : pdf) : pdf :=
  draw_cell w h txt nx ny (page_break_with new_page h st).

(** [RecipePDF.footer].  The library calls it with [in_footer] set, where
    [cell] breaks no page, so its page-break hook is the identity. *)
Definition footer (st : pdf) : pdf :=
  let st := set_y (-15) st in
  let st := set_font (font_name st) EmptyString 8 st in
  let st := set_text_color GRAY_TEXT st in
  cell_with (fun s => s) 0 10
    ("Page " ++ Str.of_Z (Z.of_nat (page_no st)) ++ "/{nb}") X_RIGHT Y_TOP st.

Definition close_page (st : pdf) : pdf :=
  with_in_footer false (footer (with_in_footer true st)).

(** [add_page]: the footer of the page being left, then a new page with the
    cursor at the top left margin and the graphic state of before.
    [RecipePDF.header] does nothing. *)
Definition add_page (st : pdf) : pdf :=
  let st1 := if (0 <? page st)%nat then close_page st else st in
  mkPdf (font_name st1) (S (page st1)) l_margin t_margin (cur_font st)
        (text_color st) (draw_color st) (line_width st) (in_footer st1)
        (str_alias_nb_pages st1) (ops st1).

Definition page_break (h : Q) (st : pdf) : pdf := page_break_with add_page h st.

Definition cell (w h : Q) (txt : string) (nx : new_x_mode) (ny : new_y_mode)
    (st : pdf) : pdf :=
  cell_with add_page w h txt nx ny st.

Section Wrapping.

(** the number of lines a text takes in a font at a width *)
Variable line_count : font -> Q -> string -> nat.

(** the lines after the first: each breaks the page when it does not fit *)
Fixpoint flow_lines (n : nat) (h : Q) (st : pdf) : pdf :=
  match n with
  | O => st
  | S k =>
      let st1 := page_break h st in
      flow_lines k h (with_cursor (cur_x st1) (cur_y st1 + h) st1)
  end.

(** [multi_cell(w, h, text, new_x="LMARGIN", new_y="NEXT")]: at least one
    line is laid out. *)
Definition multi_cell (w h : Q) (txt : string) (st : pdf) : pdf :=
  let n := Nat.max 1 (line_count (cur_font st) (cell_width w st) txt) in
  let st1 := page_break h st in
  let st2 := emit (OText (in_footer st1) (page st1) (cur_x st1) (cur_y st1)
                         (cur_font st1) (text_color st1) txt) st1 in
  let st3 := with_cursor (cur_x st2) (cur_y st2 + h) st2 in
  let st4 := flow_lines (n - 1) h st3 in
  with_cursor l_margin (cur_y st4) st4.

End Wrapping.

(** the state after [FPDF.__init__] and [set_auto_page_break], with the font
    family that [_setup_fonts] resolved *)
Definition init (resolved_font : string) : pdf :=
  mkPdf resolved_font 0 l_margin t_margin (mkFont EmptyString EmptyString 12)
        (0, 0, 0)%Z (0, 0, 0)%Z 0.2 false "{nb}" [].

(** [_setup_fonts] settles on "DejaVu", registered from TrueType files, or
    on the core font "Helvetica". *)
Definition is_ttf (family : string) : bool := family =? "DejaVu".

(** What the library makes of a text argument.  [multi_cell] calls a method
    of [str] on it at once.  [cell] under a core font encodes it first, which
    only a [str] allows; under a TrueType font it lays out no text for a
    falsy argument, and calls a method of [str] on any other. *)
Definition multi_cell_text (text : yaml) : result string :=
  match text with
  | YStr s => Ok s
  | _ => Raise AttributeError
  end.

Definition cell_text (family : string) (text : yaml) : result string :=
  match text with
  | YStr s => Ok s
  | _ =>
      if is_ttf family && negb (Py.truthy text) then Ok EmptyString
      else Raise AttributeError
  end.

End Fpdf.

(** ** Rendering: state and exceptions together *)

(** A method of [RecipePDF] transforms the object and returns or raises; the
    object keeps what was drawn before an exception. *)
Definition M (A : Type) : Type := pdf -> pdf * result A.

Definition ret {A} (a : A) : M A := fun st => (st, Ok a).

Definition bind {A B} (m : M A) (f : A -> M B) : M B :=
  fun st =>
    match m st with
    | (st1, Ok a) => f a st1
    | (st1, Raise e) => (st1, Raise e)
    end.

(** a library call that changes the object *)
Definition act (f : pdf -> pdf) : M unit := fun st => (f st, Ok tt).

(** an expression that does not touch the object *)
Definition pure {A} (r : result A) : M A := fun st => (st, r).

Definition gets {A} (f : pdf -> A) : M A := fun st => (st, Ok (f st)).

Declare Scope render_scope.
Delimit Scope render_scope with M.
Notation "x <- m ;; k" := (bind m (fun x => k))
  (at level 61, m at next level, right associativity) : render_scope.
Notation "m ;; k" := (bind m (fun _ => k))
  (at level 61, right associativity) : render_scope.

Fixpoint for_each {A} (items : list A) (body : A -> M unit) : M unit :=
  match items with
  | [] => ret tt
  | a :: rest => bind (body a) (fun _ => for_each rest body)
  end.

(** [y = str(d["yield"])], extended by the unit when there is one *)
Definition yield_text (d : yaml) : result string :=
  yv <- Py.getitem d "yield" ;;
  let y := Py.str yv in
  has_unit <- Py.contains "yield_unit" d ;;
  if has_unit then
    u <- Py.getitem d "yield_unit" ;; Ok (y ++ " " ++ Py.str u)
  else Ok y.

(** [if key in data: parts.append(f"{label}{data[key]}")] *)
Definition labelled (data : yaml) (key label : string) (parts : list string)
    : result (list string) :=
  present <- Py.contains key data ;;
  if present then
    v <- Py.getitem data key ;; Ok (app parts [label ++ Py.str v])
  else Ok parts.

Definition labelled_time (data : yaml) (key label : string)
    (parts : list string) : result (list string) :=
  present <- Py.contains key data ;;
  if present then
    v <- Py.getitem data key ;;
    t <- format_time v ;;
    Ok (app parts [label ++ t])
  else Ok parts.

Definition meta_parts (data : yaml) : result (list string) :=
  parts <- labelled data "region" "Region: " [] ;;
  parts <- labelled data "ethnicity" "Ethnicity: " parts ;;
  parts <- labelled data "restaurant" "Restaurant: " parts ;;
  labelled data "category" "Category: " parts.

Definition time_parts (data : yaml) : result (list string) :=
  parts <- labelled_time data "prep_time" "Prep: " [] ;;
  parts <- labelled_time data "cook_time" "Cook: " parts ;;
  has_yield <- Py.contains "yield" data ;;
  parts <- (if has_yield then
              y <- yield_text data ;; Ok (app parts ["Yield: " ++ y])
            else Ok parts) ;;
  labelled data "method" "Method: " parts.

(** [label += text]: concatenation on a [str], extension by the characters
    on a [list], an error otherwise *)
Definition iadd_str (v : yaml) (text : string) : result yaml :=
  match v with
  | YStr s => Ok (YStr (s ++ text))
  | YList items => Ok (YList (app items (map YStr (Str.chars text))))
  | _ => Raise TypeError
  end.

(** the loop of [render_steps] over [step.items()]: each pair overwrites
    [step] *)
Definition flatten_step (step : yaml) : yaml :=
  match step with
  | YDict entries =>
      fold_left (fun _ '(key, val) => YStr (Py.str key ++ ": " ++ Py.str val))
                entries step
  | _ => step
  end.

Local Close Scope result_scope.
Local Open Scope render_scope.

Section RecipePDF.

Variable line_count : font -> Q -> string -> nat.

Definition use_font (sty : string) (sz : Z) : M unit :=
  act (fun st => Fpdf.set_font (font_name st) sty sz st).

Definition cell_next (w h : Q) (txt : string) : M unit :=
  act (Fpdf.cell w h txt X_LMARGIN Y_NEXT).

Definition multi_cell (w h : Q) (txt : string) : M unit :=
  act (Fpdf.multi_cell line_count w h txt).

Definition rule_here : M unit :=
  act (fun st => Fpdf.line 20 (Fpdf.get_y st) 190 (Fpdf.get_y st) st).

Definition _section_header (title : string) : M unit :=
  y <- gets Fpdf.get_y ;;
  (if Qlt_bool 250 y then act Fpdf.add_page else ret tt) ;;
  act (Fpdf.ln 4) ;;
  use_font "B" 13 ;;
  act (Fpdf.set_text_color BROWN_MED) ;;
  cell_next 0 8 title ;;
  act (Fpdf.set_draw_color GRAY_ACCENT) ;;
  rule_here ;;
  act (Fpdf.ln 3).

Definition _bullet_line (text : yaml) (indent : Q) : M unit :=
  use_font EmptyString 10 ;;
  act (Fpdf.set_text_color TEXT_COLOR) ;;
  act (Fpdf.set_x (22 + indent)) ;;
  multi_cell (166 - indent) 5 ("•  " ++ Py.str text) ;;
  act (Fpdf.ln 1).

Definition _numbered_line (number : Z) (text : yaml) (indent : Q) : M unit :=
  use_font EmptyString 10 ;;
  act (Fpdf.set_text_color TEXT_COLOR) ;;
  let prefix := Str.of_Z number ++ ".  " in
  act (Fpdf.set_x (22 + indent)) ;;
  multi_cell (166 - indent) 5 (prefix ++ Py.str text) ;;
  act (Fpdf.ln 1.5).

Definition render_header (data : yaml) : M unit :=
  use_font "B" 24 ;;
  act (Fpdf.set_text_color BROWN_DARK) ;;
  name <- pure (Py.getitem data "name") ;;
  title <- pure (Fpdf.multi_cell_text name) ;;
  multi_cell 0 12 title ;;
  act (Fpdf.set_draw_color GRAY_ACCENT) ;;
  act (Fpdf.set_line_width 0.5) ;;
  rule_here ;;
  act (Fpdf.set_line_width 0.2) ;;
  act (Fpdf.ln 4) ;;
  parts <- pure (meta_parts data) ;;
  (match parts with
   | [] => ret tt
   | _ =>
       use_font EmptyString 10 ;;
       act (Fpdf.set_text_color GRAY_TEXT) ;;
       cell_next 0 6 (Str.join " | " parts) ;;
       act (Fpdf.ln 2)
   end) ;;
  parts <- pure (time_parts data) ;;
  (match parts with
   | [] => ret tt
   | _ =>
       use_font EmptyString 10 ;;
       act (Fpdf.set_text_color GRAY_TEXT) ;;
       cell_next 0 6 (Str.join " | " parts) ;;
       act (Fpdf.ln 2)
   end) ;;
  has_source <- pure (Py.contains "source" data) ;;
  (if has_source : bool then
     use_font EmptyString 8 ;;
     act (Fpdf.set_text_color LINK_COLOR) ;;
     for_each ["url"; "url2"] (fun key =>
       source <- pure (Py.getitem data "source") ;;
       present <- pure (Py.contains key source) ;;
       if present : bool then
         source <- pure (Py.getitem data "source") ;;
         url <- pure (Py.getitem source key) ;;
         current <- gets cur_font ;;
         text <- pure (Fpdf.cell_text (family current) url) ;;
         cell_next 0 5 text ;;
         act (Fpdf.ln 1)
       else ret tt)
   else ret tt) ;;
  act (Fpdf.ln 4).

Definition render_ingredients (ingredients : yaml) (indent : Q) : M unit :=
  items <- pure (Py.iter ingredients) ;;
  for_each items (fun ing =>
    text <- pure (format_ingredient ing) ;;
    _bullet_line (YStr text) indent).

(** the loop of [render_steps]; [i] is the counter of [enumerate(steps, 1)] *)
Fixpoint render_steps_from (i : Z) (steps : list yaml) (indent : Q) : M unit :=
  match steps with
  | [] => ret tt
  | step :: rest =>
      _numbered_line i (flatten_step step) indent ;;
      render_steps_from (i + 1) rest indent
  end.

Definition render_steps (steps : yaml) (indent : Q) : M unit :=
  items <- pure (Py.iter steps) ;;
  render_steps_from 1 items indent.

Definition render_substitutions (subs : yaml) (indent : Q) : M unit :=
  items <- pure (Py.iter subs) ;;
  for_each items (fun sub =>
    text <- pure (format_substitution sub) ;;
    _bullet_line (YStr text) indent).

(** the small label line of a sub-block of a component *)
Definition sub_label (text : string) : M unit :=
  use_font EmptyString 9 ;;
  act (Fpdf.set_text_color GRAY_TEXT) ;;
  act (Fpdf.set_x 26) ;;
  cell_next 0 5 text ;;
  act (Fpdf.ln 1).

Definition render_component (comp : yaml) : M unit :=
  use_font "B" 12 ;;
  act (Fpdf.set_text_color BROWN_MED) ;;
  label <- pure (Py.getitem comp "name") ;;
  has_yield <- pure (Py.contains "yield" comp) ;;
  label <- (if has_yield : bool then
              y <- pure (yield_text comp) ;;
              pure (iadd_str label ("  (yields " ++ y ++ ")"))
            else ret label) ;;
  act (Fpdf.set_x 22) ;;
  cell_next 0 7 ("▸ " ++ Py.str label) ;;
  act (Fpdf.ln 2) ;;
  has_ingredients <- pure (Py.contains "ingredients" comp) ;;
  (if has_ingredients : bool then
     sub_label "Ingredients:" ;;
     ingredients <- pure (Py.getitem comp "ingredients") ;;
     render_ingredients ingredients 10
   else ret tt) ;;
  has_steps <- pure (Py.contains "steps" comp) ;;
  (if has_steps : bool then
     sub_label "Steps:" ;;
     steps <- pure (Py.getitem comp "steps") ;;
     render_steps steps 10
   else ret tt) ;;
  has_subs <- pure (Py.contains "substitutions" comp) ;;
  (if has_subs : bool then
     sub_label "Substitutions:" ;;
     subs <- pure (Py.getitem comp "substitutions") ;;
     render_substitutions subs 10
   else ret tt) ;;
  has_optional <- pure (Py.contains "optional" comp) ;;
  optional_is_list <- (if has_optional : bool then
                         opt <- pure (Py.getitem comp "optional") ;;
                         ret (Py.is_list opt)
                       else ret false) ;;
  (if optional_is_list : bool then
     sub_label "Optional:" ;;
     opt <- pure (Py.getitem comp "optional") ;;
     render_ingredients opt 10
   else ret tt) ;;
  act (Fpdf.ln 2).

Definition render_components (comps : yaml) : M unit :=
  items <- pure (Py.iter comps) ;;
  for_each items render_component.

Definition render_optional_section (data : yaml) : M unit :=
  opt <- pure (Py.get data "optional" YNull) ;;
  if negb (Py.truthy opt) then ret tt
  else
    _section_header "Optional" ;;
    if Py.is_list opt then render_ingredients opt 0
    else if Py.is_dict opt then
      has_components <- pure (Py.contains "components" opt) ;;
      (if has_components : bool then
         comps <- pure (Py.getitem opt "components") ;;
         render_components comps
       else ret tt) ;;
      has_ingredients <- pure (Py.contains "ingredients" opt) ;;
      (if has_ingredients : bool then
         ingredients <- pure (Py.getitem opt "ingredients") ;;
         render_ingredients ingredients 0
       else ret tt)
    else ret tt.

(** [if key in data: self._section_header(title); body(data[key])] *)
Definition section (data : yaml) (key title : string) (body : yaml -> M unit)
    : M unit :=
  present <- pure (Py.contains key data) ;;
  if present : bool then
    _section_header title ;;
    v <- pure (Py.getitem data key) ;;
    body v
  else ret tt.

Definition render_garnishes (garnishes : yaml) : M unit :=
  items <- pure (Py.iter garnishes) ;;
  for_each items (fun g =>
    item <- pure (Py.getitem g "item") ;;
    _bullet_line item 0).

Definition render_notes (notes : yaml) : M unit :=
  items <- pure (Py.iter notes) ;;
  for_each items (fun note => _bullet_line note 0).

Definition render_recipe (data : yaml) : M unit :=
  act Fpdf.alias_nb_pages ;;
  act Fpdf.add_page ;;
  render_header data ;;
  section data "components" "Components" render_components ;;
  section data "ingredients" "Ingredients"
          (fun v => render_ingredients v 0) ;;
  render_optional_section data ;;
  section data "steps" "Steps" (fun v => render_steps v 0) ;;
  section data "steps_alt" "Alternative Steps" (fun v => render_steps v 0) ;;
  section data "substitutions" "Substitutions"
          (fun v => render_substitutions v 0) ;;
  section data "garnishes" "Garnishes" render_garnishes ;;
  section data "notes" "Notes" render_notes.

End RecipePDF.

(** ** Serialisation and the batch driver *)

Local Close Scope render_scope.
Local Open Scope result_scope.

(** [s.replace(old, new)] for a non-empty [old]; [skip] counts the characters
    of a match still to be dropped *)
Fixpoint replace_from (old new s : string) (skip : nat) : string :=
  match s with
  | EmptyString => EmptyString
  | String c r =>
      match skip with
      | S k => replace_from old new r k
      | O =>
          if String.prefix old s
          then new ++ replace_from old new r (String.length old - 1)
          else String c (replace_from old new r 0)
      end
  end.

Definition replace (old new s : string) : string := replace_from old new s 0.

(** What is serialised: the pages, what is drawn on them, and the creation
    date.  The program sets no date, and the library stamps the reading of
    the clock, in seconds, in the information dictionary of the file (the
    file identifier is a digest of the same content). *)
Record document : Type := mkDocument {
  doc_pages : nat;
  doc_objects : list op;
  doc_creation_date : Z
}.

Definition resolve_alias (alias total : string) (o : op) : op :=
  match o with
  | OText ft pg x y f c txt => OText ft pg x y f c (replace alias total txt)
  | ORule _ _ _ _ _ _ _ => o
  end.

(** What [pdf.output(path)] serialises at the clock reading [now]: a first
    page if there is none, the footer of the last page, and the page total
    put in place of its alias. *)
Definition output (now : Z) (st : pdf) : document :=
  let st := if (page st =? 0)%nat then Fpdf.add_page st else st in
  let st := Fpdf.close_page st in
  let total := Str.of_Z (Z.of_nat (page st)) in
  mkDocument (page st)
             (map (resolve_alias (str_alias_nb_pages st) total) (ops st))
             now.

(** [s] has no character outside Latin-1: in UTF-8, no byte from 0xC4 on *)
Fixpoint latin1 (s : string) : bool :=
  match s with
  | EmptyString => true
  | String c r => (nat_of_ascii c <? 196)%nat && latin1 r
  end.

Definition op_text (o : op) : list string :=
  match o with
  | OText _ _ _ _ _ _ txt => [txt]
  | ORule _ _ _ _ _ _ _ => []
  end.

(** The library encodes the text of a cell for a core font in Latin-1, and
    raises on a character outside it; a TrueType font takes any text.  Every
    font the renderer sets is of the family [_setup_fonts] settled on. *)
Definition accepted (family : string) (os : list op) : bool :=
  Fpdf.is_ttf family || forallb latin1 (flat_map op_text os).

Definition refusal (family : string) (os : list op) : result unit :=
  if accepted family os then Ok tt else Raise FPDFUnicodeEncodingException.

(** A path is the list of its components, relative to the repository root. *)
Definition path : Type := list string.

(** A [*.yaml] file of the tree, with what the system gives for it in a run:
    the outcome of [open] and [yaml.safe_load], of
    [output_path.parent.mkdir(parents=True, exist_ok=True)], of the
    constructor [RecipePDF()] (an exception that [_setup_fonts] does not
    catch) and of writing the file in [pdf.output], and the reading of the
    clock that the library stamps in the document. *)
Record recipe_file : Type := mkFile {
  rel_path : path;
  loaded : result yaml;
  dir_made : result unit;
  constructed : result unit;
  stored : result unit;
  clock : Z
}.

(** a file for which the system raises nothing *)
Definition plain_file (p : path) (data : result yaml) : recipe_file :=
  mkFile p data (Ok tt) (Ok tt) (Ok tt) 0.

Definition EXCLUDE_DIRS : list string := ["PDF"; "tools"; ".git"; ".claude"].

Fixpoint path_leb (p q : path) : bool :=
  match p, q with
  | [], _ => true
  | _ :: _, [] => false
  | a :: p', b :: q' =>
      match String.compare a b with
      | Lt => true
      | Gt => false
      | Eq => path_leb p' q'
      end
  end.

Fixpoint insert_sorted (f : recipe_file) (fs : list recipe_file)
    : list recipe_file :=
  match fs with
  | [] => [f]
  | g :: rest =>
      if path_leb (rel_path f) (rel_path g) then f :: fs
      else g :: insert_sorted f rest
  end.

(** [sorted(...)] on paths *)
Definition sorted (fs : list recipe_file) : list recipe_file :=
  fold_right insert_sorted [] fs.

Definition excluded (p : path) : bool :=
  existsb (fun part => existsb (String.eqb part) EXCLUDE_DIRS) p.

(** [tree] lists what [repo_root.rglob("*.yaml")] yields. *)
Definition find_recipe_files (tree : list recipe_file) : list recipe_file :=
  filter (fun f => negb (excluded (rel_path f))) (sorted tree).

(** [Path.stem] of a file name *)
Definition name_stem (name : string) : string :=
  match Str.rfind "." name with
  | Some i =>
      if ((0 <? i) && (i <? String.length name - 1))%nat
      then substring 0 i name else name
  | None => name
  end.

(** [rel_path.with_suffix(".pdf")]; the names that [rglob] yields are never
    empty *)
Fixpoint with_suffix (suffix : string) (p : path) : path :=
  match p with
  | [] => []
  | [name] => [name_stem name ++ suffix]
  | d :: rest => d :: with_suffix suffix rest
  end.

(** [build_dir / rel_path.with_suffix(".pdf")], relative to the repository
    root *)
Definition output_path (f : recipe_file) : path :=
  "PDF" :: with_suffix ".pdf" (rel_path f).

Inductive report : Type :=
| ReportOk (p : path)
| ReportSkip (p : path)
| ReportError (p : path) (e : exn).

(** the counters of the loop of [main], the documents written and the lines
    printed *)
Record batch : Type := mkBatch {
  success_count : nat;
  error_count : nat;
  written : list (path * document);
  console : list report
}.

Inductive attempt : Type :=
| Skipped
| Rendered (doc : document).

Section Main.

Variable line_count : font -> Q -> string -> nat.

(** [not data or "name" not in data] *)
Definition lacks_name (data : yaml) : result bool :=
  if negb (Py.truthy data) then Ok true
  else present <- Py.contains "name" data ;; Ok (negb present).

(** The body of the [try] of [main] for one file, on a renderer of its own.
    [render_recipe] lays out what the library accepts; the library refuses a
    text that the font cannot encode when it is drawn, before anything drawn
    after it: the first exception is this refusal when a refused text was
    drawn, and the one of [render_recipe] otherwise. *)
Definition attempt_file (resolved_font : string) (f : recipe_file)
    : result attempt :=
  data <- loaded f ;;
  skip <- lacks_name data ;;
  if skip : bool then Ok Skipped
  else
    _ <- constructed f ;;
    let pdf := Fpdf.init resolved_font in
    let '(pdf, outcome) := render_recipe line_count data pdf in
    _ <- refusal resolved_font (ops pdf) ;;
    _ <- outcome ;;
    _ <- stored f ;;
    Ok (Rendered (output (clock f) pdf)).

(** the [try] and its handler in one turn of the loop of [main] *)
Definition process_file (resolved_font : string) (b : batch) (f : recipe_file)
    : batch :=
  match attempt_file resolved_font f with
  | Ok Skipped =>
      mkBatch (success_count b) (error_count b + 1) (written b)
              (app (console b) [ReportSkip (rel_path f)])
  | Ok (Rendered doc) =>
      mkBatch (success_count b + 1) (error_count b)
              (app (written b) [(output_path f, doc)])
              (app (console b) [ReportOk (rel_path f)])
  | Raise e =>
      mkBatch (success_count b) (error_count b + 1) (written b)
              (app (console b) [ReportError (rel_path f) e])
  end.

(** what the turn for [f] writes *)
Definition documents_of (resolved_font : string) (f : recipe_file)
    : list (path * document) :=
  match attempt_file resolved_font f with
  | Ok (Rendered doc) => [(output_path f, doc)]
  | _ => []
  end.

Definition empty_batch : batch := mkBatch 0 0 [] [].

(** The loop of [main].  The directory of the output path is created
    before the [try]: an exception there is not caught and ends the run,
    with the files after it left alone. *)
Fixpoint run_files (resolved_font : string) (files : list recipe_file)
    (b : batch) : result unit * batch :=
  match files with
  | [] => (Ok tt, b)
  | f :: rest =>
      match dir_made f with
      | Ok _ => run_files resolved_font rest (process_file resolved_font b f)
      | Raise e => (Raise e, b)
      end
  end.

(** [main]: the value returned, or the exception that nothing caught, and
    the state of the batch at that point *)
Definition main (resolved_font : string) (tree : list recipe_file)
    : result Z * batch :=
  let recipe_files := find_recipe_files tree in
  match recipe_files with
  | [] => (Ok 1%Z, empty_batch)
  | _ =>
      let '(outcome, b) := run_files resolved_font recipe_files empty_batch in
      (_ <- outcome ;; Ok (if (0 <? error_count b)%nat then 1%Z else 0%Z), b)
  end.

(** [sys.exit(main())]: the status of the process, 1 when an exception
    ends it *)
Definition exit_status (returned : result Z) : Z :=
  match returned with
  | Ok status => status
  | Raise _ => 1%Z
  end.

End Main.

(** ** What a rendering shows *)

Local Close Scope result_scope.

Definition is_footer_op (o : op) : bool :=
  match o with
  | OText ft _ _ _ _ _ _ => ft
  | ORule _ _ _ _ _ _ _ => false
  end.

(** Only [_section_header] writes in bold at 13 points. *)
Definition is_title_font (f : font) : bool :=
  (style f =? "B") && (size f =? 13)%Z.

Definition title_of (o : op) : list string :=
  match o with
  | OText false _ _ _ f _ txt => if is_title_font f then [txt] else []
  | _ => []
  end.

(** the section headers drawn, in order *)
Definition section_titles (os : list op) : list string := flat_map title_of os.

Definition text_of (o : op) : list string :=
  match o with
  | OText false _ _ _ _ _ txt => [txt]
  | _ => []
  end.

(** the text blocks drawn outside footers, in order *)
Definition body_texts (os : list op) : list string := flat_map text_of os.

Definition is_prefix {A} (l1 l2 : list A) : Prop :=
  exists rest, l2 = app l1 rest.

(** ** The statements of the specification *)

(** *** Section order *)

Definition section_if (data : yaml) (key title : string) : list string :=
  match Py.contains key data with
  | Ok true => [title]
  | _ => []
  end.

(** The [Optional] header is drawn when [shown] accepts the value of the
    field. *)
Definition optional_if (shown : yaml -> bool) (data : yaml) : list string :=
  match data with
  | YDict d =>
      match Py.lookup "optional" d with
      | Some v => if shown v then ["Optional"] else []
      | None => []
      end
  | _ => []
  end.

Definition sections_in_order (shown : yaml -> bool) (data : yaml)
    : list string :=
  app (section_if data "components" "Components")
 (app (section_if data "ingredients" "Ingredients")
 (app (optional_if shown data)
 (app (section_if data "steps" "Steps")
 (app (section_if data "steps_alt" "Alternative Steps")
 (app (section_if data "substitutions" "Substitutions")
 (app (section_if data "garnishes" "Garnishes")
      (section_if data "notes" "Notes"))))))).

(** as the specification words it: every section, [Optional] too, is drawn
    iff its field is present *)
Definition sections_by_presence (data : yaml) : list string :=
  sections_in_order (fun _ => true) data.

(** as the code has it: [Optional] needs a truthy value *)
Definition sections_rendered (data : yaml) : list string :=
  sections_in_order Py.truthy data.

(** *** Ingredient line *)

Definition quantity_part (v : option yaml) : list string :=
  match v with
  | Some a =>
      let s := Str.strip (Py.str a) in if nonempty s then [s] else []
  | None => []
  end.

Definition alt_clause (d : dict) : string :=
  match Py.lookup "amount_alt" d, Py.lookup "unit_alt" d with
  | Some a, Some u => "  (" ++ Py.str a ++ " " ++ Py.str u ++ ")"
  | Some a, None => "  (" ++ Py.str a ++ ")"
  | None, _ => EmptyString
  end.

Definition flag (d : dict) (key : string) : bool :=
  match Py.lookup key d with
  | Some v => Py.truthy v
  | None => false
  end.

Definition flag_clause (d : dict) (key text : string) : string :=
  if flag d key then text else EmptyString.

Definition brand_clause (d : dict) : string :=
  match Py.lookup "brand" d with
  | Some b => if Py.truthy b then "  [Brand: " ++ Py.str b ++ "]"
              else EmptyString
  | None => EmptyString
  end.

(** the file name stem of the path, underscores as spaces, title-cased *)
Definition derived_name (ref : string) : string :=
  Str.title (Str.replace_char "_" " " (Py.path_stem ref)).

Definition ref_clause (shown : yaml -> bool) (d : dict) : string :=
  match Py.lookup "ref" d with
  | Some r => if shown r then "  (see: " ++ derived_name (Py.str r) ++ ")"
              else EmptyString
  | None => EmptyString
  end.

Definition ingredient_line (shown : yaml -> bool) (d : dict) (item : string)
    : string :=
  Str.join " " (app (quantity_part (Py.lookup "amount" d))
               (app (quantity_part (Py.lookup "unit" d)) [item]))
  ++ alt_clause d
  ++ flag_clause d "optional" "  [optional]"
  ++ brand_clause d
  ++ ref_clause shown d
  ++ flag_clause d "garnish" "  [garnish]".



(** *** Substitution line *)

(** as the specification words it: [replaces] when present, else [for] when
    present; nothing is appended when neither is *)
Definition replaces_clause_as_specified (d : dict) : string :=
  match Py.lookup "replaces" d, Py.lookup "for" d with
  | Some r, _ => "  → replaces " ++ Py.str r
  | None, Some f => "  → replaces " ++ Py.str f
  | None, None => EmptyString
  end.

(** as the code has it: [replaces] when truthy, else [for]; nothing is
    appended when the target is falsy *)
Definition substitution_target (d : dict) : yaml :=
  let fallback := match Py.lookup "for" d with
                  | Some f => f
                  | None => YStr EmptyString
                  end in
  match Py.lookup "replaces" d with
  | Some r => if Py.truthy r then r else fallback
  | None => fallback
  end.

Definition replaces_clause (d : dict) : string :=
  if Py.truthy (substitution_target d)
  then "  → replaces " ++ Py.str (substitution_target d)
  else EmptyString.

(** *** Steps *)




(** *** Batch *)


(** The renderer has a page open and draws on it, outside a footer, with
    the DejaVu font: the library takes every text. *)
Definition drawing (st : pdf) : Prop :=
  in_footer st = false /\ (1 <= page st)%nat /\ font_name st = "DejaVu".

(** the [try] of [main] completes for [f] and gives the document [doc] *)
Definition completes (line_count : font -> Q -> string -> nat)
    (resolved_font : string) (f : recipe_file) (doc : document) : Prop :=
  exists data st,
    loaded f = Ok data /\ Py.truthy data = true /\
    Py.contains "name" data = Ok true /\
    constructed f = Ok tt /\
    render_recipe line_count data (Fpdf.init resolved_font) = (st, Ok tt) /\
    accepted resolved_font (ops st) = true /\
    stored f = Ok tt /\
    doc = output (clock f) st.

(** ** Reasoning about renderings *)

(** The renderer is outside a footer and, when [need_font] is set, its
    current font is not the one of section headers. *)
Definition ready (need_font : bool) (st : pdf) : Prop :=
  in_footer st = false /\
  (need_font = true -> is_title_font (cur_font st) = false).

(** [emits p q ts m]: from a state [ready p], [m] draws the section headers
    [ts] and ends [ready q]; when it raises it has drawn a prefix of [ts].
    What was drawn before stays. *)
Definition emits {A} (p q : bool) (ts : list string) (m : M A) : Prop :=
  forall st, ready p st ->
    in_footer (fst (m st)) = false /\
    is_prefix (body_texts (ops st)) (body_texts (ops (fst (m st)))) /\
    match snd (m st) with
    | Ok _ =>
        (q = true -> is_title_font (cur_font (fst (m st))) = false) /\
        section_titles (ops (fst (m st))) = app (section_titles (ops st)) ts
    | Raise _ =>
        exists ts', is_prefix ts' ts /\
          section_titles (ops (fst (m st))) = app (section_titles (ops st)) ts'
    end.

(** the characters of [s] all differ from [c] *)
Fixpoint free_of (c : ascii) (s : string) : bool :=
  match s with
  | EmptyString => true
  | String d r => negb (Ascii.eqb d c) && free_of c r
  end.

(** [quiet st st']: from [st] to [st'] nothing was drawn outside footers and
    the font is the same. *)
Definition quiet (st st' : pdf) : Prop :=
  in_footer st' = false /\
  cur_font st' = cur_font st /\
  font_name st' = font_name st /\
  section_titles (ops st') = section_titles (ops st) /\
  body_texts (ops st') = body_texts (ops st).

(** ** Sample records *)

Definition flour_with_ref : dict :=
  [(YStr "amount", YStr "2"); (YStr "unit", YStr "cups");
   (YStr "item", YStr "flour"); (YStr "optional", YBool true);
   (YStr "ref", YStr "sauces/base_sauce.yaml")].

Definition flour_empty_ref : dict :=
  [(YStr "item", YStr "flour"); (YStr "ref", YStr EmptyString)].

Definition oat_milk_both : dict :=
  [(YStr "item", YStr "oat milk"); (YStr "replaces", YStr EmptyString);
   (YStr "for", YStr "whole milk")].

(** the lines of [render_steps] for [steps], the counter starting at [i] *)
Fixpoint step_lines (i : Z) (steps : list yaml) : list string :=
  match steps with
  | [] => []
  | step :: rest =>
      (Str.of_Z i ++ ".  " ++ Py.str (flatten_step step))
        :: step_lines (i + 1) rest
  end.

(** a wrapping that gives every text one line *)
Definition one_line : font -> Q -> string -> nat := fun _ _ _ => 1%nat.

(** notes before steps in the file *)
Definition notes_then_steps : yaml :=
  YDict [(YStr "notes", YList [YStr "serve hot"]);
         (YStr "steps", YList [YStr "boil"; YStr "steep"]);
         (YStr "name", YStr "Tea")].

(** an [optional] field that is present and empty *)
Definition empty_optional : yaml :=
  YDict [(YStr "name", YStr "Tea"); (YStr "optional", YList [])].

(** a record without [name] *)
Definition nameless : recipe_file :=
  plain_file ["soups"; "draft.yaml"]
         (Ok (YDict [(YStr "steps", YList [YStr "boil"])])).

(** three records that render and one without [name] *)
Definition three_and_one : list recipe_file :=
  [plain_file ["tea.yaml"] (Ok notes_then_steps);
   nameless;
   plain_file ["soups"; "broth.yaml"] (Ok empty_optional);
   plain_file ["sauces"; "base_sauce.yaml"]
          (Ok (YDict [(YStr "name", YStr "Base sauce");
                      (YStr "ingredients",
                       YList [YDict flour_with_ref])]))].

(** a renderer on its first page with the cursor at 260 *)
Definition low_on_page : pdf :=
  Fpdf.with_cursor 10 260 (Fpdf.add_page (Fpdf.init "DejaVu")).

(** a text step, and a mapping step with two entries *)
Definition two_steps : list yaml :=
  [YStr "boil";
   YDict [(YStr "optional", YStr "add milk"); (YStr "then", YStr "stir")]].

Definition text_and_single_entry : list yaml :=
  [YStr "boil"; YDict [(YStr "optional", YStr "add milk")]].

(** a record with a [name] and an ingredient *)
Definition base_sauce_file : recipe_file :=
  plain_file ["sauces"; "base_sauce.yaml"]
             (Ok (YDict [(YStr "name", YStr "Base sauce");
                         (YStr "ingredients",
                          YList [YDict flour_with_ref])])).


(** the same record in another file, rendered a minute later *)
Definition tea_later : recipe_file :=
  mkFile ["drinks"; "tea.yaml"] (Ok notes_then_steps)
         (Ok tt) (Ok tt) (Ok tt) 60.


(** a file whose output directory cannot be created *)
Definition no_directory : recipe_file :=
  mkFile ["a"; "tea.yaml"] (Ok notes_then_steps)
         (Raise OSError) (Ok tt) (Ok tt) 0.

(** a file that comes before [no_directory] *)
Definition broth_file : recipe_file :=
  plain_file ["a"; "broth.yaml"] (Ok empty_optional).


(** ** Discovery and output paths *)

(** the path of a file that [rglob("*.yaml")] yields: directories, then a
    name that ends in [.yaml] *)
Definition yaml_path (p : path) : Prop :=
  exists dirs stem, p = app dirs [stem ++ ".yaml"].

(** the stem of the document of a file [stem.yaml]: the name [.yaml] has no
    suffix to replace *)
Definition pdf_stem (stem : string) : string :=
  match stem with
  | EmptyString => ".yaml"
  | _ => stem
  end.

(** the files [.yaml] and [.yaml.yaml] of one directory *)
Definition dotfile_clash (p q : path) : Prop :=
  exists dirs, p = app dirs [".yaml"] /\ q = app dirs [".yaml.yaml"].

(** the file a report line is about *)
Definition report_path (r : report) : path :=
  match r with
  | ReportOk p => p
  | ReportSkip p => p
  | ReportError p _ => p
  end.

Definition is_report_ok (r : report) : bool :=
  match r with
  | ReportOk _ => true
  | _ => false
  end.

(** [f] does not come after [g] in the order of paths *)
Definition path_before (f g : recipe_file) : Prop :=
  path_leb (rel_path f) (rel_path g) = true.

(** the line [main] prints for a file *)
Definition report_of (line_count : font -> Q -> string -> nat)
    (resolved_font : string) (f : recipe_file) : report :=
  match attempt_file line_count resolved_font f with
  | Ok Skipped => ReportSkip (rel_path f)
  | Ok (Rendered _) => ReportOk (rel_path f)
  | Raise e => ReportError (rel_path f) e
  end.

(** ** Font resolution ([RecipePDF._setup_fonts]) *)

(** What [_setup_fonts] asks of the machine.  [fc_match name] is the
    directory [Path(stdout.strip()).parent] of the file that
    [fc-match -f %{file} name] reports, and [None] when the command is
    missing or times out (the two exceptions the code catches), exits with
    a non-zero code or prints nothing.  [exists_in dir name] is
    [(dir / name).exists()].  An exception that the code does not catch
    (another error of [subprocess.run], an error of [add_font]) ends the
    constructor: it is the [constructed] of a file in the batch driver, and
    [_setup_fonts] below is the choice made when there is none. *)
Record font_env : Type := mkFontEnv {
  bundled_fonts : string;   (* [Path(__file__).resolve().parent / "fonts"] *)
  fc_match : string -> option string;
  exists_in : string -> string -> bool
}.

(** a call [add_font(family, style, dir / file)] *)
Record add_font_call : Type := mkAddFont {
  af_family : string;
  af_style : string;
  af_dir : string;
  af_file : string
}.

Definition static_font_dirs (env : font_env) : list string :=
  [bundled_fonts env;
   "/usr/share/fonts/truetype/dejavu";
   "/usr/share/fonts/TTF";
   "/usr/share/fonts/dejavu-sans-fonts"].

(** one turn of the loop over the two font names: a directory that
    [fc-match] found and that is not listed yet goes to the front *)
Definition probe_font (env : font_env) (font_dirs : list string)
    (name : string) : list string :=
  match fc_match env name with
  | Some font_dir =>
      if existsb (String.eqb font_dir) font_dirs then font_dirs
      else font_dir :: font_dirs
  | None => font_dirs
  end.

Definition font_dirs_to_try (env : font_env) : list string :=
  fold_left (probe_font env) ["DejaVuSans.ttf"; "DejaVuSans-Bold.ttf"]
            (static_font_dirs env).

Definition has_both_fonts (env : font_env) (dir : string) : bool :=
  exists_in env dir "DejaVuSans.ttf" && exists_in env dir "DejaVuSans-Bold.ttf".

(** [_setup_fonts]: the value of [_font_name] and the fonts registered *)
Definition _setup_fonts (env : font_env) : string * list add_font_call :=
  match find (has_both_fonts env) (font_dirs_to_try env) with
  | Some font_dir =>
      ("DejaVu",
       [mkAddFont "DejaVu" EmptyString font_dir "DejaVuSans.ttf";
        mkAddFont "DejaVu" "B" font_dir "DejaVuSans-Bold.ttf"])
  | None => ("Helvetica", [])
  end.

(** a directory that [fc-match] found and that is not one of the fixed ones *)
Definition found_by_fc_match (env : font_env) (dir : string) : Prop :=
  (fc_match env "DejaVuSans.ttf" = Some dir \/
   fc_match env "DejaVuSans-Bold.ttf" = Some dir) /\
  ~ In dir (static_font_dirs env).

(** a machine with the fonts bundled and also found by [fc-match] *)
Definition nix_env : font_env :=
  mkFontEnv "/repo/tools/fonts"
            (fun _ => Some "/nix/store/dejavu/share/fonts/truetype")
            (fun dir _ =>
               (dir =? "/repo/tools/fonts")
               || (dir =? "/nix/store/dejavu/share/fonts/truetype")).

(** ** What the lists draw *)

(** the results before the first exception *)
Fixpoint ok_prefix {A} (rs : list (result A)) : list A :=
  match rs with
  | Ok a :: rest => a :: ok_prefix rest
  | _ => []
  end.

(** the first exception of a list of results, if any *)
Fixpoint first_raise {A} (rs : list (result A)) : result unit :=
  match rs with
  | [] => Ok tt
  | Ok _ :: rest => first_raise rest
  | Raise e :: _ => Raise e
  end.

Definition bullet (text : string) : string := "•  " ++ text.

(** ** The texts of a document *)

(** [draws ts m]: outside a footer, when [m] returns it has drawn the text
    blocks [ts], in order, after what was drawn before. *)
Definition draws {A} (ts : list string) (m : M A) : Prop :=
  forall st, in_footer st = false ->
    in_footer (fst (m st)) = false /\
    (forall a, snd (m st) = Ok a ->
       body_texts (ops (fst (m st))) = app (body_texts (ops st)) ts).

(** the value of a field of a mapping *)
Definition field (v : yaml) (key : string) : option yaml :=
  match v with
  | YDict d => Py.lookup key d
  | _ => None
  end.

(** a line of parts joined by bars, absent when there is no part *)
Definition text_line (parts : list string) : list string :=
  match parts with
  | [] => []
  | _ => [Str.join " | " parts]
  end.

Definition labelled_field (data : yaml) (key label : string) : list string :=
  match field data key with
  | Some v => [label ++ Py.str v]
  | None => []
  end.

Definition meta_fields (data : yaml) : list string :=
  app (labelled_field data "region" "Region: ")
 (app (labelled_field data "ethnicity" "Ethnicity: ")
 (app (labelled_field data "restaurant" "Restaurant: ")
      (labelled_field data "category" "Category: "))).

(** the text of a duration field *)
Definition duration (v : yaml) : string :=
  match format_time v with
  | Ok s => s
  | Raise _ => EmptyString
  end.

Definition duration_field (data : yaml) (key label : string) : list string :=
  match field data key with
  | Some v => [label ++ duration v]
  | None => []
  end.

(** the yield with its unit, when there is a yield *)
Definition yield_of (data : yaml) : option string :=
  match field data "yield" with
  | Some y =>
      Some (Py.str y ++ match field data "yield_unit" with
                        | Some u => " " ++ Py.str u
                        | None => EmptyString
                        end)
  | None => None
  end.

Definition time_fields (data : yaml) : list string :=
  app (duration_field data "prep_time" "Prep: ")
 (app (duration_field data "cook_time" "Cook: ")
 (app (match yield_of data with
       | Some y => ["Yield: " ++ y]
       | None => []
       end)
      (labelled_field data "method" "Method: "))).

(** a link that is not a text is drawn, if at all, as a cell without text *)
Definition source_link (source : yaml) (key : string) : list string :=
  match field source key with
  | Some (YStr url) => [url]
  | Some _ => [EmptyString]
  | None => []
  end.

Definition source_links (data : yaml) : list string :=
  match field data "source" with
  | Some source => app (source_link source "url") (source_link source "url2")
  | None => []
  end.

(** the header block: the name, the metadata line, the time and yield line,
    the links *)
Definition header_texts (data : yaml) : list string :=
  app (match field data "name" with
       | Some (YStr name) => [name]
       | _ => []
       end)
 (app (text_line (meta_fields data))
 (app (text_line (time_fields data))
      (source_links data))).

(** the bullets of a list whose lines are computed by [line] *)
Definition bullets_of (line : yaml -> result string) (v : yaml) : list string :=
  match Py.iter v with
  | Ok items => map bullet (ok_prefix (map line items))
  | Raise _ => []
  end.

Definition ingredient_bullets : yaml -> list string :=
  bullets_of format_ingredient.

Definition substitution_bullets : yaml -> list string :=
  bullets_of format_substitution.

Definition garnish_bullets : yaml -> list string :=
  bullets_of (fun g => rbind (Py.getitem g "item") (fun x => Ok (Py.str x))).

Definition note_bullets : yaml -> list string :=
  bullets_of (fun n => Ok (Py.str n)).

Definition step_texts (v : yaml) : list string :=
  match Py.iter v with
  | Ok items => step_lines 1 items
  | Raise _ => []
  end.

(** a labelled block for a field that is present *)
Definition block (data : yaml) (key label : string)
    (content : yaml -> list string) : list string :=
  match field data key with
  | Some v => label :: content v
  | None => []
  end.

(** the heading of a component: its name, and its yield when it has one *)
Definition component_label (comp : yaml) : string :=
  match field comp "name" with
  | Some name =>
      match yield_of comp with
      | Some y =>
          match iadd_str name ("  (yields " ++ y ++ ")") with
          | Ok label => "▸ " ++ Py.str label
          | Raise _ => EmptyString
          end
      | None => "▸ " ++ Py.str name
      end
  | None => EmptyString
  end.

Definition component_texts (comp : yaml) : list string :=
  component_label comp
  :: app (block comp "ingredients" "Ingredients:" ingredient_bullets)
    (app (block comp "steps" "Steps:" step_texts)
    (app (block comp "substitutions" "Substitutions:" substitution_bullets)
         (match field comp "optional" with
          | Some (YList items) =>
              "Optional:" :: ingredient_bullets (YList items)
          | _ => []
          end))).

Definition components_texts (v : yaml) : list string :=
  match Py.iter v with
  | Ok items => flat_map component_texts items
  | Raise _ => []
  end.

Definition optional_texts (data : yaml) : list string :=
  match field data "optional" with
  | Some opt =>
      if Py.truthy opt then
        "Optional"
        :: match opt with
           | YList _ => ingredient_bullets opt
           | YDict _ =>
               app (match field opt "components" with
                    | Some comps => components_texts comps
                    | None => []
                    end)
                   (match field opt "ingredients" with
                    | Some ings => ingredient_bullets ings
                    | None => []
                    end)
           | _ => []
           end
      else []
  | None => []
  end.

(** every text block of the document of a record, in order *)
Definition recipe_texts (data : yaml) : list string :=
  app (header_texts data)
 (app (block data "components" "Components" components_texts)
 (app (block data "ingredients" "Ingredients" ingredient_bullets)
 (app (optional_texts data)
 (app (block data "steps" "Steps" step_texts)
 (app (block data "steps_alt" "Alternative Steps" step_texts)
 (app (block data "substitutions" "Substitutions" substitution_bullets)
 (app (block data "garnishes" "Garnishes" garnish_bullets)
      (block data "notes" "Notes" note_bullets)))))))).

(** ** Records shaped as the data model *)

(** [returns m]: [m] raises nothing *)
Definition returns {A} (m : M A) : Prop :=
  forall st, exists a, snd (m st) = Ok a.

(** a condition on a field, void when the field is absent *)
Definition field_ok (d : dict) (key : string) (P : yaml -> Prop) : Prop :=
  match Py.lookup key d with
  | Some v => P v
  | None => True
  end.

Definition is_list_of (P : yaml -> Prop) (v : yaml) : Prop :=
  match v with
  | YList items => Forall P items
  | _ => False
  end.

Definition any_list (v : yaml) : Prop := is_list_of (fun _ => True) v.

Definition text_field (d : dict) (key : string) : Prop :=
  exists s, Py.lookup key d = Some (YStr s).

(** an ingredient: a mapping with a text [item]; a [ref], when not empty,
    is a text *)
Definition ingredient_record (v : yaml) : Prop :=
  match v with
  | YDict d =>
      text_field d "item" /\
      field_ok d "ref" (fun r => Py.truthy r = true -> Py.is_str r = true)
  | _ => False
  end.

Definition garnish_record (v : yaml) : Prop :=
  match v with
  | YDict d => Py.lookup "item" d <> None
  | _ => False
  end.

Definition component_record (v : yaml) : Prop :=
  match v with
  | YDict d =>
      text_field d "name" /\
      field_ok d "ingredients" (is_list_of ingredient_record) /\
      field_ok d "steps" any_list /\
      field_ok d "substitutions" (is_list_of ingredient_record) /\
      field_ok d "optional"
        (fun o => match o with
                  | YList items => Forall ingredient_record items
                  | _ => True
                  end)
  | _ => False
  end.

(** the [optional] field: a list of ingredients, or a mapping with
    [components] and [ingredients] *)
Definition optional_record (v : yaml) : Prop :=
  match v with
  | YList items => Forall ingredient_record items
  | YDict d =>
      field_ok d "components" (is_list_of component_record) /\
      field_ok d "ingredients" (is_list_of ingredient_record)
  | _ => Py.truthy v = false
  end.

Definition source_record (v : yaml) : Prop :=
  match v with
  | YDict d =>
      field_ok d "url" (fun u => Py.is_str u = true) /\
      field_ok d "url2" (fun u => Py.is_str u = true)
  | _ => False
  end.

Definition recipe_record (v : yaml) : Prop :=
  match v with
  | YDict d =>
      text_field d "name" /\
      field_ok d "source" source_record /\
      field_ok d "components" (is_list_of component_record) /\
      field_ok d "ingredients" (is_list_of ingredient_record) /\
      field_ok d "optional" optional_record /\
      field_ok d "steps" any_list /\
      field_ok d "steps_alt" any_list /\
      field_ok d "substitutions" (is_list_of ingredient_record) /\
      field_ok d "garnishes" (is_list_of garnish_record) /\
      field_ok d "notes" any_list
  | _ => False
  end.

(** ** Pages *)

Definition op_page (o : op) : nat :=
  match o with
  | OText _ pg _ _ _ _ _ => pg
  | ORule pg _ _ _ _ _ _ => pg
  end.

Definition footer_text_of (o : op) : list string :=
  match o with
  | OText true _ _ _ _ _ txt => [txt]
  | _ => []
  end.

(** the texts of the footers, in order *)
Definition footer_texts (os : list op) : list string :=
  flat_map footer_text_of os.

(** the footer of page [k] of [total] *)
Definition page_label (total : string) (k : nat) : string :=
  "Page " ++ Str.of_Z (Z.of_nat k) ++ "/" ++ total.

(** A text outside a footer starts between the top margin and the last
    position where a line of height 5, the smallest the renderer uses, fits
    above the bottom margin; a footer is 15 above the bottom edge. *)
Definition in_text_area (o : op) : Prop :=
  match o with
  | OText false _ _ y _ _ _ =>
      Fpdf.t_margin <= y /\ y <= Fpdf.page_break_trigger - 5
  | OText true _ _ y _ _ _ => y == Fpdf.page_h - 15
  | ORule _ _ _ _ _ _ _ => True
  end.

(** [o] is on one of the pages [1..n], in the text area *)
Definition placed (n : nat) (o : op) : Prop :=
  (1 <= op_page o <= n)%nat /\ in_text_area o.

(** The calls that the renderer makes on the library, with the line heights
    it uses: at least 5 for a cell, not negative for a line feed. *)
Inductive library_call (line_count : font -> Q -> string -> nat)
    : pdf -> pdf -> Prop :=
| call_alias_nb_pages st : library_call line_count st (Fpdf.alias_nb_pages st)
| call_add_page st : library_call line_count st (Fpdf.add_page st)
| call_set_font sty sz st :
    library_call line_count st (Fpdf.set_font (font_name st) sty sz st)
| call_set_text_color c st :
    library_call line_count st (Fpdf.set_text_color c st)
| call_set_draw_color c st :
    library_call line_count st (Fpdf.set_draw_color c st)
| call_set_line_width w st :
    library_call line_count st (Fpdf.set_line_width w st)
| call_set_x x st : library_call line_count st (Fpdf.set_x x st)
| call_ln h st : 0 <= h -> library_call line_count st (Fpdf.ln h st)
| call_line x1 x2 st :
    library_call line_count st
      (Fpdf.line x1 (Fpdf.get_y st) x2 (Fpdf.get_y st) st)
| call_cell w h txt st :
    5 <= h ->
    library_call line_count st (Fpdf.cell w h txt X_LMARGIN Y_NEXT st)
| call_multi_cell w h txt st :
    5 <= h ->
    library_call line_count st (Fpdf.multi_cell line_count w h txt st).

(** a sequence of calls *)
Inductive calls (line_count : font -> Q -> string -> nat)
    : pdf -> pdf -> Prop :=
| calls_none st : calls line_count st st
| calls_then st1 st2 st3 :
    calls line_count st1 st2 -> library_call line_count st2 st3 ->
    calls line_count st1 st3.

(** [m] changes the object by such calls only, whether it returns or
    raises *)
Definition walks (line_count : font -> Q -> string -> nat) {A} (m : M A)
    : Prop :=
  forall st, calls line_count st (fst (m st)).

(** The state of the object on an open page: outside a footer, with the
    alias of the page total in place, the cursor not above the top margin,
    one footer for each page left, and everything drawn placed on the pages
    so far, in the order of the pages. *)
Definition laid_out (st : pdf) : Prop :=
  in_footer st = false /\
  (1 <= page st)%nat /\
  str_alias_nb_pages st = "{nb}" /\
  Fpdf.t_margin <= cur_y st /\
  footer_texts (ops st) = map (page_label "{nb}") (seq 1 (page st - 1)) /\
  Forall (placed (page st)) (ops st) /\
  StronglySorted le (map op_page (ops st)).

(** ** Further sample records *)

(** a component with a yield, ingredients, steps and optional ingredients *)
Definition soffritto : yaml :=
  YDict [(YStr "name", YStr "Soffritto"); (YStr "yield", YInt 1);
         (YStr "ingredients", YList [YDict [(YStr "item", YStr "onion")]]);
         (YStr "steps", YList [YStr "chop"]);
         (YStr "optional", YList [YDict [(YStr "item", YStr "celery")]])].

(** a record with every kind of field, its links in the order [url2], [url] *)
Definition ragu : yaml :=
  YDict
    [(YStr "name", YStr "Ragu"); (YStr "region", YStr "Emilia");
     (YStr "category", YStr "Sauce"); (YStr "prep_time", YStr "00:20:00");
     (YStr "yield", YInt 4); (YStr "yield_unit", YStr "servings");
     (YStr "source",
      YDict [(YStr "url2", YStr "http://b"); (YStr "url", YStr "http://a")]);
     (YStr "components", YList [soffritto]);
     (YStr "ingredients", YList [YDict flour_with_ref]);
     (YStr "optional",
      YDict [(YStr "ingredients",
              YList [YDict [(YStr "item", YStr "basil")]])]);
     (YStr "steps", YList two_steps);
     (YStr "garnishes", YList [YDict [(YStr "item", YStr "parmesan")]]);
     (YStr "notes", YList [YStr "freeze"; YInt 3])].

Definition ragu_file : recipe_file :=
  plain_file ["sauces"; "ragu.yaml"] (Ok ragu).

(** fifty steps: more than a page holds *)
Definition stock : yaml :=
  YDict [(YStr "name", YStr "Stock");
         (YStr "steps", YList (repeat (YStr "simmer") 50))].

Definition stock_file : recipe_file := plain_file ["stock.yaml"] (Ok stock).

Definition stock_document : document :=
  output 0 (fst (render_recipe one_line stock (Fpdf.init "DejaVu"))).

(** a machine without the fonts and without [fc-match] *)
Definition bare_env : font_env :=
  mkFontEnv "/repo/tools/fonts" (fun _ => None) (fun _ _ => false).

(** * Properties *)

(** ** Text *)

Lemma append_nil_r (s : string) : s ++ EmptyString = s.
Proof. induction s as [|c s IH]; simpl; [reflexivity | now rewrite IH]. Qed.

Lemma append_assoc (a b c : string) : (a ++ b) ++ c = a ++ b ++ c.
Proof. induction a as [|x a IH]; simpl; [reflexivity | now rewrite IH]. Qed.

Lemma rev_onto_twice (s a b : string) :
  Str.rev_onto (Str.rev_onto s a) b = Str.rev_onto a (s ++ b).
Proof.
  revert a b. induction s as [|c s IH]; intros a b; simpl.
  - reflexivity.
  - rewrite IH. reflexivity.
Qed.

Lemma rev_involutive (s : string) : Str.rev (Str.rev s) = s.
Proof. unfold Str.rev. rewrite rev_onto_twice. simpl. apply append_nil_r. Qed.

Lemma split_onto_free (sep : ascii) (s cur : string) :
  free_of sep s = true ->
  Str.split_onto sep s cur = [Str.rev (Str.rev_onto s cur)].
Proof.
  revert cur. induction s as [|c s IH]; intros cur H; simpl in *.
  - reflexivity.
  - apply andb_prop in H. destruct H as [Hc Hs].
    apply negb_true_iff in Hc. rewrite Hc. apply IH, Hs.
Qed.

Lemma split_free (sep : ascii) (s : string) :
  free_of sep s = true -> Str.split sep s = [s].
Proof.
  intros H. unfold Str.split. rewrite split_onto_free by exact H.
  fold (Str.rev s). now rewrite rev_involutive.
Qed.

Lemma to_int_raises (s : string) (e : exn) :
  Str.to_int s = Raise e -> e = ValueError.
Proof.
  unfold Str.to_int. intros H.
  match type of H with
  | context [match ?x with Some _ => _ | None => _ end] => destruct x
  end; [|congruence].
  match type of H with
  | context [if ?c then _ else _] => destruct c
  end; congruence.
Qed.

(** ** Field formatters *)

(** C3: [format_time] never raises.  When the first two colon-separated
    segments of the text of its argument parse as integers [h] and [m] it
    returns "{h}h {m}min" if [h > 0] and "{m} min" otherwise; when they do
    not, and in particular when the text has no colon, it returns the text
    unchanged. *)
Theorem format_time_spec : forall v : yaml,
  let parts := Str.split ":" (Py.str v) in
  (exists s, format_time v = Ok s) /\
  (forall a b h m,
      nth_error parts 0 = Some a -> nth_error parts 1 = Some b ->
      Str.to_int a = Ok h -> Str.to_int b = Ok m ->
      format_time v =
      Ok (if (0 <? h)%Z then Str.of_Z h ++ "h " ++ Str.of_Z m ++ "min"
          else Str.of_Z m ++ " min")) /\
  ((forall a b h m,
      ~ (nth_error parts 0 = Some a /\ nth_error parts 1 = Some b /\
         Str.to_int a = Ok h /\ Str.to_int b = Ok m)) ->
   format_time v = Ok (Py.str v)) /\
  (free_of ":" (Py.str v) = true -> format_time v = Ok (Py.str v)).
Proof.
  intros v parts.
  assert (Hcases :
    (exists a b h m, nth_error parts 0 = Some a /\ nth_error parts 1 = Some b /\
        Str.to_int a = Ok h /\ Str.to_int b = Ok m /\
        format_time v =
        Ok (if (0 <? h)%Z then Str.of_Z h ++ "h " ++ Str.of_Z m ++ "min"
            else Str.of_Z m ++ " min")) \/
    ((forall a b h m,
        ~ (nth_error parts 0 = Some a /\ nth_error parts 1 = Some b /\
           Str.to_int a = Ok h /\ Str.to_int b = Ok m)) /\
     format_time v = Ok (Py.str v))).
  { unfold format_time, Py.index. fold parts.
    destruct (nth_error parts 0) as [a|] eqn:Ha;
      cbn [rbind try_except format_time_handled].
    2:{ right. split; [intros a b h m (H & _); discriminate | reflexivity]. }
    destruct (Str.to_int a) as [h|e] eqn:Hh;
      cbn [rbind try_except format_time_handled].
    2:{ right. split.
        - intros a' b h m (H1 & _ & H3 & _). congruence.
        - rewrite (to_int_raises _ _ Hh). reflexivity. }
    destruct (nth_error parts 1) as [b|] eqn:Hb;
      cbn [rbind try_except format_time_handled].
    2:{ right. split; [|reflexivity].
        intros a' b h' m (_ & H & _). discriminate. }
    destruct (Str.to_int b) as [m|e] eqn:Hm;
      cbn [rbind try_except format_time_handled].
    2:{ right. split.
        - intros a' b' h' m (_ & H2 & _ & H4). congruence.
        - rewrite (to_int_raises _ _ Hm). reflexivity. }
    left. exists a, b, h, m. repeat split; try assumption; try reflexivity.
    destruct (0 <? h)%Z; reflexivity. }
  split; [|split; [|split]].
  - destruct Hcases as [(a & b & h & m & _ & _ & _ & _ & H) | (_ & H)];
      rewrite H; eexists; reflexivity.
  - intros a b h m Ha Hb Hh Hm.
    destruct Hcases
      as [(a' & b' & h' & m' & Ha' & Hb' & Hh' & Hm' & H) | (Hno & _)].
    + assert (a' = a) by congruence. assert (b' = b) by congruence. subst.
      assert (h' = h) by congruence. assert (m' = m) by congruence. subst.
      exact H.
    + exfalso. apply (Hno a b h m). auto.
  - intros Hno.
    destruct Hcases as [(a & b & h & m & Ha & Hb & Hh & Hm & _) | (_ & H)].
    + exfalso. apply (Hno a b h m). auto.
    + exact H.
  - intros Hfree.
    destruct Hcases as [(a & b & h & m & _ & Hb & _) | (_ & H)]; [|exact H].
    unfold parts in Hb. rewrite (split_free _ _ Hfree) in Hb. discriminate.
Qed.

Lemma format_time_spec_witness :
  format_time (YStr "01:15:00") = Ok "1h 15min".
Proof.
  exact (proj1 (proj2 (format_time_spec (YStr "01:15:00")))
               "01" "15" 1%Z 15%Z eq_refl eq_refl eq_refl eq_refl).
Defined.

Example format_time_half_hour : format_time (YStr "00:30:00") = Ok "30 min".
Proof. reflexivity. Qed.

Example format_time_no_colon : format_time (YStr "soon") = Ok "soon".
Proof. reflexivity. Qed.

Lemma join_tail (xs : list string) (item : string) :
  Py.join " " (app (map YStr xs) [YStr item])
  = Ok (Str.join " " (app xs [item])).
Proof.
  unfold Py.join.
  assert (H : Py.strs (app (map YStr xs) [YStr item]) = Ok (app xs [item])).
  { induction xs as [|x xs IH]; simpl; [reflexivity|].
    rewrite IH. reflexivity. }
  rewrite H. reflexivity.
Qed.

Ltac norm_append :=
  repeat (rewrite append_assoc || rewrite append_nil_r); cbn [append].

(** the line of an ingredient whose [ref] is no obstacle *)
Lemma format_ingredient_returns (d : dict) (item : string) :
  Py.lookup "item" d = Some (YStr item) ->
  (forall r, Py.lookup "ref" d = Some r -> Py.truthy r = true ->
             Py.is_str r = true) ->
  format_ingredient (YDict d) = Ok (ingredient_line Py.truthy d item).
Proof.
  intros Hitem Href.
  unfold format_ingredient, ingredient_line.
  cbn [Py.get Py.getitem Py.contains rbind Py.has_key].
  rewrite Hitem. cbn [rbind].
  match goal with
  | |- context [Py.join " " ?ps] =>
      replace ps
        with (app (map YStr (app (quantity_part (Py.lookup "amount" d))
                                 (quantity_part (Py.lookup "unit" d))))
                  [YStr item])
  end.
  2:{ unfold quantity_part.
      destruct (Py.lookup "amount" d), (Py.lookup "unit" d);
        cbn [Py.str Py.repr];
        repeat match goal with
               | |- context [nonempty ?s] => destruct (nonempty s) eqn:?
               end; try reflexivity; try discriminate. }
  rewrite join_tail. cbn [rbind].
  rewrite <- app_assoc.
  set (base := Str.join " " _).
  unfold alt_clause, flag_clause, flag, brand_clause, ref_clause, Py.has_key.
  destruct (Py.lookup "amount_alt" d) as [aa|],
           (Py.lookup "unit_alt" d) as [ua|];
    cbn [rbind];
    (destruct (Py.lookup "optional" d) as [o|]; [destruct (Py.truthy o)|]);
    (destruct (Py.lookup "brand" d) as [b|]; [destruct (Py.truthy b)|]);
    cbn [rbind Py.truthy];
    (destruct (Py.lookup "ref" d) as [r|] eqn:Hr;
     [destruct (Py.truthy r) eqn:Ht;
      [specialize (Href r eq_refl Ht); destruct r; try discriminate Href|] |]);
    cbn [rbind Py.truthy Py.expect_str Py.str];
    (destruct (Py.lookup "garnish" d) as [g|]; [destruct (Py.truthy g)|]);
    cbn [Py.truthy]; unfold derived_name; norm_append; reflexivity.
Qed.





Example format_ingredient_ref_not_text :
  format_ingredient (YDict [(YStr "item", YStr "flour");
                            (YStr "ref", YBool true)])
  = Raise TypeError.
Proof. reflexivity. Qed.

Example format_ingredient_basic :
  format_ingredient
    (YDict [(YStr "amount", YStr "2"); (YStr "unit", YStr "cups");
            (YStr "item", YStr "flour")])
  = Ok "2 cups flour".
Proof. reflexivity. Qed.

Example format_ingredient_item_not_text :
  format_ingredient (YDict [(YStr "item", YInt 7)]) = Raise TypeError.
Proof. reflexivity. Qed.

Example format_ingredient_no_item :
  format_ingredient (YDict [(YStr "amount", YInt 7)]) = Raise KeyError.
Proof. reflexivity. Qed.

(** C4 (as amended): [format_substitution] returns the ingredient line of the
    mapping followed by "  → replaces {target}", where the target is the
    value of [replaces] when it is truthy and otherwise the value of [for]
    (the empty text when there is none); nothing is appended when the target
    is falsy.  A truthy [replaces] wins over [for].  When the ingredient line
    raises, so does the substitution line. *)
Theorem format_substitution_line : forall (d : dict),
  format_substitution (YDict d)
  = rbind (format_ingredient (YDict d))
          (fun line => Ok (line ++ replaces_clause d)).
Proof.
  intros d. unfold format_substitution, replaces_clause, substitution_target.
  destruct (format_ingredient (YDict d)) as [line|e]; cbn [rbind];
    [|reflexivity].
  cbn [Py.get rbind].
  destruct (Py.lookup "replaces" d) as [r|]; [destruct (Py.truthy r) eqn:Hr|];
    cbn [rbind Py.truthy]; rewrite ?Hr;
    try (destruct (Py.lookup "for" d) as [f|];
         [destruct (Py.truthy f) eqn:Hf|]);
    cbn [rbind Py.truthy]; rewrite ?Hf; cbn [negb String.eqb];
    norm_append; reflexivity.
Qed.

(** C4 as stated fails: [replaces] and [for] are both present, and [for]
    wins because [replaces] is empty. *)
Lemma format_substitution_for_wins :
  format_substitution (YDict oat_milk_both)
  = Ok "oat milk  → replaces whole milk" /\
  format_substitution (YDict oat_milk_both)
  <> rbind (format_ingredient (YDict oat_milk_both))
           (fun line =>
              Ok (line ++ replaces_clause_as_specified oat_milk_both)).
Proof.
  split; [reflexivity|]. vm_compute. discriminate.
Qed.

Example format_substitution_basic :
  format_substitution
    (YDict [(YStr "item", YStr "oat milk");
            (YStr "replaces", YStr "whole milk")])
  = Ok "oat milk  → replaces whole milk".
Proof. reflexivity. Qed.

Example format_substitution_replaces_wins :
  format_substitution
    (YDict [(YStr "item", YStr "oat milk"); (YStr "for", YStr "cream");
            (YStr "replaces", YStr "whole milk")])
  = Ok "oat milk  → replaces whole milk".
Proof. reflexivity. Qed.

(** ** The page-accumulation object *)

Lemma section_titles_app (a b : list op) :
  section_titles (app a b) = app (section_titles a) (section_titles b).
Proof. apply flat_map_app. Qed.

Lemma body_texts_app (a b : list op) :
  body_texts (app a b) = app (body_texts a) (body_texts b).
Proof. apply flat_map_app. Qed.

Lemma quiet_refl (st : pdf) : in_footer st = false -> quiet st st.
Proof. intros H. repeat split; auto. Qed.

Lemma quiet_trans (a b c : pdf) : quiet a b -> quiet b c -> quiet a c.
Proof.
  intros (_ & H2 & H3 & H4 & H5) (G1 & G2 & G3 & G4 & G5).
  repeat split; congruence.
Qed.

Lemma close_page_ops (st : pdf) :
  exists o, is_footer_op o = true /\
    ops (Fpdf.close_page st) = app (ops st) [o].
Proof.
  unfold Fpdf.close_page, Fpdf.footer, Fpdf.cell_with, Fpdf.page_break_with,
    Fpdf.will_page_break.
  cbn [in_footer Fpdf.with_in_footer Fpdf.set_y Fpdf.set_font
       Fpdf.set_text_color Fpdf.with_cursor].
  rewrite andb_false_r.
  eexists. split; [|reflexivity]. reflexivity.
Qed.

Lemma add_page_quiet (st : pdf) :
  in_footer st = false -> quiet st (Fpdf.add_page st).
Proof.
  intros Hf. unfold Fpdf.add_page.
  destruct (0 <? page st)%nat.
  - destruct (close_page_ops st) as (o & Ho & Hops).
    unfold quiet. cbn [in_footer cur_font font_name ops].
    rewrite Hops, section_titles_app, body_texts_app.
    destruct o as [ft ? ? ? ? ? ?|]; [|discriminate]. cbn in Ho. subst ft.
    cbn. rewrite !app_nil_r. repeat split; reflexivity.
  - unfold quiet. cbn. repeat split; auto.
Qed.

Lemma add_page_page (st : pdf) : page (Fpdf.add_page st) = S (page st).
Proof. unfold Fpdf.add_page. destruct (0 <? page st)%nat; reflexivity. Qed.

Lemma page_break_quiet (h : Q) (st : pdf) :
  in_footer st = false -> quiet st (Fpdf.page_break h st).
Proof.
  intros Hf. unfold Fpdf.page_break, Fpdf.page_break_with.
  destruct (Fpdf.will_page_break h st).
  - destruct (add_page_quiet st Hf) as (H1 & H2 & H3 & H4 & H5).
    unfold quiet. cbn [in_footer cur_font font_name ops Fpdf.with_cursor].
    repeat split; assumption.
  - apply quiet_refl, Hf.
Qed.

(** a text block drawn outside a footer *)
Lemma cell_drawn (w h : Q) (txt : string) (nx : new_x_mode) (ny : new_y_mode)
    (st : pdf) :
  in_footer st = false ->
  let st' := Fpdf.cell w h txt nx ny st in
  in_footer st' = false /\ cur_font st' = cur_font st /\
  font_name st' = font_name st /\
  section_titles (ops st')
  = app (section_titles (ops st))
        (if is_title_font (cur_font st) then [txt] else []) /\
  body_texts (ops st') = app (body_texts (ops st)) [txt].
Proof.
  intros Hf st'.
  destruct (page_break_quiet h st Hf) as (H1 & H2 & H3 & H4 & H5).
  subst st'. unfold Fpdf.cell, Fpdf.cell_with, Fpdf.draw_cell.
  fold (Fpdf.page_break h st).
  cbn [in_footer cur_font font_name ops Fpdf.with_cursor Fpdf.emit].
  rewrite section_titles_app, body_texts_app, H1, H2, H4, H5.
  cbn. rewrite !app_nil_r. repeat split; auto.
Qed.

Section Rendering.

Variable line_count : font -> Q -> string -> nat.

Lemma flow_lines_quiet (n : nat) (h : Q) (st : pdf) :
  in_footer st = false -> quiet st (Fpdf.flow_lines n h st).
Proof.
  revert st. induction n as [|n IH]; intros st Hf; cbn [Fpdf.flow_lines].
  - apply quiet_refl, Hf.
  - pose proof (page_break_quiet h st Hf) as Hq.
    eapply quiet_trans; [exact Hq|].
    destruct Hq as (H1 & H2 & H3 & H4 & H5).
    eapply quiet_trans; [|apply IH; exact H1].
    repeat split; auto.
Qed.

Lemma multi_cell_drawn (w h : Q) (txt : string) (st : pdf) :
  in_footer st = false ->
  let st' := Fpdf.multi_cell line_count w h txt st in
  in_footer st' = false /\ cur_font st' = cur_font st /\
  font_name st' = font_name st /\
  section_titles (ops st')
  = app (section_titles (ops st))
        (if is_title_font (cur_font st) then [txt] else []) /\
  body_texts (ops st') = app (body_texts (ops st)) [txt].
Proof.
  intros Hf st'. subst st'. unfold Fpdf.multi_cell.
  destruct (page_break_quiet h st Hf) as (H1 & H2 & H3 & H4 & H5).
  set (st1 := Fpdf.page_break h st) in *.
  match goal with
  | |- context [Fpdf.flow_lines ?n h ?s] =>
      assert (Hs : in_footer s = false) by exact H1;
      destruct (flow_lines_quiet n h s Hs) as (G1 & G2 & G3 & G4 & G5);
      set (st4 := Fpdf.flow_lines n h s) in *
  end.
  cbn [in_footer cur_font font_name ops Fpdf.with_cursor Fpdf.emit] in *.
  rewrite G4, G5, section_titles_app, body_texts_app, H1, H2, H4, H5.
  cbn [section_titles body_texts flat_map title_of text_of app].
  rewrite !app_nil_r. repeat split; auto; congruence.
Qed.

(** *** Rules for [emits] *)

Lemma is_prefix_nil {A} (l : list A) : is_prefix [] l.
Proof. exists l. reflexivity. Qed.

Lemma is_prefix_refl {A} (l : list A) : is_prefix l l.
Proof. exists []. now rewrite app_nil_r. Qed.

Lemma is_prefix_app {A} (a b c : list A) :
  is_prefix b c -> is_prefix (app a b) (app a c).
Proof. intros [r ->]. exists r. now rewrite app_assoc. Qed.

Lemma is_prefix_app_l {A} (a b c : list A) :
  is_prefix a b -> is_prefix a (app b c).
Proof. intros [r ->]. exists (app r c). now rewrite app_assoc. Qed.

Lemma is_prefix_trans {A} (a b c : list A) :
  is_prefix a b -> is_prefix b c -> is_prefix a c.
Proof. intros [r ->] [r' ->]. exists (app r r'). now rewrite app_assoc. Qed.

Lemma emits_bind {A B} (p r q : bool) (t1 t2 : list string) (m : M A)
    (f : A -> M B) :
  emits p r t1 m -> (forall a, emits r q t2 (f a)) ->
  emits p q (app t1 t2) (bind m f).
Proof.
  intros Hm Hf st Hst. unfold bind.
  specialize (Hm st Hst).
  destruct (m st) as [st1 [a|e]]; cbn [fst snd] in *.
  - destruct Hm as (Hin & Hb & Hfont & Ht).
    specialize (Hf a st1 (conj Hin Hfont)).
    destruct (f a st1) as [st2 [b|e]]; cbn [fst snd] in *.
    + destruct Hf as (Hin2 & Hb2 & Hfont2 & Ht2).
      repeat split; auto; [eapply is_prefix_trans; eassumption|].
      now rewrite Ht2, Ht, app_assoc.
    + destruct Hf as (Hin2 & Hb2 & ts' & Hp & Ht2).
      split; auto. split; [eapply is_prefix_trans; eassumption|].
      exists (app t1 ts'). split; [now apply is_prefix_app|].
      now rewrite Ht2, Ht, app_assoc.
  - destruct Hm as (Hin & Hb & ts' & Hp & Ht). split; auto. split; auto.
    exists ts'. split; [now apply is_prefix_app_l | exact Ht].
Qed.

Lemma emits_seq {A B} (p r q : bool) (ts : list string) (m : M A)
    (f : A -> M B) :
  emits p r [] m -> (forall a, emits r q ts (f a)) -> emits p q ts (bind m f).
Proof. intros Hm Hf. exact (emits_bind p r q [] ts m f Hm Hf). Qed.

Lemma emits_weaken {A} (p q : bool) (ts : list string) (m : M A) :
  emits false q ts m -> emits p q ts m.
Proof. intros H st [Hin _]. apply H. split; [exact Hin | discriminate]. Qed.

Lemma emits_forget {A} (p q : bool) (ts : list string) (m : M A) :
  emits p q ts m -> emits p false ts m.
Proof.
  intros H st Hst. specialize (H st Hst).
  destruct (snd (m st)); [|exact H].
  destruct H as (H1 & H2 & _ & H3). repeat split; auto. discriminate.
Qed.

Lemma emits_ret {A} (p : bool) (a : A) : emits p p [] (ret a).
Proof.
  intros st [Hin Hfont]. cbn [ret fst snd].
  repeat split; auto; [apply is_prefix_refl | now rewrite app_nil_r].
Qed.

Lemma emits_pure {A} (p : bool) (r : result A) : emits p p [] (pure r).
Proof.
  intros st [Hin Hfont]. cbn [pure fst snd].
  split; auto. split; [apply is_prefix_refl|].
  destruct r; [repeat split; auto; now rewrite app_nil_r|].
  exists []. split; [apply is_prefix_nil | now rewrite app_nil_r].
Qed.

Lemma emits_pure_bind {A B} (p q : bool) (ts : list string) (r : result A)
    (f : A -> M B) :
  (forall a, r = Ok a -> emits p q ts (f a)) -> emits p q ts (bind (pure r) f).
Proof.
  intros H st Hst. unfold bind, pure. destruct r as [a|e].
  - exact (H a eq_refl st Hst).
  - cbn [fst snd]. split; [apply Hst|]. split; [apply is_prefix_refl|].
    exists []. split; [apply is_prefix_nil | now rewrite app_nil_r].
Qed.

Lemma emits_gets_bind {A B} (p q : bool) (ts : list string) (g : pdf -> A)
    (f : A -> M B) :
  (forall a, emits p q ts (f a)) -> emits p q ts (bind (gets g) f).
Proof. intros H st Hst. unfold bind, gets. exact (H (g st) st Hst). Qed.

Lemma emits_act (p : bool) (f : pdf -> pdf) :
  (forall st, in_footer st = false -> quiet st (f st)) -> emits p p [] (act f).
Proof.
  intros H st [Hin Hfont]. destruct (H st Hin) as (H1 & H2 & H3 & H4 & H5).
  unfold act. cbn [fst snd]. repeat split; auto.
  - rewrite H5. apply is_prefix_refl.
  - intros Hp. rewrite H2. auto.
  - now rewrite app_nil_r.
Qed.

Lemma emits_use_font (p : bool) (sty : string) (sz : Z) :
  (sty =? "B") && (sz =? 13)%Z = false -> emits p true [] (use_font sty sz).
Proof.
  intros H st [Hin _]. unfold use_font, act. cbn [fst snd].
  repeat split; auto; [apply is_prefix_refl | now rewrite app_nil_r].
Qed.

Lemma emits_cell_next (w h : Q) (txt : string) :
  emits true true [] (cell_next w h txt).
Proof.
  intros st [Hin Hfont]. specialize (Hfont eq_refl).
  destruct (cell_drawn w h txt X_LMARGIN Y_NEXT st Hin)
    as (H1 & H2 & H3 & H4 & H5).
  unfold cell_next, act. cbn [fst snd]. repeat split; auto.
  - rewrite H5. eexists; reflexivity.
  - intros _. now rewrite H2.
  - rewrite H4, Hfont. reflexivity.
Qed.

Lemma emits_multi_cell (w h : Q) (txt : string) :
  emits true true [] (multi_cell line_count w h txt).
Proof.
  intros st [Hin Hfont]. specialize (Hfont eq_refl).
  destruct (multi_cell_drawn w h txt st Hin) as (H1 & H2 & H3 & H4 & H5).
  unfold multi_cell, act. cbn [fst snd]. repeat split; auto.
  - rewrite H5. eexists; reflexivity.
  - intros _. now rewrite H2.
  - rewrite H4, Hfont. reflexivity.
Qed.

Lemma emits_for_each {A} (items : list A) (body : A -> M unit) :
  (forall a, emits false false [] (body a)) ->
  emits false false [] (for_each items body).
Proof.
  intros H. induction items as [|a rest IH]; cbn [for_each].
  - apply emits_ret.
  - apply emits_seq with (r := false); [apply H | intros _; exact IH].
Qed.

Ltac quiet_act :=
  let st := fresh "st" in let Hf := fresh "Hf" in
  intros st Hf; unfold quiet, Fpdf.line, rule_here;
  cbn [in_footer cur_font font_name ops Fpdf.ln Fpdf.set_x Fpdf.set_y
       Fpdf.set_text_color Fpdf.set_draw_color Fpdf.set_line_width
       Fpdf.alias_nb_pages Fpdf.with_cursor Fpdf.emit];
  rewrite ?section_titles_app, ?body_texts_app;
  cbn [section_titles body_texts flat_map title_of text_of app];
  rewrite ?app_nil_r; repeat split; auto.

Lemma emits_rule_here (p : bool) : emits p p [] rule_here.
Proof. apply emits_act. quiet_act. Qed.

Lemma emits_add_page (p : bool) : emits p p [] (act Fpdf.add_page).
Proof. apply emits_act. exact add_page_quiet. Qed.

(** one step of a chain of binds *)
Ltac emits_head :=
  lazymatch goal with
  | |- emits ?p _ _ (bind (pure _) _) =>
      apply emits_pure_bind; intros ? ?
  | |- emits ?p _ _ (bind (gets _) _) =>
      apply emits_gets_bind; intros ?
  | |- emits ?p _ _ (bind (use_font _ _) _) =>
      apply emits_seq with (r := true);
      [apply emits_use_font; reflexivity | intros _]
  | |- emits true _ _ (bind (cell_next _ _ _) _) =>
      apply emits_seq with (r := true); [apply emits_cell_next | intros _]
  | |- emits true _ _ (bind (multi_cell _ _ _ _) _) =>
      apply emits_seq with (r := true); [apply emits_multi_cell | intros _]
  | |- emits ?p _ _ (bind rule_here _) =>
      apply emits_seq with (r := p); [apply emits_rule_here | intros _]
  | |- emits ?p _ _ (bind (act Fpdf.add_page) _) =>
      apply emits_seq with (r := p); [apply emits_add_page | intros _]
  | |- emits ?p _ _ (bind (act _) _) =>
      apply emits_seq with (r := p); [apply emits_act; quiet_act | intros _]
  | |- emits ?p false _ (act _) =>
      apply emits_forget with (q := p); apply emits_act; quiet_act
  | |- emits ?p false _ (ret _) =>
      apply emits_forget with (q := p); apply emits_ret
  | |- emits ?p false _ (pure _) =>
      apply emits_forget with (q := p); apply emits_pure
  end.

Ltac case_parts :=
  match goal with
  | |- emits _ _ _ (match ?l with [] => _ | _ :: _ => _ end) => destruct l
  end.

Ltac case_if :=
  match goal with
  | |- emits _ _ _ (if ?b then _ else _) => destruct b
  end.

Lemma bullet_line_emits (text : yaml) (indent : Q) :
  emits false false [] (_bullet_line line_count text indent).
Proof. unfold _bullet_line. repeat emits_head. Qed.

Lemma numbered_line_emits (n : Z) (text : yaml) (indent : Q) :
  emits false false [] (_numbered_line line_count n text indent).
Proof. unfold _numbered_line. repeat emits_head. Qed.

Lemma sub_label_emits (text : string) : emits false false [] (sub_label text).
Proof. unfold sub_label. repeat emits_head. Qed.

Lemma emits_after {A} (p q : bool) (ts : list string) (m : M unit) (k : M A) :
  emits false false [] m -> emits false q ts k ->
  emits p q ts (bind m (fun _ => k)).
Proof.
  intros Hm Hk. apply emits_weaken.
  apply emits_seq with (r := false); [exact Hm | intros _; exact Hk].
Qed.

Lemma render_ingredients_emits (v : yaml) (indent : Q) :
  emits false false [] (render_ingredients line_count v indent).
Proof.
  unfold render_ingredients. emits_head.
  apply emits_for_each. intros ing. emits_head. apply bullet_line_emits.
Qed.

Lemma render_substitutions_emits (v : yaml) (indent : Q) :
  emits false false [] (render_substitutions line_count v indent).
Proof.
  unfold render_substitutions. emits_head.
  apply emits_for_each. intros ing. emits_head. apply bullet_line_emits.
Qed.

Lemma render_steps_from_emits (i : Z) (steps : list yaml) (indent : Q) :
  emits false false [] (render_steps_from line_count i steps indent).
Proof.
  revert i. induction steps as [|s rest IH]; intros i; cbn [render_steps_from].
  - emits_head.
  - apply emits_after; [apply numbered_line_emits | apply IH].
Qed.

Lemma render_steps_emits (v : yaml) (indent : Q) :
  emits false false [] (render_steps line_count v indent).
Proof. unfold render_steps. emits_head. apply render_steps_from_emits. Qed.

Lemma render_garnishes_emits (v : yaml) :
  emits false false [] (render_garnishes line_count v).
Proof.
  unfold render_garnishes. emits_head.
  apply emits_for_each. intros g. emits_head. apply bullet_line_emits.
Qed.

Lemma render_notes_emits (v : yaml) :
  emits false false [] (render_notes line_count v).
Proof.
  unfold render_notes. emits_head.
  apply emits_for_each. intros g. apply bullet_line_emits.
Qed.

(** [if b then block else ret tt], then the rest *)
Lemma emits_when {A} (b : bool) (p q : bool) (ts : list string)
    (block : M unit) (k : M A) :
  emits false false [] block -> emits false q ts k ->
  emits p q ts (bind (if b then block else ret tt) (fun _ => k)).
Proof.
  intros Hb Hk. apply emits_after; [|exact Hk].
  destruct b; [exact Hb | apply (emits_ret false)].
Qed.

Lemma render_component_emits (comp : yaml) :
  emits false false [] (render_component line_count comp).
Proof.
  unfold render_component. do 4 emits_head.
  apply emits_seq with (r := true).
  { case_if; repeat emits_head.
    - apply emits_pure.
    - apply emits_ret. }
  intros label. do 4 emits_head.
  apply emits_when.
  { apply emits_after; [apply sub_label_emits|]. emits_head.
    apply render_ingredients_emits. }
  emits_head. apply emits_when.
  { apply emits_after; [apply sub_label_emits|]. emits_head.
    apply render_steps_emits. }
  emits_head. apply emits_when.
  { apply emits_after; [apply sub_label_emits|]. emits_head.
    apply render_substitutions_emits. }
  emits_head.
  apply emits_seq with (r := false).
  { case_if; repeat emits_head. }
  intros is_list. apply emits_when.
  { apply emits_after; [apply sub_label_emits|]. emits_head.
    apply render_ingredients_emits. }
  emits_head.
Qed.

Lemma render_components_emits (v : yaml) :
  emits false false [] (render_components line_count v).
Proof.
  unfold render_components. emits_head.
  apply emits_for_each. intros comp. apply render_component_emits.
Qed.

(** the header text itself: bold, 13 points *)
Lemma emits_title {A} (c : color) (w h : Q) (title : string) (k : M A) :
  emits false false [] k ->
  emits false false [title]
    (bind (use_font "B" 13) (fun _ =>
     bind (act (Fpdf.set_text_color c)) (fun _ =>
     bind (cell_next w h title) (fun _ => k)))).
Proof.
  intros Hk st [Hin _].
  set (st2 := Fpdf.set_text_color c (Fpdf.set_font (font_name st) "B" 13 st)).
  assert (Hin2 : in_footer st2 = false) by exact Hin.
  destruct (cell_drawn w h title X_LMARGIN Y_NEXT st2 Hin2)
    as (H1 & H2 & H3 & H4 & H5).
  set (st3 := Fpdf.cell w h title X_LMARGIN Y_NEXT st2) in *.
  change (section_titles (ops st2)) with (section_titles (ops st)) in H4.
  change (is_title_font (cur_font st2)) with true in H4.
  cbv iota in H4.
  match goal with
  | |- context [fst (?m st)] => change (m st) with (k st3)
  end.
  assert (Hr : ready false st3) by (split; [exact H1 | discriminate]).
  specialize (Hk st3 Hr).
  destruct Hk as (Hk1 & Hkb & Hk2). split; [exact Hk1|].
  split.
  { eapply is_prefix_trans; [|exact Hkb]. rewrite H5. eexists; reflexivity. }
  destruct (snd (k st3)).
  - destruct Hk2 as [_ Hk2]. split; [intros; discriminate|].
    now rewrite Hk2, H4, app_nil_r.
  - destruct Hk2 as (ts' & [rest Hp] & Hk2).
    symmetry in Hp. apply app_eq_nil in Hp. destruct Hp as [-> _].
    exists [title]. split; [apply is_prefix_refl|].
    now rewrite Hk2, H4, app_nil_r.
Qed.

Lemma section_header_emits (title : string) :
  emits false false [title] (_section_header title).
Proof.
  unfold _section_header. emits_head.
  apply emits_seq with (r := false).
  { case_if; [apply emits_add_page | apply emits_ret]. }
  intros _. emits_head. apply emits_title. repeat emits_head.
Qed.

Lemma section_emits (data : yaml) (key title : string) (body : yaml -> M unit) :
  (forall v, emits false false [] (body v)) ->
  emits false false (section_if data key title) (section data key title body).
Proof.
  intros Hbody. unfold section, section_if.
  apply emits_pure_bind. intros present ->.
  destruct present.
  - replace [title] with (app [title] (@nil string)) by reflexivity.
    apply emits_bind with (r := false); [apply section_header_emits|].
    intros _. emits_head. apply Hbody.
  - apply emits_ret.
Qed.

Lemma render_optional_section_emits (data : yaml) :
  emits false false (optional_if Py.truthy data)
        (render_optional_section line_count data).
Proof.
  unfold render_optional_section, optional_if.
  apply emits_pure_bind. intros opt Hopt.
  destruct data; try discriminate Hopt.
  cbn [Py.get] in Hopt. injection Hopt as <-.
  destruct (Py.lookup "optional" entries) as [v|]; cbn [Py.truthy negb];
    [|apply emits_ret].
  destruct (Py.truthy v); cbn [negb]; [|apply emits_ret].
  replace ["Optional"] with (app ["Optional"] (@nil string)) by reflexivity.
  apply emits_bind with (r := false); [apply section_header_emits|].
  intros _. destruct (Py.is_list v); [apply render_ingredients_emits|].
  destruct (Py.is_dict v); [|apply emits_ret].
  emits_head. apply emits_when.
  { emits_head. apply render_components_emits. }
  emits_head. case_if; [|apply emits_ret].
  emits_head. apply render_ingredients_emits.
Qed.

Lemma render_header_emits (data : yaml) :
  emits false false [] (render_header line_count data).
Proof.
  unfold render_header. do 4 emits_head.
  do 6 emits_head. emits_head.
  apply emits_seq with (r := false).
  { case_parts; repeat emits_head. }
  intros _. emits_head.
  apply emits_seq with (r := false).
  { case_parts; repeat emits_head. }
  intros _. emits_head.
  apply emits_seq with (r := false).
  { case_if; [|apply emits_ret].
    do 2 emits_head. apply emits_forget with (q := true).
    generalize ["url"; "url2"]. intros keys.
    induction keys as [|key rest IH]; cbn [for_each]; [apply emits_ret|].
    apply emits_seq with (r := true); [|intros _; exact IH].
    do 2 emits_head. case_if; [|apply emits_ret].
    do 5 emits_head. apply emits_act. quiet_act. }
  intros _. emits_head.
Qed.

Lemma render_recipe_emits (data : yaml) :
  emits false false (sections_rendered data) (render_recipe line_count data).
Proof.
  unfold render_recipe, sections_rendered, sections_in_order.
  do 2 emits_head.
  apply emits_seq with (r := false); [apply render_header_emits | intros _].
  apply emits_bind with (r := false);
    [apply section_emits; intros; apply render_components_emits | intros _].
  apply emits_bind with (r := false);
    [apply section_emits; intros; apply render_ingredients_emits | intros _].
  apply emits_bind with (r := false);
    [apply render_optional_section_emits | intros _].
  apply emits_bind with (r := false);
    [apply section_emits; intros; apply render_steps_emits | intros _].
  apply emits_bind with (r := false);
    [apply section_emits; intros; apply render_steps_emits | intros _].
  apply emits_bind with (r := false);
    [apply section_emits; intros; apply render_substitutions_emits | intros _].
  apply emits_bind with (r := false);
    [apply section_emits; intros; apply render_garnishes_emits | intros _].
  apply section_emits; intros; apply render_notes_emits.
Qed.

Lemma Qlt_bool_iff (a b : Q) : Qlt_bool a b = true <-> a < b.
Proof.
  unfold Qlt_bool. rewrite negb_true_iff. split.
  - intros H. apply Qnot_le_lt. intros Hle.
    apply Qle_bool_iff in Hle. congruence.
  - intros H. destruct (Qle_bool b a) eqn:E; [|reflexivity].
    apply Qle_bool_iff in E. exfalso. apply (Qlt_not_le _ _ H E).
Qed.

Lemma Qlt_bool_false_iff (a b : Q) : Qlt_bool a b = false <-> b <= a.
Proof.
  unfold Qlt_bool. rewrite negb_false_iff. apply Qle_bool_iff.
Qed.

Lemma close_page_font_name (st : pdf) :
  font_name (Fpdf.close_page st) = font_name st.
Proof.
  unfold Fpdf.close_page, Fpdf.footer, Fpdf.cell_with, Fpdf.page_break_with,
    Fpdf.will_page_break.
  cbn [in_footer Fpdf.with_in_footer Fpdf.set_y Fpdf.set_font
       Fpdf.set_text_color Fpdf.with_cursor].
  rewrite andb_false_r. reflexivity.
Qed.

Lemma section_header_returns (title : string) (st : pdf) :
  snd (_section_header title st) = Ok tt.
Proof.
  unfold _section_header, bind, gets.
  destruct (Qlt_bool 250 (Fpdf.get_y st)); reflexivity.
Qed.

(** the position past which a cell breaks the page: a little over 282 *)
Lemma page_break_trigger_value : Fpdf.page_break_trigger == 3384001 # 12000.
Proof. reflexivity. Qed.

(** the header fits above the bottom margin when the cursor is not past 250 *)
Lemma header_fits (y : Q) :
  y <= 250 -> Qlt_bool Fpdf.page_break_trigger (y + 4 + 8) = false.
Proof.
  intros H. apply Qlt_bool_false_iff.
  pose proof page_break_trigger_value. lra.
Qed.

(** C7: [_section_header] starts a new page before drawing the header iff
    the cursor is past 250 (of a page about 297 high); otherwise the header is
    drawn on the current page.  In both cases the title and its rule follow
    at once what the explicit test left, on one page: the automatic page
    break of [cell] never fires here. *)
Theorem section_header_page_break : forall (title : string) (st : pdf),
  let st1 := if Qlt_bool 250 (Fpdf.get_y st) then Fpdf.add_page st else st in
  let st' := fst (_section_header title st) in
  (250 < Fpdf.get_y st <-> page st' = S (page st)) /\
  (Fpdf.get_y st <= 250 <-> page st' = page st) /\
  (Fpdf.get_y st <= 250 -> st1 = st) /\
  ops st'
  = app (ops st1)
        [OText (in_footer st1) (page st') Fpdf.l_margin (cur_y st1 + 4)
               (mkFont (font_name st) "B" 13) BROWN_MED title;
         ORule (page st') 20 (cur_y st1 + 4 + 8) 190 (cur_y st1 + 4 + 8)
               (line_width st) GRAY_ACCENT].
Proof.
  intros title st st1 st'.
  assert (Hrun : page st' = page st1 /\
    ops st'
    = app (ops st1)
        [OText (in_footer st1) (page st1) Fpdf.l_margin (cur_y st1 + 4)
               (mkFont (font_name st) "B" 13) BROWN_MED title;
         ORule (page st1) 20 (cur_y st1 + 4 + 8) 190 (cur_y st1 + 4 + 8)
               (line_width st) GRAY_ACCENT]).
  { subst st' st1. unfold _section_header, bind, gets.
    destruct (Qlt_bool 250 (Fpdf.get_y st)) eqn:E;
      cbn [fst snd ret act use_font cell_next rule_here];
      unfold Fpdf.cell, Fpdf.cell_with, Fpdf.page_break_with,
        Fpdf.will_page_break;
      cbn [cur_y in_footer Fpdf.ln Fpdf.set_font Fpdf.set_text_color
           Fpdf.with_cursor].
    - replace (cur_y (Fpdf.add_page st)) with Fpdf.t_margin
        by (unfold Fpdf.add_page; reflexivity).
      replace (Qlt_bool Fpdf.page_break_trigger (Fpdf.t_margin + 4 + 8))
        with false by reflexivity.
      cbn [andb]. unfold Fpdf.add_page.
      destruct (0 <? page st)%nat;
        cbn [font_name page ops in_footer cur_y];
        rewrite ?close_page_font_name;
        (split; [reflexivity|]);
        cbn -[Qplus Fpdf.close_page]; rewrite <- app_assoc; reflexivity.
    - apply Qlt_bool_false_iff in E. unfold Fpdf.get_y in E.
      rewrite (header_fits _ E). cbn [andb]. split; [reflexivity|].
      cbn -[Qplus]. rewrite <- app_assoc. reflexivity. }
  destruct Hrun as [Hpage Hops].
  assert (Hp1 : page st1 = if Qlt_bool 250 (Fpdf.get_y st) then S (page st)
                           else page st).
  { subst st1. destruct (Qlt_bool 250 (Fpdf.get_y st)); [|reflexivity].
    apply add_page_page. }
  split; [|split; [|split]].
  - rewrite Hpage, Hp1. rewrite <- Qlt_bool_iff.
    destruct (Qlt_bool 250 (Fpdf.get_y st)); split; intros H; auto;
      try discriminate. exfalso. lia.
  - rewrite Hpage, Hp1. rewrite <- Qlt_bool_false_iff.
    destruct (Qlt_bool 250 (Fpdf.get_y st)); split; intros H; auto;
      try discriminate. exfalso. lia.
  - intros H. apply Qlt_bool_false_iff in H. subst st1. now rewrite H.
  - rewrite Hops, Hpage. reflexivity.
Qed.

(** *** Numbered steps *)

Lemma numbered_line_drawn (n : Z) (text : yaml) (indent : Q) (st : pdf) :
  in_footer st = false ->
  let run := _numbered_line line_count n text indent st in
  snd run = Ok tt /\ in_footer (fst run) = false /\
  body_texts (ops (fst run))
  = app (body_texts (ops st)) [Str.of_Z n ++ ".  " ++ Py.str text].
Proof.
  intros Hf run.
  set (st1 := Fpdf.set_x (22 + indent)
                (Fpdf.set_text_color TEXT_COLOR
                   (Fpdf.set_font (font_name st) EmptyString 10 st))).
  set (txt := (Str.of_Z n ++ ".  ") ++ Py.str text).
  assert (Hrun : run = (Fpdf.ln 1.5 (Fpdf.multi_cell line_count (166 - indent)
                                       5 txt st1), Ok tt)) by reflexivity.
  assert (Hs : in_footer st1 = false) by exact Hf.
  destruct (multi_cell_drawn (166 - indent) 5 txt st1 Hs)
    as (H1 & H2 & H3 & H4 & H5).
  rewrite Hrun. cbn [fst snd Fpdf.ln in_footer ops Fpdf.with_cursor].
  repeat split; auto. rewrite H5. subst txt. rewrite append_assoc.
  reflexivity.
Qed.

Lemma render_steps_from_drawn (steps : list yaml) (i : Z) (indent : Q)
    (st : pdf) :
  in_footer st = false ->
  let run := render_steps_from line_count i steps indent st in
  snd run = Ok tt /\ in_footer (fst run) = false /\
  body_texts (ops (fst run))
  = app (body_texts (ops st)) (step_lines i steps).
Proof.
  revert i st. induction steps as [|step rest IH]; intros i st Hf;
    cbn [render_steps_from step_lines].
  - cbn. repeat split; auto. now rewrite app_nil_r.
  - destruct (numbered_line_drawn i (flatten_step step) indent st Hf)
      as (H1 & H2 & H3).
    unfold bind.
    destruct (_numbered_line line_count i (flatten_step step) indent st)
      as [st1 r]. cbn [fst snd] in *. subst r.
    destruct (IH (i + 1)%Z st1 H2) as (G1 & G2 & G3).
    repeat split; auto. rewrite G3, H3, <- app_assoc. reflexivity.
Qed.







(** *** Sections *)

Lemma bind_pure_ok {A B} (a : A) (f : A -> M B) (st : pdf) :
  bind (pure (Ok a)) f st = f a st.
Proof. reflexivity. Qed.

Lemma bind_run {A B} (m : M A) (f : A -> M B) (st : pdf) :
  bind m f st
  = match snd (m st) with
    | Ok a => f a (fst (m st))
    | Raise e => (fst (m st), Raise e)
    end.
Proof. unfold bind. destruct (m st) as [st1 [a|e]]; reflexivity. Qed.

(** C9: when [optional] is absent, or present with a falsy value (an empty
    sequence, an empty mapping, [false], [null], ...), the optional-section
    renderer does nothing at all: the object is left as it was.  When
    [optional] is present and truthy, the header "Optional" is drawn, and no
    other section header.  So the header is drawn iff [optional] is present
    and truthy. *)
Theorem render_optional_section_falsy : forall (d : dict) (st : pdf),
  let run := render_optional_section line_count (YDict d) st in
  (Py.lookup "optional" d = None -> run = (st, Ok tt)) /\
  (forall v, Py.lookup "optional" d = Some v -> Py.truthy v = false ->
             run = (st, Ok tt)) /\
  (forall v, Py.lookup "optional" d = Some v -> Py.truthy v = true ->
             in_footer st = false ->
             section_titles (ops (fst run))
             = app (section_titles (ops st)) ["Optional"]).
Proof.
  intros d st run. subst run.
  unfold render_optional_section. cbn [Py.get]. rewrite bind_pure_ok.
  split; [|split].
  - intros ->. reflexivity.
  - intros v -> Hv. rewrite Hv. reflexivity.
  - intros v -> Hv Hf. rewrite Hv. cbn [negb].
    rewrite bind_run.
    pose proof (section_header_returns "Optional" st) as Hret.
    pose proof (section_header_emits "Optional" st
                  (conj Hf (fun H => False_ind _ (diff_false_true H)))) as Hh.
    rewrite Hret in Hh |- *.
    set (st1 := fst (_section_header "Optional" st)) in *.
    destruct Hh as (Hin1 & _ & _ & Ht1).
    match goal with
    | |- context [fst (?body st1)] =>
        assert (Hbody : emits false false [] body)
    end.
    { destruct (Py.is_list v); [apply render_ingredients_emits|].
      destruct (Py.is_dict v); [|apply emits_ret].
      emits_head. apply emits_when.
      { emits_head. apply render_components_emits. }
      emits_head. case_if; [|apply emits_ret].
      emits_head. apply render_ingredients_emits. }
    specialize (Hbody st1 (conj Hin1
                  (fun H => False_ind _ (diff_false_true H)))).
    destruct Hbody as (_ & _ & Hb).
    match goal with
    | H : match snd ?x with _ => _ end |- _ => destruct (snd x)
    end.
    + destruct Hb as [_ Hb]. now rewrite Hb, app_nil_r.
    + destruct Hb as (ts' & [rest Hp] & Hb).
      symmetry in Hp. apply app_eq_nil in Hp. destruct Hp as [-> _].
      now rewrite Hb, app_nil_r.
Qed.

(** the first thing the header block draws is the name of the record *)
Lemma render_header_name (data : yaml) (st : pdf) :
  in_footer st = false ->
  let run := render_header line_count data st in
  snd run = Ok tt ->
  exists name more,
    Py.getitem data "name" = Ok (YStr name) /\
    body_texts (ops (fst run)) = app (body_texts (ops st)) (name :: more).
Proof.
  intros Hf run. subst run. unfold render_header.
  rewrite bind_run. cbn [use_font act fst snd].
  rewrite bind_run. cbn [use_font act fst snd].
  rewrite bind_run. cbn [pure fst snd].
  destruct (Py.getitem data "name") as [name|e]; [|discriminate].
  rewrite bind_run. cbn [pure fst snd].
  destruct name as [| | | | name | |]; cbn [Fpdf.multi_cell_text];
    try discriminate.
  match goal with
  | |- context [bind (multi_cell line_count ?w ?h name) ?k] =>
      assert (Hk : emits true false [] (k tt)); [|set (rest := k) in *]
  end.
  { repeat emits_head.
    apply emits_seq with (r := false).
    { case_parts; repeat emits_head. }
    intros _. emits_head.
    apply emits_seq with (r := false).
    { case_parts; repeat emits_head. }
    intros _. emits_head.
    apply emits_seq with (r := false).
    { case_if; [|apply emits_ret].
      do 2 emits_head. apply emits_forget with (q := true).
      generalize ["url"; "url2"]. intros keys.
      induction keys as [|key keys IH]; cbn [for_each]; [apply emits_ret|].
      apply emits_seq with (r := true); [|intros _; exact IH].
      do 2 emits_head. case_if; [|apply emits_ret].
      do 5 emits_head. apply emits_act. quiet_act. }
    intros _. emits_head. }
  rewrite bind_run. unfold multi_cell at 1 2 3. cbn [act fst snd].
  match goal with
  | |- context [Fpdf.multi_cell line_count ?w ?h name ?s] =>
      assert (Hs : in_footer s = false) by exact Hf;
      destruct (multi_cell_drawn w h name s Hs) as (H1 & H2 & H3 & H4 & H5);
      set (st2 := Fpdf.multi_cell line_count w h name s) in *
  end.
  change (is_title_font (cur_font _)) with false in H4.
  assert (Hr : ready true st2).
  { split; [exact H1|]. intros _. rewrite H2. reflexivity. }
  destruct (Hk st2 Hr) as (_ & [more Hmore] & _).
  intros _. exists name, more. split; [reflexivity|].
  change (body_texts (ops (fst (rest tt st2)))
          = app (body_texts (ops st)) (name :: more)).
  rewrite Hmore, H5. cbn [ops Fpdf.set_text_color Fpdf.set_font].
  rewrite <- app_assoc. reflexivity.
Qed.

(** *** Field order *)

Lemma is_key_iff (k : string) (key : yaml) :
  Py.is_key k key = true <-> key = YStr k.
Proof.
  destruct key; cbn; split; intros H; try discriminate.
  - apply String.eqb_eq in H. now subst.
  - injection H as ->. apply String.eqb_refl.
Qed.

Lemma lookup_some_in (k : string) (d : dict) (v : yaml) :
  Py.lookup k d = Some v -> In (YStr k, v) d.
Proof.
  induction d as [|[key x] rest IH]; cbn; [discriminate|].
  destruct (Py.is_key k key) eqn:E.
  - intros H. injection H as ->. apply is_key_iff in E. subst. now left.
  - intros H. right. now apply IH.
Qed.

Lemma lookup_in (k : string) (d : dict) (v : yaml) :
  NoDup (map fst d) -> In (YStr k, v) d -> Py.lookup k d = Some v.
Proof.
  induction d as [|[key x] rest IH]; cbn; [contradiction|].
  intros Hnd Hin. inversion Hnd as [|? ? Hnotin Hnd']; subst.
  destruct (Py.is_key k key) eqn:E.
  - apply is_key_iff in E. subst key.
    destruct Hin as [Heq | Hin]; [now injection Heq as -> |].
    exfalso. apply Hnotin. apply (in_map fst) in Hin. exact Hin.
  - destruct Hin as [Heq | Hin]; [|now apply IH].
    injection Heq as -> ->. cbn in E. now rewrite String.eqb_refl in E.
Qed.

Lemma lookup_perm (d1 d2 : dict) (k : string) :
  NoDup (map fst d1) -> Permutation d1 d2 -> Py.lookup k d1 = Py.lookup k d2.
Proof.
  intros Hnd Hp.
  assert (Hnd2 : NoDup (map fst d2)).
  { eapply Permutation_NoDup; [|exact Hnd]. now apply Permutation_map. }
  destruct (Py.lookup k d1) as [v|] eqn:E1.
  - symmetry. apply lookup_in; [exact Hnd2|].
    eapply Permutation_in; [exact Hp|]. now apply lookup_some_in.
  - destruct (Py.lookup k d2) as [v|] eqn:E2; [|reflexivity].
    apply lookup_some_in in E2.
    apply (Permutation_in _ (Permutation_sym Hp)) in E2.
    apply (lookup_in _ _ _ Hnd) in E2. congruence.
Qed.

Lemma sections_rendered_perm (d1 d2 : dict) :
  NoDup (map fst d1) -> Permutation d1 d2 ->
  sections_rendered (YDict d2) = sections_rendered (YDict d1).
Proof.
  intros Hnd Hp.
  unfold sections_rendered, sections_in_order, section_if, optional_if,
    Py.contains, Py.has_key.
  rewrite !(lookup_perm d1 d2 _ Hnd Hp). reflexivity.
Qed.

(** the sections after the header block *)
Ltac sections_chain :=
  apply emits_bind with (r := false);
    [apply section_emits; intros; apply render_components_emits | intros _];
  apply emits_bind with (r := false);
    [apply section_emits; intros; apply render_ingredients_emits | intros _];
  apply emits_bind with (r := false);
    [apply render_optional_section_emits | intros _];
  apply emits_bind with (r := false);
    [apply section_emits; intros; apply render_steps_emits | intros _];
  apply emits_bind with (r := false);
    [apply section_emits; intros; apply render_steps_emits | intros _];
  apply emits_bind with (r := false);
    [apply section_emits; intros; apply render_substitutions_emits | intros _];
  apply emits_bind with (r := false);
    [apply section_emits; intros; apply render_garnishes_emits | intros _];
  apply section_emits; intros; apply render_notes_emits.

(** C1 (as amended): the section headers that [render_recipe] draws are, in
    order, those of the fixed list Components, Ingredients, Optional, Steps,
    Alternative Steps, Substitutions, Garnishes, Notes whose field is present
    (for Optional: present and truthy).  When the rendering raises, the
    headers drawn so far are a prefix of that list.  When it completes, the
    name of the record (the header block) is the first text drawn, before
    every section.  The list does not depend on the order of the fields. *)
Theorem render_recipe_section_order : forall (font : string) (data : yaml),
  let run := render_recipe line_count data (Fpdf.init font) in
  is_prefix (section_titles (ops (fst run))) (sections_rendered data) /\
  (snd run = Ok tt ->
   section_titles (ops (fst run)) = sections_rendered data /\
   exists name more,
     Py.getitem data "name" = Ok (YStr name) /\
     body_texts (ops (fst run)) = name :: more) /\
  (forall d1 d2, data = YDict d1 -> NoDup (map fst d1) -> Permutation d1 d2 ->
     sections_rendered (YDict d2) = sections_rendered data).
Proof.
  intros font data run.
  assert (Hinit : ready false (Fpdf.init font))
    by (split; [reflexivity | discriminate]).
  pose proof (render_recipe_emits data (Fpdf.init font) Hinit) as He.
  fold run in He. destruct He as (_ & _ & He).
  split; [|split].
  - destruct (snd run).
    + destruct He as [_ ->]. apply is_prefix_refl.
    + destruct He as (ts' & Hp & ->). exact Hp.
  - intros Hok. rewrite Hok in He. destruct He as [_ He].
    split; [exact He|].
    subst run. unfold render_recipe in *.
    rewrite bind_run in Hok |- *. cbn [act fst snd] in Hok |- *.
    rewrite bind_run in Hok |- *. cbn [act fst snd] in Hok |- *.
    set (st1 := Fpdf.add_page (Fpdf.alias_nb_pages (Fpdf.init font))) in *.
    assert (Hf1 : in_footer st1 = false) by reflexivity.
    pose proof (render_header_name data st1 Hf1) as Hh.
    rewrite bind_run in Hok |- *.
    destruct (snd (render_header line_count data st1)) as [[]|e] eqn:Eh;
      [|discriminate].
    destruct (Hh Eh) as (name & more & Hname & Hbody).
    set (st2 := fst (render_header line_count data st1)) in *.
    match goal with
    | |- context [fst (?k st2)] =>
        assert (Hk : emits false false (sections_rendered data) k)
    end.
    { unfold sections_rendered, sections_in_order. sections_chain. }
    assert (Hr2 : ready false st2).
    { split; [|discriminate].
      apply (render_header_emits data st1
               (conj Hf1 (fun H => False_ind _ (diff_false_true H)))). }
    destruct (Hk st2 Hr2) as (_ & [more' Hmore] & _).
    exists name, (app more more'). split; [exact Hname|].
    rewrite Hmore, Hbody. reflexivity.
  - intros d1 d2 -> Hnd Hp. now apply sections_rendered_perm.
Qed.

End Rendering.

(** ** The batch driver *)

Section Batch.

Variable line_count : font -> Q -> string -> nat.
Variable resolved_font : string.

Lemma process_file_written (b : batch) (f : recipe_file) :
  written (process_file line_count resolved_font b f)
  = app (written b) (documents_of line_count resolved_font f).
Proof.
  unfold process_file, documents_of.
  destruct (attempt_file line_count resolved_font f) as [[|doc]|e];
    cbn [written]; now rewrite ?app_nil_r.
Qed.

Lemma process_file_counts (b : batch) (f : recipe_file) :
  success_count (process_file line_count resolved_font b f)
  = (success_count b
     + List.length (documents_of line_count resolved_font f))%nat /\
  (success_count (process_file line_count resolved_font b f)
   + error_count (process_file line_count resolved_font b f)
   = success_count b + error_count b + 1)%nat.
Proof.
  unfold process_file, documents_of.
  destruct (attempt_file line_count resolved_font f) as [[|doc]|e];
    cbn [success_count error_count List.length]; lia.
Qed.

Lemma fold_process_file (files : list recipe_file) (b : batch) :
  let b' := fold_left (process_file line_count resolved_font) files b in
  written b'
  = app (written b) (flat_map (documents_of line_count resolved_font) files) /\
  success_count b'
  = (success_count b
     + List.length
         (flat_map (documents_of line_count resolved_font) files))%nat /\
  (success_count b' + error_count b'
   = success_count b + error_count b + List.length files)%nat.
Proof.
  revert b. induction files as [|f rest IH]; intros b; cbn [fold_left flat_map].
  - cbn. rewrite app_nil_r. repeat split; lia.
  - destruct (IH (process_file line_count resolved_font b f)) as (H1 & H2 & H3).
    destruct (process_file_counts b f) as (C1 & C2).
    cbn zeta in *. rewrite process_file_written in H1.
    rewrite length_app. rewrite <- app_assoc in H1.
    cbn [List.length]. repeat split; [exact H1 | lia | lia].
Qed.

(** The loop runs the [try] on the files before the first whose directory
    cannot be created, and on all of them when there is none. *)
Lemma run_files_done (files : list recipe_file) (b : batch) :
  exists done rest,
    files = app done rest /\
    Forall (fun f => dir_made f = Ok tt) done /\
    snd (run_files line_count resolved_font files b)
    = fold_left (process_file line_count resolved_font) done b /\
    match rest with
    | [] => fst (run_files line_count resolved_font files b) = Ok tt
    | f :: _ =>
        exists e, dir_made f = Raise e /\
          fst (run_files line_count resolved_font files b) = Raise e
    end.
Proof.
  revert b. induction files as [|f rest IH]; intros b; cbn [run_files].
  - exists [], []. repeat split. constructor.
  - destruct (dir_made f) as [[]|e] eqn:E.
    + destruct (IH (process_file line_count resolved_font b f))
        as (done & rest' & -> & Hd & Hs & Hr).
      exists (f :: done), rest'. repeat split.
      * constructor; assumption.
      * exact Hs.
      * exact Hr.
    + exists [], (f :: rest). repeat split; [constructor|].
      exists e. split; [exact E | reflexivity].
Qed.

Lemma run_files_stops (done rest : list recipe_file) (f : recipe_file)
    (e : exn) (b : batch) :
  Forall (fun g => dir_made g = Ok tt) done -> dir_made f = Raise e ->
  run_files line_count resolved_font (app done (f :: rest)) b
  = (Raise e, fold_left (process_file line_count resolved_font) done b).
Proof.
  revert b. induction done as [|g done IH]; intros b Hd Hf;
    cbn [app run_files fold_left].
  - now rewrite Hf.
  - inversion Hd as [|? ? Hg Hrest]; subst. rewrite Hg. now apply IH.
Qed.

Lemma run_files_all (files : list recipe_file) (b : batch) :
  Forall (fun f => dir_made f = Ok tt) files ->
  run_files line_count resolved_font files b
  = (Ok tt, fold_left (process_file line_count resolved_font) files b).
Proof.
  revert b. induction files as [|f rest IH]; intros b H; cbn [run_files].
  - reflexivity.
  - inversion H as [|? ? Hf Hrest]; subst. rewrite Hf. now apply IH.
Qed.


(** a document is written exactly when the [try] completes *)
Lemma documents_of_completes (f : recipe_file) (doc : document) :
  documents_of line_count resolved_font f = [(output_path f, doc)]
  <-> completes line_count resolved_font f doc.
Proof.
  unfold documents_of, attempt_file, lacks_name, completes, refusal. split.
  - destruct (loaded f) as [data|e]; cbn [rbind]; [|discriminate].
    destruct (Py.truthy data) eqn:Et; cbn [negb rbind]; [|discriminate].
    destruct (Py.contains "name" data) as [[|]|e] eqn:En; cbn [rbind negb];
      try discriminate.
    destruct (constructed f) as [[]|e]; cbn [rbind]; [|discriminate].
    destruct (render_recipe line_count data (Fpdf.init resolved_font))
      as [st [[]|e]] eqn:Er;
      destruct (accepted resolved_font (ops st)) eqn:Ee; cbn [rbind];
      try discriminate.
    destruct (stored f) as [[]|e]; cbn [rbind]; [|discriminate].
    intros [= <-]. exists data, st. repeat split; auto.
  - intros (data & st & Hl & Ht & Hn & Hc & Hr & He & Hs & ->).
    rewrite Hl. cbn [rbind]. rewrite Ht. cbn [negb]. rewrite Hn.
    cbn [rbind negb]. rewrite Hc. cbn [rbind]. rewrite Hr, He.
    cbn [rbind]. rewrite Hs. reflexivity.
Qed.

Lemma documents_of_cases (f : recipe_file) :
  documents_of line_count resolved_font f = [] \/
  exists doc,
    documents_of line_count resolved_font f = [(output_path f, doc)].
Proof.
  unfold documents_of.
  destruct (attempt_file line_count resolved_font f) as [[|doc]|e]; eauto.
Qed.

(** *** Mirrored output paths *)

Lemma rfind_from_app (c : ascii) (a b : string) (i : nat) (last : option nat) :
  Str.rfind_from c (a ++ b) i last
  = Str.rfind_from c b (i + String.length a) (Str.rfind_from c a i last).
Proof.
  revert i last. induction a as [|x a IH]; intros i last; cbn.
  - now rewrite Nat.add_0_r.
  - rewrite IH. f_equal. lia.
Qed.

Lemma length_append (a b : string) :
  String.length (a ++ b) = (String.length a + String.length b)%nat.
Proof. induction a as [|x a IH]; cbn; [reflexivity | now rewrite IH]. Qed.

Lemma substring_prefix (a b : string) :
  substring 0 (String.length a) (a ++ b) = a.
Proof.
  induction a as [|x a IH]; cbn.
  - destruct b; reflexivity.
  - now rewrite IH.
Qed.

Lemma name_stem_yaml (stem : string) :
  stem <> EmptyString -> name_stem (stem ++ ".yaml") = stem.
Proof.
  intros Hne. unfold name_stem, Str.rfind.
  rewrite rfind_from_app. cbn [Str.rfind_from String.length Nat.add].
  replace (Ascii.eqb "." ".") with true by reflexivity.
  replace (Ascii.eqb "y" ".") with false by reflexivity.
  replace (Ascii.eqb "a" ".") with false by reflexivity.
  replace (Ascii.eqb "m" ".") with false by reflexivity.
  replace (Ascii.eqb "l" ".") with false by reflexivity.
  rewrite length_append. cbn [String.length].
  assert (Hlen : (0 < String.length stem)%nat).
  { destruct stem; [congruence | cbn; lia]. }
  replace (0 <? String.length stem)%nat with true
    by (symmetry; apply Nat.ltb_lt; lia).
  replace (String.length stem <? String.length stem + 5 - 1)%nat with true
    by (symmetry; apply Nat.ltb_lt; lia).
  cbn [andb]. apply substring_prefix.
Qed.

Lemma with_suffix_last (suffix : string) (dirs : path) (name : string) :
  with_suffix suffix (app dirs [name]) = app dirs [name_stem name ++ suffix].
Proof.
  induction dirs as [|d rest IH]; [reflexivity|].
  cbn [app with_suffix]. rewrite IH.
  destruct (app rest [name]) eqn:E; [|reflexivity].
  destruct rest; discriminate.
Qed.


(** the state of the batch when [main] ends, and how it ends *)
Lemma main_summary (tree : list recipe_file) :
  let files := find_recipe_files tree in
  let returned := fst (main line_count resolved_font tree) in
  let b := snd (main line_count resolved_font tree) in
  exists done rest,
    files = app done rest /\
    Forall (fun f => dir_made f = Ok tt) done /\
    b = fold_left (process_file line_count resolved_font) done empty_batch /\
    written b = flat_map (documents_of line_count resolved_font) done /\
    success_count b
    = List.length (flat_map (documents_of line_count resolved_font) done) /\
    (success_count b + error_count b = List.length done)%nat /\
    match rest with
    | [] =>
        returned
        = Ok (if ((0 <? error_count b)%nat
                  || match files with [] => true | _ => false end)%bool
              then 1%Z else 0%Z)
    | f :: _ => exists e, dir_made f = Raise e /\ returned = Raise e
    end.
Proof.
  intros files returned b. subst returned b. unfold main. fold files.
  destruct files as [|f0 rest0] eqn:E.
  - exists [], []. cbn. repeat split; constructor.
  - destruct (run_files_done (f0 :: rest0) empty_batch)
      as (done & rest & Hsplit & Hd & Hs & Hr).
    destruct (fold_process_file done empty_batch) as (H1 & H2 & H3).
    cbn zeta in H1, H2, H3.
    cbn [written success_count error_count empty_batch app Nat.add]
      in H1, H2, H3.
    destruct (run_files line_count resolved_font (f0 :: rest0) empty_batch)
      as [outcome b] eqn:Er.
    cbn [fst snd] in *. subst b.
    exists done, rest. repeat split; try assumption.
    destruct rest as [|f rest].
    + rewrite Hr. cbn [rbind]. now rewrite orb_false_r.
    + destruct Hr as (e & He & ->). exists e. split; [exact He|reflexivity].
Qed.

Lemma forall_app_l {A} (P : A -> Prop) (l1 l2 : list A) :
  Forall P (app l1 l2) -> Forall P l1.
Proof. intros H. apply Forall_app in H. apply H. Qed.






End Batch.

(** ** Instances *)

Lemma render_recipe_section_order_witness :
  section_titles
    (ops (fst (render_recipe one_line notes_then_steps (Fpdf.init "DejaVu"))))
  = ["Steps"; "Notes"].
Proof.
  exact (proj1 (proj1 (proj2 (render_recipe_section_order
                                one_line "DejaVu" notes_then_steps))
                      eq_refl)).
Defined.

(** C1 as stated fails: [optional] is present, with an empty value, the
    rendering completes, and no "Optional" header is drawn. *)
Lemma render_recipe_optional_present_not_drawn :
  snd (render_recipe one_line empty_optional (Fpdf.init "DejaVu")) = Ok tt /\
  sections_by_presence empty_optional = ["Optional"] /\
  section_titles
    (ops (fst (render_recipe one_line empty_optional (Fpdf.init "DejaVu"))))
  <> sections_by_presence empty_optional.
Proof.
  split; [reflexivity|]. split; [reflexivity|]. vm_compute. discriminate.
Qed.

Lemma section_header_page_break_witness :
  page (fst (_section_header "Steps" low_on_page)) = 2%nat.
Proof.
  refine (proj1 (proj1 (section_header_page_break "Steps" low_on_page)) _).
  reflexivity.
Defined.


Example render_steps_numbering_example :
  body_texts
    (ops (fst (render_steps one_line (YList text_and_single_entry) 0
                            (Fpdf.init "DejaVu"))))
  = ["1.  boil"; "2.  optional: add milk"].
Proof. reflexivity. Qed.


Lemma render_optional_section_falsy_witness :
  render_optional_section one_line empty_optional (Fpdf.init "DejaVu")
  = (Fpdf.init "DejaVu", Ok tt).
Proof.
  exact (proj1 (proj2 (render_optional_section_falsy one_line
                         [(YStr "name", YStr "Tea");
                          (YStr "optional", YList [])]
                         (Fpdf.init "DejaVu")))
               (YList []) eq_refl eq_refl).
Defined.

Example render_optional_section_null :
  render_optional_section one_line
    (YDict [(YStr "optional", YNull)]) (Fpdf.init "DejaVu")
  = (Fpdf.init "DejaVu", Ok tt).
Proof. reflexivity. Qed.

Example render_optional_section_false :
  render_optional_section one_line
    (YDict [(YStr "optional", YBool false)]) (Fpdf.init "DejaVu")
  = (Fpdf.init "DejaVu", Ok tt).
Proof. reflexivity. Qed.

Example render_optional_section_empty_mapping :
  render_optional_section one_line
    (YDict [(YStr "optional", YDict [])]) (Fpdf.init "DejaVu")
  = (Fpdf.init "DejaVu", Ok tt).
Proof. reflexivity. Qed.



Example main_three_and_one :
  fst (main one_line "DejaVu" three_and_one) = Ok 1%Z /\
  success_count (snd (main one_line "DejaVu" three_and_one)) = 3%nat /\
  error_count (snd (main one_line "DejaVu" three_and_one)) = 1%nat /\
  map fst (written (snd (main one_line "DejaVu" three_and_one)))
  = [["PDF"; "sauces"; "base_sauce.pdf"]; ["PDF"; "soups"; "broth.pdf"];
     ["PDF"; "tea.pdf"]].
Proof. vm_compute. repeat split. Qed.

Example main_no_files : fst (main one_line "DejaVu" []) = Ok 1%Z.
Proof. reflexivity. Qed.



(** * Further properties *)

(** ** When the ingredient formatter raises *)

(** X1: [format_ingredient] raises [AttributeError] on a value that is not a
    mapping (it calls [.get] first), [KeyError] on a mapping without [item],
    [TypeError] when [item] is not a text (the join) and, with a text [item],
    [TypeError] when [ref] is truthy and not a text (the path); in every
    other case it returns a line. *)
Theorem format_ingredient_errors : forall v : yaml,
  (Py.is_dict v = false -> format_ingredient v = Raise AttributeError) /\
  (forall d, v = YDict d -> Py.lookup "item" d = None ->
     format_ingredient v = Raise KeyError) /\
  (forall d x, v = YDict d -> Py.lookup "item" d = Some x ->
     Py.is_str x = false -> format_ingredient v = Raise TypeError) /\
  (forall d item r, v = YDict d -> Py.lookup "item" d = Some (YStr item) ->
     Py.lookup "ref" d = Some r -> Py.truthy r = true -> Py.is_str r = false ->
     format_ingredient v = Raise TypeError) /\
  (forall d item, v = YDict d -> Py.lookup "item" d = Some (YStr item) ->
     (forall r, Py.lookup "ref" d = Some r -> Py.truthy r = true ->
                Py.is_str r = true) ->
     exists line, format_ingredient v = Ok line).
Proof.
  intros v. split; [|split; [|split; [|split]]].
  - destruct v; cbn; try reflexivity. discriminate.
  - intros d -> H. unfold format_ingredient.
    cbn [Py.get Py.getitem rbind]. rewrite H. reflexivity.
  - intros d x -> H Hx. unfold format_ingredient.
    cbn [Py.get Py.getitem rbind]. rewrite H. cbn [rbind].
    match goal with
    | |- context [Py.join " " (app ?ps [x])] =>
        assert (Hj : Py.join " " (app ps [x]) = Raise TypeError)
    end.
    { unfold Py.join.
      match goal with
      | |- context [Py.strs (app ?ps [x])] =>
          assert (Hs : Py.strs (app ps [x]) = Raise TypeError);
          [|now rewrite Hs]
      end.
      repeat match goal with
             | |- context [nonempty ?s] => destruct (nonempty s)
             end;
        cbn [app Py.strs Py.expect_str rbind];
        destruct x; try discriminate Hx; reflexivity. }
    rewrite Hj. reflexivity.
  - intros d item r -> Hitem Hr Ht Hs. unfold format_ingredient.
    cbn [Py.get Py.getitem Py.contains rbind Py.has_key].
    rewrite Hitem, Hr. cbn [rbind].
    match goal with
    | |- context [Py.join " " ?ps] =>
        replace ps
          with (app (map YStr (app (quantity_part (Py.lookup "amount" d))
                                   (quantity_part (Py.lookup "unit" d))))
                    [YStr item])
    end.
    2:{ unfold quantity_part.
        destruct (Py.lookup "amount" d), (Py.lookup "unit" d);
          cbn [Py.str Py.repr];
          repeat match goal with
                 | |- context [nonempty ?s] => destruct (nonempty s) eqn:?
                 end; try reflexivity; try discriminate. }
    rewrite join_tail. cbn [rbind]. unfold Py.has_key.
    destruct (Py.lookup "amount_alt" d), (Py.lookup "unit_alt" d);
      cbn [rbind];
      (destruct (Py.lookup "brand" d) as [b|]; [destruct (Py.truthy b)|]);
      cbn [rbind Py.truthy]; rewrite Ht; cbn [rbind];
      destruct r; try discriminate Hs; reflexivity.
  - intros d item -> Hitem Href.
    exists (ingredient_line Py.truthy d item).
    now apply format_ingredient_returns.
Qed.

(** ** Discovery *)

Lemma insert_sorted_perm (f : recipe_file) (fs : list recipe_file) :
  Permutation (insert_sorted f fs) (f :: fs).
Proof.
  induction fs as [|g rest IH]; cbn; [reflexivity|].
  destruct (path_leb (rel_path f) (rel_path g)); [reflexivity|].
  rewrite IH. apply perm_swap.
Qed.

Lemma sorted_perm (fs : list recipe_file) : Permutation (sorted fs) fs.
Proof.
  induction fs as [|f rest IH]; cbn; [reflexivity|].
  rewrite insert_sorted_perm. now constructor.
Qed.

Lemma filter_perm {A} (keep : A -> bool) (l1 l2 : list A) :
  Permutation l1 l2 -> Permutation (filter keep l1) (filter keep l2).
Proof.
  induction 1 as [|a l1 l2 _ IH|a b l|l1 l2 l3 _ IH1 _ IH2]; cbn.
  - reflexivity.
  - destruct (keep a); [now constructor | exact IH].
  - destruct (keep a), (keep b); try reflexivity. apply perm_swap.
  - now rewrite IH1.
Qed.

Lemma excluded_iff (p : path) :
  excluded p = true <-> exists part, In part p /\ In part EXCLUDE_DIRS.
Proof.
  unfold excluded. rewrite existsb_exists. split.
  - intros (part & Hin & H). exists part. split; [exact Hin|].
    apply existsb_exists in H. destruct H as (x & Hx & Heq).
    apply String.eqb_eq in Heq. now subst.
  - intros (part & Hin & H). exists part. split; [exact Hin|].
    apply existsb_exists. exists part. split; [exact H|].
    apply String.eqb_refl.
Qed.

(** X2: [find_recipe_files] keeps every file of the tree that has no component
    among [EXCLUDE_DIRS], once each, and no other: it is a rearrangement of
    the files that are not excluded. *)
Theorem find_recipe_files_keeps : forall (tree : list recipe_file),
  Permutation (find_recipe_files tree)
              (filter (fun f => negb (excluded (rel_path f))) tree) /\
  (forall f, In f (find_recipe_files tree) <->
             In f tree /\
             ~ exists part, In part (rel_path f) /\ In part EXCLUDE_DIRS).
Proof.
  intros tree.
  assert (Hp : Permutation (find_recipe_files tree)
                 (filter (fun f => negb (excluded (rel_path f))) tree)).
  { unfold find_recipe_files. apply filter_perm, sorted_perm. }
  split; [exact Hp|].
  intros f. split.
  - intros H. apply (Permutation_in _ Hp) in H. apply filter_In in H.
    destruct H as [H1 H2]. split; [exact H1|].
    intros Hex. apply excluded_iff in Hex. rewrite Hex in H2. discriminate.
  - intros [H1 H2]. apply (Permutation_in _ (Permutation_sym Hp)).
    apply filter_In. split; [exact H1|].
    destruct (excluded (rel_path f)) eqn:E; [|reflexivity].
    exfalso. apply H2. now apply excluded_iff.
Qed.

(** *** Order of the discovered files *)

Lemma compare_lt_trans (a b c : string) :
  String.compare a b = Lt -> String.compare b c = Lt ->
  String.compare a c = Lt.
Proof.
  intros H1 H2.
  apply OrderedTypeEx.String_as_OT.cmp_lt in H1.
  apply OrderedTypeEx.String_as_OT.cmp_lt in H2.
  apply OrderedTypeEx.String_as_OT.cmp_lt.
  eapply OrderedTypeEx.String_as_OT.lt_trans; eassumption.
Qed.

Lemma path_leb_total (p q : path) : path_leb p q = true \/ path_leb q p = true.
Proof.
  revert q. induction p as [|a p IH]; intros q; [now left|].
  destruct q as [|b q]; [now right|]. cbn.
  rewrite (String.compare_antisym b a).
  destruct (String.compare a b); cbn; auto.
Qed.

Lemma path_leb_trans (p q r : path) :
  path_leb p q = true -> path_leb q r = true -> path_leb p r = true.
Proof.
  revert q r. induction p as [|a p IH]; intros q r H1 H2; [reflexivity|].
  destruct q as [|b q]; [discriminate|].
  destruct r as [|c r]; [discriminate|]. cbn in *.
  destruct (String.compare a b) eqn:Eab; try discriminate.
  - apply String.compare_eq_iff in Eab. subst b.
    destruct (String.compare a c); try discriminate; auto.
    eapply IH; eassumption.
  - destruct (String.compare b c) eqn:Ebc; try discriminate.
    + apply String.compare_eq_iff in Ebc. subst c. now rewrite Eab.
    + now rewrite (compare_lt_trans _ _ _ Eab Ebc).
Qed.

Lemma insert_sorted_sorted (f : recipe_file) (fs : list recipe_file) :
  StronglySorted path_before fs ->
  StronglySorted path_before (insert_sorted f fs).
Proof.
  induction 1 as [|g rest Hs IH Hall]; cbn.
  - constructor; constructor.
  - destruct (path_leb (rel_path f) (rel_path g)) eqn:E.
    + constructor; [now constructor|]. constructor; [exact E|].
      eapply Forall_impl; [|exact Hall]. intros h Hh.
      unfold path_before in *. eapply path_leb_trans; eassumption.
    + constructor; [exact IH|].
      assert (Hgf : path_before g f).
      { destruct (path_leb_total (rel_path f) (rel_path g)) as [H|H];
          [congruence | exact H]. }
      rewrite Forall_forall. intros h Hh.
      apply (Permutation_in _ (insert_sorted_perm f rest)) in Hh.
      destruct Hh as [<- | Hh]; [exact Hgf|].
      rewrite Forall_forall in Hall. now apply Hall.
Qed.

Lemma filter_sorted {A} (R : A -> A -> Prop) (keep : A -> bool) (l : list A) :
  StronglySorted R l -> StronglySorted R (filter keep l).
Proof.
  induction 1 as [|a l Hs IH Hall]; cbn; [constructor|].
  destruct (keep a); [|exact IH]. constructor; [exact IH|].
  rewrite Forall_forall in *. intros x Hx. apply filter_In in Hx.
  now apply Hall.
Qed.

(** X3: The discovered files are in the order of their paths (component by
    component, a path before its extensions): whenever one file comes before
    another in the list, its path is not after the other's. *)
Theorem find_recipe_files_sorted : forall (tree : list recipe_file),
  StronglySorted
    (fun f g => path_leb (rel_path f) (rel_path g) = true)
    (find_recipe_files tree).
Proof.
  intros tree. unfold find_recipe_files. apply filter_sorted.
  unfold sorted. induction tree as [|f rest IH]; cbn; [constructor|].
  now apply insert_sorted_sorted.
Qed.

(** ** Output paths and reports *)

Lemma append_same_nil (b s : string) : s = b ++ s -> b = EmptyString.
Proof.
  intros H. apply (f_equal String.length) in H.
  rewrite length_append in H. destruct b; [reflexivity | cbn in H; lia].
Qed.

Lemma append_inj_r (a b s : string) : a ++ s = b ++ s -> a = b.
Proof.
  revert b. induction a as [|c a IH]; intros b H.
  - cbn in H. symmetry. now apply (append_same_nil b s).
  - destruct b as [|c' b].
    + cbn in H. symmetry in H.
      apply (append_same_nil (String c a) s) in H. discriminate.
    + cbn in H. injection H as -> H. f_equal. now apply IH.
Qed.

(** the output path as a function of the relative path *)
Lemma output_path_of_yaml (dirs : path) (stem : string) :
  with_suffix ".pdf" (app dirs [stem ++ ".yaml"])
  = app dirs [pdf_stem stem ++ ".pdf"].
Proof.
  rewrite with_suffix_last. destruct stem as [|c stem]; [reflexivity|].
  now rewrite name_stem_yaml.
Qed.

Lemma with_suffix_injective (p q : path) :
  yaml_path p -> yaml_path q ->
  with_suffix ".pdf" p = with_suffix ".pdf" q ->
  p = q \/ dotfile_clash p q \/ dotfile_clash q p.
Proof.
  intros (d1 & s1 & ->) (d2 & s2 & ->) H.
  rewrite !output_path_of_yaml in H.
  apply app_inj_tail in H. destruct H as [-> H].
  apply append_inj_r in H.
  destruct s1 as [|c1 s1], s2 as [|c2 s2]; cbn [pdf_stem] in H.
  - now left.
  - right. left. exists d2. rewrite <- H. split; reflexivity.
  - right. right. exists d2. rewrite H. split; reflexivity.
  - left. now rewrite H.
Qed.

Lemma nodup_map_filter {A B} (g : A -> B) (keep : A -> bool) (l : list A) :
  NoDup (map g l) -> NoDup (map g (filter keep l)).
Proof.
  induction l as [|a l IH]; cbn; [auto|].
  intros H. inversion H as [|? ? Hn Hd]; subst.
  destruct (keep a); cbn; [|now apply IH].
  constructor; [|now apply IH].
  intros Hin. apply Hn. apply in_map_iff in Hin.
  destruct Hin as (x & Hx & Hf). apply filter_In in Hf.
  apply in_map_iff. exists x. tauto.
Qed.

Section Reports.

Variable line_count : font -> Q -> string -> nat.
Variable resolved_font : string.

Lemma written_paths_in (files : list recipe_file) (p : path) :
  In p (map fst (flat_map (documents_of line_count resolved_font) files)) ->
  In p (map output_path files).
Proof.
  induction files as [|f rest IH]; cbn [flat_map map]; [auto|].
  rewrite map_app, in_app_iff. intros [H | H].
  - left. unfold documents_of in H.
    destruct (attempt_file line_count resolved_font f) as [[|doc]|e];
      cbn in H; try contradiction. destruct H as [H | []]. exact H.
  - right. now apply IH.
Qed.

Lemma written_paths_nodup (files : list recipe_file) :
  NoDup (map output_path files) ->
  NoDup (map fst (flat_map (documents_of line_count resolved_font) files)).
Proof.
  induction files as [|f rest IH]; cbn [flat_map map]; [constructor|].
  intros H. inversion H as [|? ? Hn Hd]; subst.
  rewrite map_app. unfold documents_of at 1.
  destruct (attempt_file line_count resolved_font f) as [[|doc]|e];
    cbn [map app fst]; try now apply IH.
  constructor; [|now apply IH].
  intros Hin. apply Hn. now apply written_paths_in.
Qed.

(** X4: Two [*.yaml] files with distinct paths have the same output path
    only when they are [.yaml] and [.yaml.yaml] in one directory, and those
    two do: [.yaml] has no suffix to replace.  So when the files of the tree
    have distinct paths and no directory holds both of these names, the
    paths [main] writes to are distinct: no document replaces another. *)
Theorem main_writes_distinct_paths :
  (forall f g : recipe_file,
     yaml_path (rel_path f) -> yaml_path (rel_path g) ->
     output_path f = output_path g ->
     rel_path f = rel_path g \/
     dotfile_clash (rel_path f) (rel_path g) \/
     dotfile_clash (rel_path g) (rel_path f)) /\
  (forall f g : recipe_file,
     dotfile_clash (rel_path f) (rel_path g) ->
     output_path f = output_path g) /\
  (forall tree : list recipe_file,
     (forall f, In f tree -> yaml_path (rel_path f)) ->
     NoDup (map rel_path tree) ->
     (forall f g, In f tree -> In g tree ->
                  ~ dotfile_clash (rel_path f) (rel_path g)) ->
     NoDup (map fst (written (snd (main line_count resolved_font tree))))).
Proof.
  split; [|split].
  - intros f g Hf Hg H. unfold output_path in H. injection H as H.
    now apply with_suffix_injective.
  - intros f g (dirs & Hf & Hg). unfold output_path. rewrite Hf, Hg.
    change ".yaml.yaml" with (".yaml" ++ ".yaml").
    change [".yaml"] with [EmptyString ++ ".yaml"].
    now rewrite !output_path_of_yaml.
  - intros tree Hyaml Hnd Hclash.
    destruct (main_summary line_count resolved_font tree)
      as (done & rest & Hsplit & _ & _ & Hw & _).
    cbn zeta in Hw. rewrite Hw. apply written_paths_nodup.
    set (files := find_recipe_files tree) in *.
    assert (Hp : Permutation files
                   (filter (fun f => negb (excluded (rel_path f))) tree)).
    { unfold files, find_recipe_files. apply filter_perm, sorted_perm. }
    assert (Hin : forall f, In f files -> In f tree).
    { intros f Hf. apply (Permutation_in _ Hp) in Hf.
      apply filter_In in Hf. tauto. }
    assert (Hrel : NoDup (map rel_path files)).
    { eapply Permutation_NoDup;
        [apply Permutation_sym, Permutation_map, Hp|].
      now apply nodup_map_filter. }
    assert (Hout : NoDup (map output_path files)).
    { replace (map output_path files)
        with (map (fun p => "PDF" :: with_suffix ".pdf" p)
                  (map rel_path files))
        by (rewrite map_map; reflexivity).
      apply NoDup_map_NoDup_ForallPairs; [|exact Hrel].
      intros p q Hp1 Hq1 Heq. injection Heq as Heq.
      apply in_map_iff in Hp1. destruct Hp1 as (f & <- & Hf).
      apply in_map_iff in Hq1. destruct Hq1 as (g & <- & Hg).
      destruct (with_suffix_injective (rel_path f) (rel_path g))
        as [H | [H | H]]; auto.
      - exfalso. apply (Hclash f g); auto.
      - exfalso. apply (Hclash g f); auto. }
    rewrite Hsplit, map_app in Hout. now apply NoDup_app_remove_r in Hout.
Qed.

Lemma process_file_console (b : batch) (f : recipe_file) :
  console (process_file line_count resolved_font b f)
  = app (console b) [report_of line_count resolved_font f].
Proof.
  unfold process_file, report_of.
  destruct (attempt_file line_count resolved_font f) as [[|doc]|e];
    reflexivity.
Qed.

Lemma process_file_tally (b : batch) (f : recipe_file) :
  let r := report_of line_count resolved_font f in
  success_count (process_file line_count resolved_font b f)
  = (success_count b + if is_report_ok r then 1 else 0)%nat /\
  error_count (process_file line_count resolved_font b f)
  = (error_count b + if is_report_ok r then 0 else 1)%nat.
Proof.
  unfold process_file, report_of.
  destruct (attempt_file line_count resolved_font f) as [[|doc]|e];
    cbn; lia.
Qed.

Lemma fold_process_file_console (files : list recipe_file) (b : batch) :
  let b' := fold_left (process_file line_count resolved_font) files b in
  let rs := map (report_of line_count resolved_font) files in
  console b' = app (console b) rs /\
  success_count b'
  = (success_count b + List.length (filter is_report_ok rs))%nat /\
  error_count b'
  = (error_count b
     + List.length (filter (fun r => negb (is_report_ok r)) rs))%nat.
Proof.
  revert b. induction files as [|f rest IH]; intros b;
    cbn [fold_left map filter].
  - cbn. rewrite app_nil_r. repeat split; lia.
  - destruct (IH (process_file line_count resolved_font b f))
      as (H1 & H2 & H3).
    destruct (process_file_tally b f) as (T1 & T2).
    cbn zeta in *. rewrite process_file_console in H1.
    rewrite <- app_assoc in H1. rewrite H2, H3, T1, T2.
    split; [exact H1|].
    destruct (is_report_ok (report_of line_count resolved_font f));
      cbn [negb List.length]; lia.
Qed.

Lemma report_of_path (f : recipe_file) :
  report_path (report_of line_count resolved_font f) = rel_path f.
Proof.
  unfold report_of.
  destruct (attempt_file line_count resolved_font f) as [[|doc]|e];
    reflexivity.
Qed.

(** X5: [main] prints one line per file it processes, in the order of
    processing and about that file: the lines are about the first
    discovered files, and about all of them when [main] returns (an
    exception of [mkdir] ends the run before the others); the [OK] lines
    are as many as [success_count] and the [SKIP] and [ERROR] lines as many
    as [error_count]. *)
Theorem main_console : forall (tree : list recipe_file),
  let b := snd (main line_count resolved_font tree) in
  (forall status,
     fst (main line_count resolved_font tree) = Ok status ->
     map report_path (console b) = map rel_path (find_recipe_files tree)) /\
  map report_path (console b)
  = firstn (List.length (console b))
           (map rel_path (find_recipe_files tree)) /\
  List.length (filter is_report_ok (console b)) = success_count b /\
  List.length (filter (fun r => negb (is_report_ok r)) (console b))
  = error_count b.
Proof.
  intros tree b.
  destruct (main_summary line_count resolved_font tree)
    as (done & rest & Hsplit & _ & Hb & _ & _ & _ & Hr).
  fold b in Hb, Hr.
  destruct (fold_process_file_console done empty_batch) as (H1 & H2 & H3).
  cbn zeta in H1, H2, H3. rewrite <- Hb in H1, H2, H3.
  cbn [console success_count error_count empty_batch app Nat.add]
    in H1, H2, H3.
  assert (Hpaths : map report_path (console b) = map rel_path done).
  { rewrite H1, map_map. apply map_ext. apply report_of_path. }
  split; [|split; [|split]].
  - intros status Hs. destruct rest as [|f rest].
    + rewrite Hsplit, app_nil_r. exact Hpaths.
    + destruct Hr as (e & _ & Hr). congruence.
  - rewrite Hpaths, Hsplit, map_app, H1, !length_map.
    rewrite <- (length_map rel_path done) at 1.
    rewrite firstn_app, firstn_all, Nat.sub_diag, firstn_O.
    now rewrite app_nil_r.
  - now rewrite H1, H2.
  - now rewrite H1, H3.
Qed.

(** X17: an exception of [mkdir], which [main] calls before the [try],
    is not caught: [main] raises it and the process ends with status 1.
    The files before it have had their turn, with their documents, lines
    and counts; the file itself and the files after it have none and are
    not counted. *)
Theorem main_mkdir_aborts :
  forall (tree done rest : list recipe_file) (f : recipe_file) (e : exn),
  find_recipe_files tree = app done (f :: rest) ->
  Forall (fun g => dir_made g = Ok tt) done ->
  dir_made f = Raise e ->
  let returned := fst (main line_count resolved_font tree) in
  let b := snd (main line_count resolved_font tree) in
  returned = Raise e /\ exit_status returned = 1%Z /\
  written b = flat_map (documents_of line_count resolved_font) done /\
  console b = map (report_of line_count resolved_font) done /\
  (success_count b + error_count b = List.length done)%nat.
Proof.
  intros tree done rest f e Hfiles Hd Hf returned b.
  subst returned b. unfold main. rewrite Hfiles.
  rewrite (run_files_stops line_count resolved_font done rest f e
             empty_batch Hd Hf).
  destruct (fold_process_file line_count resolved_font done empty_batch)
    as (H1 & _ & H3).
  destruct (fold_process_file_console done empty_batch) as (C1 & _).
  cbn zeta in H1, H3, C1.
  cbn [written console success_count error_count empty_batch app Nat.add]
    in H1, H3, C1.
  destruct (app done (f :: rest)) eqn:E;
    [destruct done; discriminate E|].
  cbn [fst snd rbind exit_status]. repeat split; assumption.
Qed.

End Reports.

(** ** Font resolution *)

Lemma existsb_eqb_in (d : string) (l : list string) :
  existsb (String.eqb d) l = true <-> In d l.
Proof.
  rewrite existsb_exists. split.
  - intros (x & Hx & Heq). apply String.eqb_eq in Heq. now subst.
  - intros H. exists d. split; [exact H | apply String.eqb_refl].
Qed.

Lemma probe_font_in (env : font_env) (dirs : list string) (name d : string) :
  In d (probe_font env dirs name) <->
  In d dirs \/ fc_match env name = Some d.
Proof.
  unfold probe_font. destruct (fc_match env name) as [fd|].
  - destruct (existsb (String.eqb fd) dirs) eqn:E.
    + apply existsb_eqb_in in E. split; [tauto|].
      intros [H | H]; [exact H|]. injection H as <-. exact E.
    + cbn. split.
      * intros [-> | H]; auto.
      * intros [H | H]; [now right|]. injection H as ->. now left.
  - split; [tauto|]. intros [H|H]; [exact H | discriminate].
Qed.

Lemma font_dirs_to_try_in (env : font_env) (d : string) :
  In d (font_dirs_to_try env) <->
  In d (static_font_dirs env) \/
  fc_match env "DejaVuSans.ttf" = Some d \/
  fc_match env "DejaVuSans-Bold.ttf" = Some d.
Proof.
  unfold font_dirs_to_try. cbn [fold_left].
  rewrite !probe_font_in. tauto.
Qed.

(** X6: the choice of [_setup_fonts]: it settles on "DejaVu" exactly when
    one of the directories it tries (the four fixed ones and those
    [fc-match] found) holds both font files, registering the regular and the
    bold font from one such directory; otherwise it falls back to
    "Helvetica" and registers nothing. *)
Theorem setup_fonts_fallback : forall (env : font_env),
  let tried d := In d (static_font_dirs env) \/
                 fc_match env "DejaVuSans.ttf" = Some d \/
                 fc_match env "DejaVuSans-Bold.ttf" = Some d in
  ((exists d, tried d /\ has_both_fonts env d = true) ->
   exists d, tried d /\ has_both_fonts env d = true /\
     _setup_fonts env
     = ("DejaVu",
        [mkAddFont "DejaVu" EmptyString d "DejaVuSans.ttf";
         mkAddFont "DejaVu" "B" d "DejaVuSans-Bold.ttf"])) /\
  ((forall d, tried d -> has_both_fonts env d = false) ->
   _setup_fonts env = ("Helvetica", [])).
Proof.
  intros env tried. unfold _setup_fonts. split.
  - intros (d & Hd & Hb).
    destruct (find (has_both_fonts env) (font_dirs_to_try env)) as [d'|] eqn:E.
    + apply find_some in E. destruct E as [Hin Hb'].
      exists d'. split; [now apply font_dirs_to_try_in|].
      split; [exact Hb' | reflexivity].
    + exfalso. apply font_dirs_to_try_in in Hd.
      rewrite (find_none _ _ E d Hd) in Hb. discriminate.
  - intros Hnone.
    destruct (find (has_both_fonts env) (font_dirs_to_try env)) as [d'|] eqn:E;
      [|reflexivity].
    apply find_some in E. destruct E as [Hin Hb'].
    apply font_dirs_to_try_in in Hin. rewrite (Hnone d' Hin) in Hb'.
    discriminate.
Qed.

Lemma find_app_l {A} (keep : A -> bool) (l1 l2 : list A) (a : A) :
  In a l1 -> keep a = true ->
  exists b, In b l1 /\ find keep (app l1 l2) = Some b.
Proof.
  induction l1 as [|x l1 IH]; cbn; [contradiction|].
  intros [-> | Hin] Hk.
  - rewrite Hk. exists a. auto.
  - destruct (keep x) eqn:E; [exists x; auto|].
    destruct (IH Hin Hk) as (b & Hb & Hf). exists b. auto.
Qed.

(** the directories tried: those newly found by [fc-match], then the fixed *)
Lemma font_dirs_to_try_split (env : font_env) :
  exists found,
    font_dirs_to_try env = app found (static_font_dirs env) /\
    forall d, In d found <-> found_by_fc_match env d.
Proof.
  unfold font_dirs_to_try, found_by_fc_match. cbn [fold_left].
  set (fixed := static_font_dirs env).
  unfold probe_font at 2.
  destruct (fc_match env "DejaVuSans.ttf") as [r|] eqn:Er.
  - destruct (existsb (String.eqb r) fixed) eqn:Xr.
    + apply existsb_eqb_in in Xr. unfold probe_font.
      destruct (fc_match env "DejaVuSans-Bold.ttf") as [b|] eqn:Eb.
      * destruct (existsb (String.eqb b) fixed) eqn:Xb.
        -- apply existsb_eqb_in in Xb. exists []. split; [reflexivity|].
           intros d. split; [contradiction|].
           intros [[H|H] Hn]; injection H as <-; contradiction.
        -- exists [b]. split; [reflexivity|].
           assert (Hb : ~ In b fixed).
           { intros H. apply existsb_eqb_in in H. congruence. }
           intros d. cbn. split.
           ++ intros [<- | []]. split; [now right | exact Hb].
           ++ intros [[H|H] Hn]; injection H as <-; [contradiction | now left].
      * exists []. split; [reflexivity|].
        intros d. split; [contradiction|].
        intros [[H|H] Hn]; [injection H as <-; contradiction | discriminate].
    + assert (Hr : ~ In r fixed).
      { intros H. apply existsb_eqb_in in H. congruence. }
      unfold probe_font.
      destruct (fc_match env "DejaVuSans-Bold.ttf") as [b|] eqn:Eb.
      * destruct (existsb (String.eqb b) (r :: fixed)) eqn:Xb.
        -- apply existsb_eqb_in in Xb. exists [r]. split; [reflexivity|].
           intros d. cbn. split.
           ++ intros [<- | []]. split; [now left | exact Hr].
           ++ intros [[H|H] Hn]; injection H as <-; [now left|].
              destruct Xb as [<- | Xb]; [now left | contradiction].
        -- assert (Hb : ~ In b (r :: fixed)).
           { intros H. apply existsb_eqb_in in H. congruence. }
           exists [b; r]. split; [reflexivity|].
           intros d. cbn. split.
           ++ intros [<- | [<- | []]].
              ** split; [now right|]. intros H. apply Hb. now right.
              ** split; [now left | exact Hr].
           ++ intros [[H|H] Hn]; injection H as <-; auto.
      * exists [r]. split; [reflexivity|].
        intros d. cbn. split.
        -- intros [<- | []]. split; [now left | exact Hr].
        -- intros [[H|H] Hn]; [injection H as <-; now left | discriminate].
  - unfold probe_font.
    destruct (fc_match env "DejaVuSans-Bold.ttf") as [b|] eqn:Eb.
    + destruct (existsb (String.eqb b) fixed) eqn:Xb.
      * apply existsb_eqb_in in Xb. exists []. split; [reflexivity|].
        intros d. split; [contradiction|].
        intros [[H|H] Hn]; [discriminate | injection H as <-; contradiction].
      * assert (Hb : ~ In b fixed).
        { intros H. apply existsb_eqb_in in H. congruence. }
        exists [b]. split; [reflexivity|].
        intros d. cbn. split.
        -- intros [<- | []]. split; [now right | exact Hb].
        -- intros [[H|H] Hn]; [discriminate | injection H as <-; now left].
    + exists []. split; [reflexivity|].
      intros d. split; [contradiction|].
      intros [[H|H] Hn]; discriminate.
Qed.

(** X7: A directory found by [fc-match] is preferred to the fixed ones, the
    bundled [fonts] directory included: when some directory that [fc-match]
    found (and that is not a fixed one) holds both files, the fonts are
    registered from such a directory, whatever the fixed directories hold. *)
Theorem setup_fonts_prefers_fc_match : forall (env : font_env) (d : string),
  found_by_fc_match env d ->
  has_both_fonts env d = true ->
  exists d',
    found_by_fc_match env d' /\ has_both_fonts env d' = true /\
    _setup_fonts env
    = ("DejaVu",
       [mkAddFont "DejaVu" EmptyString d' "DejaVuSans.ttf";
        mkAddFont "DejaVu" "B" d' "DejaVuSans-Bold.ttf"]).
Proof.
  intros env d Hd Hb.
  destruct (font_dirs_to_try_split env) as (found & Hsplit & Hfound).
  apply Hfound in Hd.
  destruct (find_app_l (has_both_fonts env) found (static_font_dirs env) d
                       Hd Hb)
    as (d' & Hin & Hfind).
  exists d'. split; [now apply Hfound|].
  unfold _setup_fonts. rewrite Hsplit, Hfind.
  split; [|reflexivity].
  rewrite <- Hsplit in Hfind. apply find_some in Hfind. tauto.
Qed.

(** ** Bulleted lists *)

Section Bullets.

Variable line_count : font -> Q -> string -> nat.

Lemma bullet_line_drawn (text : yaml) (indent : Q) (st : pdf) :
  in_footer st = false ->
  let run := _bullet_line line_count text indent st in
  snd run = Ok tt /\ in_footer (fst run) = false /\
  body_texts (ops (fst run))
  = app (body_texts (ops st)) [bullet (Py.str text)].
Proof.
  intros Hf run.
  set (st1 := Fpdf.set_x (22 + indent)
                (Fpdf.set_text_color TEXT_COLOR
                   (Fpdf.set_font (font_name st) EmptyString 10 st))).
  set (txt := "•  " ++ Py.str text).
  assert (Hrun : run = (Fpdf.ln 1 (Fpdf.multi_cell line_count (166 - indent)
                                     5 txt st1), Ok tt)) by reflexivity.
  assert (Hs : in_footer st1 = false) by exact Hf.
  destruct (multi_cell_drawn line_count (166 - indent) 5 txt st1 Hs)
    as (H1 & H2 & H3 & H4 & H5).
  rewrite Hrun. cbn [fst snd Fpdf.ln in_footer ops Fpdf.with_cursor].
  repeat split; auto.
Qed.

(** a loop that computes a value per item and draws it as a bullet *)
Lemma for_each_bullets {A B} (f : A -> result B) (g : B -> yaml)
    (items : list A) (indent : Q) (st : pdf) :
  in_footer st = false ->
  let run := for_each items (fun a =>
               bind (pure (f a))
                    (fun x => _bullet_line line_count (g x) indent))
             st in
  snd run = first_raise (map f items) /\
  in_footer (fst run) = false /\
  body_texts (ops (fst run))
  = app (body_texts (ops st))
        (map (fun x => bullet (Py.str (g x))) (ok_prefix (map f items))).
Proof.
  revert st. induction items as [|a rest IH]; intros st Hf;
    cbn [for_each map ok_prefix first_raise].
  - cbn. repeat split; auto. now rewrite app_nil_r.
  - rewrite bind_run. rewrite (bind_run (pure (f a))). cbn [pure fst snd].
    destruct (f a) as [x|e]; cbn [fst snd ok_prefix first_raise map].
    + destruct (bullet_line_drawn (g x) indent st Hf) as (H1 & H2 & H3).
      rewrite H1.
      destruct (IH (fst (_bullet_line line_count (g x) indent st)) H2)
        as (G1 & G2 & G3).
      cbn zeta in G1, G2, G3. repeat split; auto.
      rewrite G3, H3, <- app_assoc. reflexivity.
    + repeat split; auto. now rewrite app_nil_r.
Qed.

(** X8: [render_ingredients], on an open page with the DejaVu font: one
    bullet per ingredient, in the order of the list, each the line of
    [format_ingredient]; at the first ingredient whose line raises, the
    rendering raises that exception, with the bullets of the ingredients
    before it drawn and nothing after.  A value that cannot be iterated
    raises at once and draws nothing. *)
Theorem render_ingredients_bullets :
  forall (ingredients : yaml) (indent : Q) (st : pdf),
  drawing st ->
  let run := render_ingredients line_count ingredients indent st in
  (forall e, Py.iter ingredients = Raise e -> run = (st, Raise e)) /\
  (forall items, Py.iter ingredients = Ok items ->
     let lines := map format_ingredient items in
     snd run = first_raise lines /\
     body_texts (ops (fst run))
     = app (body_texts (ops st)) (map bullet (ok_prefix lines))).
Proof.
  intros ingredients indent st [Hf _] run. subst run.
  unfold render_ingredients. split.
  - intros e ->. reflexivity.
  - intros items ->. rewrite bind_pure_ok.
    destruct (for_each_bullets format_ingredient YStr items indent st Hf)
      as (H1 & _ & H3).
    cbn zeta in *. split; [exact H1|]. rewrite H3. reflexivity.
Qed.

(** X9: [render_recipe] on [notes], on an open page with the DejaVu font: a
    bullet per item with the text of the item, and no exception once the
    value can be iterated; in particular a [notes] field that is a single
    text, not a list, is drawn one character per bullet. *)
Theorem render_notes_bullets : forall (notes : yaml) (st : pdf),
  drawing st ->
  let run := render_notes line_count notes st in
  (forall items, Py.iter notes = Ok items ->
     snd run = Ok tt /\
     body_texts (ops (fst run))
     = app (body_texts (ops st)) (map (fun n => bullet (Py.str n)) items)) /\
  (forall s, notes = YStr s ->
     body_texts (ops (fst run))
     = app (body_texts (ops st)) (map bullet (Str.chars s))).
Proof.
  intros notes st [Hf _] run.
  assert (Hitems : forall items, Py.iter notes = Ok items ->
     snd run = Ok tt /\
     body_texts (ops (fst run))
     = app (body_texts (ops st)) (map (fun n => bullet (Py.str n)) items)).
  { intros items Hi. subst run. unfold render_notes. rewrite Hi.
    rewrite bind_pure_ok.
    destruct (for_each_bullets (fun n : yaml => Ok n) (fun n => n)
                items 0 st Hf) as (H1 & _ & H3).
    cbn zeta in *.
    change (for_each items (fun note => _bullet_line line_count note 0) st)
      with (for_each items (fun a => bind (pure (Ok a))
              (fun x => _bullet_line line_count x 0)) st).
    assert (Hok : forall l : list yaml,
              first_raise (map (fun n => Ok n) l) = Ok tt
              /\ ok_prefix (map (fun n => Ok n) l) = l).
    { induction l as [|x l [IH1 IH2]]; cbn; [auto|]. now rewrite IH2. }
    destruct (Hok items) as [Hr Hp]. rewrite Hr, Hp in *. auto. }
  split; [exact Hitems|].
  intros s ->. destruct (Hitems _ eq_refl) as [_ H].
  rewrite H, map_map. reflexivity.
Qed.

(** X10: [render_recipe] on [garnishes], on an open page with the DejaVu
    font: a bullet per garnish with the text of its [item]; a garnish that
    is not a mapping or has no [item] raises ([TypeError], [KeyError]) after
    the bullets of the garnishes before it. *)
Theorem render_garnishes_bullets : forall (items : list yaml) (st : pdf),
  drawing st ->
  let run := render_garnishes line_count (YList items) st in
  let looked := map (fun g => Py.getitem g "item") items in
  snd run = first_raise looked /\
  body_texts (ops (fst run))
  = app (body_texts (ops st))
        (map (fun item => bullet (Py.str item)) (ok_prefix looked)).
Proof.
  intros items st [Hf _] run looked. subst run looked.
  unfold render_garnishes. cbn [Py.iter]. rewrite bind_pure_ok.
  destruct (for_each_bullets (fun g => Py.getitem g "item") (fun x => x)
              items 0 st Hf) as (H1 & _ & H3).
  cbn zeta in *. split; [exact H1 | exact H3].
Qed.

End Bullets.

(** ** The texts of a document *)

Lemma contains_getitem_field (v : yaml) (key : string) (x : yaml) :
  Py.getitem v key = Ok x -> field v key = Some x.
Proof.
  destruct v; cbn; try discriminate.
  destruct (Py.lookup key entries); [|discriminate]. now intros [= ->].
Qed.

Lemma contains_false_field (v : yaml) (key : string) :
  Py.contains key v = Ok false -> field v key = None.
Proof.
  destruct v; cbn; try reflexivity. unfold Py.has_key.
  destruct (Py.lookup key entries); [discriminate | reflexivity].
Qed.

Lemma ok_prefix_rbind {A B C} (f : A -> result B) (h : B -> C) (l : list A) :
  ok_prefix (map (fun a => rbind (f a) (fun x => Ok (h x))) l)
  = map h (ok_prefix (map f l)).
Proof.
  induction l as [|a l IH]; cbn; [reflexivity|].
  destruct (f a); cbn; [now rewrite IH | reflexivity].
Qed.

Lemma ok_prefix_all {A B} (h : A -> B) (l : list A) :
  ok_prefix (map (fun a => Ok (h a)) l) = map h l.
Proof. induction l as [|a l IH]; cbn; [reflexivity | now rewrite IH]. Qed.

Lemma labelled_fields (data : yaml) (key label : string)
    (parts parts' : list string) :
  labelled data key label parts = Ok parts' ->
  parts' = app parts (labelled_field data key label).
Proof.
  unfold labelled, labelled_field.
  destruct (Py.contains key data) as [[|]|e] eqn:Ec; cbn [rbind];
    try discriminate.
  - destruct (Py.getitem data key) as [v|e] eqn:Eg; cbn [rbind];
      [|discriminate].
    intros [= <-]. now rewrite (contains_getitem_field _ _ _ Eg).
  - intros [= <-]. rewrite (contains_false_field _ _ Ec).
    now rewrite app_nil_r.
Qed.

Lemma labelled_time_fields (data : yaml) (key label : string)
    (parts parts' : list string) :
  labelled_time data key label parts = Ok parts' ->
  parts' = app parts (duration_field data key label).
Proof.
  unfold labelled_time, duration_field.
  destruct (Py.contains key data) as [[|]|e] eqn:Ec; cbn [rbind];
    try discriminate.
  - destruct (Py.getitem data key) as [v|e] eqn:Eg; cbn [rbind];
      [|discriminate].
    destruct (format_time v) as [t|e] eqn:Et; cbn [rbind]; [|discriminate].
    intros [= <-]. rewrite (contains_getitem_field _ _ _ Eg).
    unfold duration. now rewrite Et.
  - intros [= <-]. rewrite (contains_false_field _ _ Ec).
    now rewrite app_nil_r.
Qed.

Lemma yield_text_of (data : yaml) (y : string) :
  yield_text data = Ok y -> yield_of data = Some y.
Proof.
  unfold yield_text, yield_of.
  destruct (Py.getitem data "yield") as [yv|e] eqn:Ey; cbn [rbind];
    [|discriminate].
  rewrite (contains_getitem_field _ _ _ Ey).
  destruct (Py.contains "yield_unit" data) as [[|]|e] eqn:Ec; cbn [rbind];
    try discriminate.
  - destruct (Py.getitem data "yield_unit") as [u|e] eqn:Eu; cbn [rbind];
      [|discriminate].
    intros [= <-]. now rewrite (contains_getitem_field _ _ _ Eu).
  - intros [= <-]. rewrite (contains_false_field _ _ Ec).
    now rewrite append_nil_r.
Qed.

Lemma meta_parts_fields (data : yaml) (parts : list string) :
  meta_parts data = Ok parts -> parts = meta_fields data.
Proof.
  unfold meta_parts, meta_fields.
  destruct (labelled data "region" "Region: " []) as [p1|] eqn:E1;
    cbn [rbind]; [|discriminate].
  destruct (labelled data "ethnicity" "Ethnicity: " p1) as [p2|] eqn:E2;
    cbn [rbind]; [|discriminate].
  destruct (labelled data "restaurant" "Restaurant: " p2) as [p3|] eqn:E3;
    cbn [rbind]; [|discriminate].
  intros E4.
  apply labelled_fields in E1, E2, E3, E4. subst.
  cbn [app]. now rewrite <- !app_assoc.
Qed.

Lemma time_parts_fields (data : yaml) (parts : list string) :
  time_parts data = Ok parts -> parts = time_fields data.
Proof.
  unfold time_parts, time_fields.
  destruct (labelled_time data "prep_time" "Prep: " []) as [p1|] eqn:E1;
    cbn [rbind]; [|discriminate].
  destruct (labelled_time data "cook_time" "Cook: " p1) as [p2|] eqn:E2;
    cbn [rbind]; [|discriminate].
  apply labelled_time_fields in E1, E2. subst.
  destruct (Py.contains "yield" data) as [[|]|e] eqn:Ec; cbn [rbind];
    try discriminate.
  - destruct (yield_text data) as [y|e] eqn:Ey; cbn [rbind]; [|discriminate].
    rewrite (yield_text_of _ _ Ey). intros E4.
    apply labelled_fields in E4. subst.
    cbn [app]. now rewrite <- !app_assoc.
  - assert (Hy : yield_of data = None).
    { unfold yield_of. now rewrite (contains_false_field _ _ Ec). }
    rewrite Hy. intros E4. apply labelled_fields in E4. subst.
    cbn [app]. now rewrite <- !app_assoc.
Qed.

Section Content.

Variable line_count : font -> Q -> string -> nat.

(** *** Rules for [draws] *)

Lemma draws_bind {A B} (t1 t2 : list string) (m : M A) (f : A -> M B) :
  draws t1 m -> (forall a, draws t2 (f a)) -> draws (app t1 t2) (bind m f).
Proof.
  intros Hm Hf st Hst. rewrite bind_run.
  destruct (Hm st Hst) as [Hin Ht].
  destruct (snd (m st)) as [a|e]; cbn [fst snd].
  - destruct (Hf a (fst (m st)) Hin) as [Hin2 Ht2]. split; [exact Hin2|].
    intros b Hb. rewrite (Ht2 b Hb), (Ht a eq_refl), app_assoc. reflexivity.
  - split; [exact Hin|]. intros a H. discriminate.
Qed.

Lemma draws_seq {A B} (ts : list string) (m : M A) (f : A -> M B) :
  draws [] m -> (forall a, draws ts (f a)) -> draws ts (bind m f).
Proof. intros Hm Hf. exact (draws_bind [] ts m f Hm Hf). Qed.

Lemma draws_ret {A} (a : A) : draws [] (ret a).
Proof.
  intros st Hf. cbn. split; [exact Hf|]. intros. now rewrite app_nil_r.
Qed.

Lemma draws_pure {A} (r : result A) : draws [] (pure r).
Proof.
  intros st Hf. cbn. split; [exact Hf|]. intros. now rewrite app_nil_r.
Qed.

Lemma draws_pure_bind {A B} (ts : list string) (r : result A) (f : A -> M B) :
  (forall a, r = Ok a -> draws ts (f a)) -> draws ts (bind (pure r) f).
Proof.
  intros H st Hst. rewrite bind_run. cbn [pure fst snd].
  destruct r as [a|e].
  - exact (H a eq_refl st Hst).
  - cbn. split; [exact Hst|]. intros a Ha. discriminate.
Qed.

Lemma draws_gets_bind {A B} (ts : list string) (g : pdf -> A) (f : A -> M B) :
  (forall a, draws ts (f a)) -> draws ts (bind (gets g) f).
Proof. intros H st Hst. unfold bind, gets. exact (H (g st) st Hst). Qed.

Lemma draws_act (f : pdf -> pdf) :
  (forall st, in_footer st = false -> quiet st (f st)) -> draws [] (act f).
Proof.
  intros H st Hf. destruct (H st Hf) as (H1 & H2 & H3 & H4 & H5).
  unfold act. cbn [fst snd]. split; [exact H1|].
  intros _ _. now rewrite H5, app_nil_r.
Qed.

Lemma draws_use_font (sty : string) (sz : Z) : draws [] (use_font sty sz).
Proof.
  intros st Hf. unfold use_font, act. cbn [fst snd].
  split; [exact Hf|]. intros _ _. cbn. now rewrite app_nil_r.
Qed.

Lemma draws_cell_next (w h : Q) (txt : string) :
  draws [txt] (cell_next w h txt).
Proof.
  intros st Hf.
  destruct (cell_drawn w h txt X_LMARGIN Y_NEXT st Hf) as (H1 & _ & _ & _ & H5).
  unfold cell_next, act. cbn [fst snd]. split; [exact H1|].
  intros _ _. exact H5.
Qed.

Lemma draws_multi_cell (w h : Q) (txt : string) :
  draws [txt] (multi_cell line_count w h txt).
Proof.
  intros st Hf.
  destruct (multi_cell_drawn line_count w h txt st Hf) as (H1 & _ & _ & _ & H5).
  unfold multi_cell, act. cbn [fst snd]. split; [exact H1|].
  intros _ _. exact H5.
Qed.

Lemma draws_text_then {A} (txt : string) (ts : list string) (m : M unit)
    (k : M A) :
  draws [txt] m -> draws ts k -> draws (txt :: ts) (bind m (fun _ => k)).
Proof.
  intros Hm Hk. exact (draws_bind [txt] ts m (fun _ => k) Hm (fun _ => Hk)).
Qed.

Lemma draws_for_each {A} (t : A -> list string) (items : list A)
    (body : A -> M unit) :
  (forall a, draws (t a) (body a)) ->
  draws (flat_map t items) (for_each items body).
Proof.
  intros H. induction items as [|a rest IH]; cbn [for_each flat_map].
  - apply draws_ret.
  - apply draws_bind; [apply H | intros _; exact IH].
Qed.

Ltac quiet_step :=
  let st := fresh "st" in let Hf := fresh "Hf" in
  intros st Hf; unfold quiet, Fpdf.line, rule_here;
  cbn [in_footer cur_font font_name ops Fpdf.ln Fpdf.set_x Fpdf.set_y
       Fpdf.set_text_color Fpdf.set_draw_color Fpdf.set_line_width
       Fpdf.alias_nb_pages Fpdf.with_cursor Fpdf.emit];
  rewrite ?section_titles_app, ?body_texts_app;
  cbn [section_titles body_texts flat_map title_of text_of app];
  rewrite ?app_nil_r; repeat split; auto.

Ltac draws_head :=
  lazymatch goal with
  | |- draws _ (bind (pure _) _) => apply draws_pure_bind; intros ? ?
  | |- draws _ (bind (gets _) _) => apply draws_gets_bind; intros ?
  | |- draws _ (bind (use_font _ _) _) =>
      apply draws_seq; [apply draws_use_font | intros _]
  | |- draws _ (bind rule_here _) =>
      apply draws_seq; [apply draws_act; quiet_step | intros _]
  | |- draws _ (bind (act Fpdf.add_page) _) =>
      apply draws_seq; [apply draws_act; exact add_page_quiet | intros _]
  | |- draws _ (bind (act _) _) =>
      apply draws_seq; [apply draws_act; quiet_step | intros _]
  | |- draws [] (act _) => apply draws_act; quiet_step
  | |- draws [] (ret _) => apply draws_ret
  | |- draws [] (pure _) => apply draws_pure
  end.

Lemma bullet_line_draws (text : yaml) (indent : Q) :
  draws [bullet (Py.str text)] (_bullet_line line_count text indent).
Proof.
  unfold _bullet_line. do 3 draws_head.
  apply draws_text_then; [apply draws_multi_cell | draws_head].
Qed.

Lemma sub_label_draws (text : string) : draws [text] (sub_label text).
Proof.
  unfold sub_label. do 3 draws_head.
  apply draws_text_then; [apply draws_cell_next | draws_head].
Qed.

Lemma section_header_draws (title : string) :
  draws [title] (_section_header title).
Proof.
  unfold _section_header. draws_head.
  apply draws_seq.
  { destruct (Qlt_bool 250 a);
      [apply draws_act; exact add_page_quiet | apply draws_ret]. }
  intros _. do 3 draws_head.
  apply draws_text_then; [apply draws_cell_next|]. repeat draws_head.
Qed.

Lemma render_ingredients_draws (v : yaml) (indent : Q) :
  draws (ingredient_bullets v) (render_ingredients line_count v indent).
Proof.
  intros st Hf. unfold render_ingredients, ingredient_bullets, bullets_of.
  rewrite bind_run. cbn [pure fst snd].
  destruct (Py.iter v) as [items|e]; cbn [fst snd].
  - destruct (for_each_bullets line_count format_ingredient YStr items indent
                st Hf) as (_ & H2 & H3).
    cbn zeta in *. split; [exact H2|]. intros _ _. exact H3.
  - split; [exact Hf|]. intros a H. discriminate.
Qed.

Lemma render_substitutions_draws (v : yaml) (indent : Q) :
  draws (substitution_bullets v) (render_substitutions line_count v indent).
Proof.
  intros st Hf. unfold render_substitutions, substitution_bullets, bullets_of.
  rewrite bind_run. cbn [pure fst snd].
  destruct (Py.iter v) as [items|e]; cbn [fst snd].
  - destruct (for_each_bullets line_count format_substitution YStr items
                indent st Hf) as (_ & H2 & H3).
    cbn zeta in *. split; [exact H2|]. intros _ _. exact H3.
  - split; [exact Hf|]. intros a H. discriminate.
Qed.

Lemma render_garnishes_draws (v : yaml) :
  draws (garnish_bullets v) (render_garnishes line_count v).
Proof.
  intros st Hf. unfold render_garnishes, garnish_bullets, bullets_of.
  rewrite bind_run. cbn [pure fst snd].
  destruct (Py.iter v) as [items|e]; cbn [fst snd].
  - destruct (for_each_bullets line_count (fun g => Py.getitem g "item")
                (fun x => x) items 0 st Hf) as (_ & H2 & H3).
    cbn zeta in *. split; [exact H2|]. intros _ _.
    rewrite H3, ok_prefix_rbind, map_map. reflexivity.
  - split; [exact Hf|]. intros a H. discriminate.
Qed.

Lemma render_notes_draws (v : yaml) :
  draws (note_bullets v) (render_notes line_count v).
Proof.
  intros st Hf. unfold render_notes, note_bullets, bullets_of.
  rewrite bind_run. cbn [pure fst snd].
  destruct (Py.iter v) as [items|e]; cbn [fst snd].
  - destruct (for_each_bullets line_count (fun n : yaml => Ok n) (fun n => n)
                items 0 st Hf) as (_ & H2 & H3).
    cbn zeta in *.
    change (for_each items (fun note => _bullet_line line_count note 0) st)
      with (for_each items (fun a => bind (pure (Ok a))
              (fun x => _bullet_line line_count x 0)) st).
    split; [exact H2|]. intros _ _.
    rewrite H3, (ok_prefix_all (fun n : yaml => n)), map_id.
    now rewrite (ok_prefix_all Py.str), map_map.
  - split; [exact Hf|]. intros a H. discriminate.
Qed.

Lemma render_steps_draws (v : yaml) (indent : Q) :
  draws (step_texts v) (render_steps line_count v indent).
Proof.
  intros st Hf. unfold render_steps, step_texts.
  rewrite bind_run. cbn [pure fst snd].
  destruct (Py.iter v) as [items|e]; cbn [fst snd].
  - destruct (render_steps_from_drawn line_count items 1 indent st Hf)
      as (_ & H2 & H3).
    split; [exact H2|]. intros _ _. exact H3.
  - split; [exact Hf|]. intros a H. discriminate.
Qed.

(** [if key in data: label; body(data[key])], then the rest *)
Lemma draws_block {A} (data : yaml) (key label : string)
    (content : yaml -> list string) (head : M unit) (body : yaml -> M unit)
    (ts : list string) (k : M A) :
  draws [label] head -> (forall v, draws (content v) (body v)) ->
  draws ts k ->
  draws (app (block data key label content) ts)
    (bind (pure (Py.contains key data)) (fun present =>
     bind (if present : bool then
             bind head (fun _ =>
             bind (pure (Py.getitem data key)) (fun v => body v))
           else ret tt) (fun _ => k))).
Proof.
  intros Hhead Hbody Hk. unfold block.
  apply draws_pure_bind. intros present Hp.
  apply draws_bind; [|intros _; exact Hk].
  destruct present.
  - intros st Hf. rewrite bind_run.
    destruct (Hhead st Hf) as [Hin Ht].
    destruct (snd (head st)) as [[]|e]; cbn [fst snd].
    + rewrite bind_run. cbn [pure fst snd].
      destruct (Py.getitem data key) as [v|e] eqn:Eg; cbn [fst snd].
      * rewrite (contains_getitem_field _ _ _ Eg).
        destruct (Hbody v (fst (head st)) Hin) as [Hin2 Ht2].
        split; [exact Hin2|]. intros a Ha.
        rewrite (Ht2 a Ha), (Ht tt eq_refl), <- app_assoc. reflexivity.
      * split; [exact Hin|]. intros a Ha. discriminate.
    + split; [exact Hin|]. intros a Ha. discriminate.
  - rewrite (contains_false_field _ _ Hp). apply draws_ret.
Qed.

Lemma draws_ext {A} (ts : list string) (m m' : M A) :
  (forall st, m st = m' st) -> draws ts m -> draws ts m'.
Proof. intros H Hd st Hf. rewrite <- H. exact (Hd st Hf). Qed.

Lemma bind_ext_l {A B} (m m' : M A) (f : A -> M B) :
  (forall st, m st = m' st) -> forall st, bind m f st = bind m' f st.
Proof. intros H st. unfold bind. now rewrite H. Qed.

Lemma component_label_of (comp name : yaml) (has_yield : bool) (label : yaml) :
  Py.getitem comp "name" = Ok name ->
  Py.contains "yield" comp = Ok has_yield ->
  (if has_yield
   then rbind (yield_text comp)
              (fun y => iadd_str name ("  (yields " ++ y ++ ")"))
   else Ok name) = Ok label ->
  component_label comp = "▸ " ++ Py.str label.
Proof.
  intros Hname Hy Hl. unfold component_label.
  rewrite (contains_getitem_field _ _ _ Hname).
  destruct has_yield.
  - destruct (yield_text comp) as [y|e] eqn:Ey; cbn [rbind] in Hl;
      [|discriminate].
    rewrite (yield_text_of _ _ Ey), Hl. reflexivity.
  - injection Hl as <-.
    assert (H : yield_of comp = None).
    { unfold yield_of. now rewrite (contains_false_field _ _ Hy). }
    now rewrite H.
Qed.

Lemma render_component_draws (comp : yaml) :
  draws (component_texts comp) (render_component line_count comp).
Proof.
  unfold render_component, component_texts. do 2 draws_head.
  apply draws_pure_bind. intros name Hname.
  apply draws_pure_bind. intros has_yield Hy.
  match goal with
  | |- draws _ (bind _ ?k) =>
      apply draws_ext with
        (m := bind (pure (if has_yield
                          then rbind (yield_text comp)
                                 (fun y => iadd_str name
                                             ("  (yields " ++ y ++ ")"))
                          else Ok name)) k)
  end.
  { intros st. apply bind_ext_l. clear st. intros st.
    destruct has_yield; [|reflexivity].
    unfold bind, pure. destruct (yield_text comp); reflexivity. }
  apply draws_pure_bind. intros label Hlabel.
  rewrite (component_label_of comp name has_yield label Hname Hy Hlabel).
  draws_head.
  apply draws_text_then; [apply draws_cell_next|].
  draws_head.
  apply draws_block;
    [apply sub_label_draws | intros; apply render_ingredients_draws |].
  apply draws_block;
    [apply sub_label_draws | intros; apply render_steps_draws |].
  apply draws_block;
    [apply sub_label_draws | intros; apply render_substitutions_draws |].
  apply draws_pure_bind. intros has_optional Ho.
  match goal with
  | |- draws _ (bind _ ?k) =>
      apply draws_ext with
        (m := bind (pure (if has_optional
                          then rbind (Py.getitem comp "optional")
                                 (fun opt => Ok (Py.is_list opt))
                          else Ok false)) k)
  end.
  { intros st. apply bind_ext_l. clear st. intros st.
    destruct has_optional; [|reflexivity].
    unfold bind, pure, ret.
    destruct (Py.getitem comp "optional"); reflexivity. }
  apply draws_pure_bind. intros is_list His.
  match goal with
  | |- draws ?ts _ => rewrite <- (app_nil_r ts)
  end.
  apply draws_bind; [|intros _; draws_head].
  destruct has_optional.
  - destruct (Py.getitem comp "optional") as [opt|e] eqn:Eo;
      cbn [rbind] in His; [|discriminate].
    injection His as <-. rewrite (contains_getitem_field _ _ _ Eo).
    destruct opt; cbn [Py.is_list]; try apply draws_ret.
    apply draws_text_then; [apply sub_label_draws|].
    apply draws_pure_bind. intros opt' Ho'.
    injection Ho' as <-. apply render_ingredients_draws.
  - injection His as <-. rewrite (contains_false_field _ _ Ho).
    apply draws_ret.
Qed.

Lemma render_components_draws (v : yaml) :
  draws (components_texts v) (render_components line_count v).
Proof.
  unfold render_components, components_texts.
  apply draws_pure_bind. intros items ->.
  apply draws_for_each. apply render_component_draws.
Qed.

Lemma render_optional_section_draws (data : yaml) :
  draws (optional_texts data) (render_optional_section line_count data).
Proof.
  unfold render_optional_section, optional_texts.
  apply draws_pure_bind. intros opt Hopt.
  destruct data; try discriminate Hopt.
  cbn [Py.get field] in *. injection Hopt as <-.
  destruct (Py.lookup "optional" entries) as [opt|]; cbn [Py.truthy negb];
    [|apply draws_ret].
  destruct (Py.truthy opt); cbn [negb]; [|apply draws_ret].
  apply draws_text_then; [apply section_header_draws|].
  destruct opt; cbn [Py.is_list Py.is_dict]; try apply draws_ret.
  - apply render_ingredients_draws.
  - apply draws_pure_bind. intros has_components Hc.
    apply draws_bind.
    + destruct has_components.
      * apply draws_pure_bind. intros comps Hg.
        rewrite (contains_getitem_field _ _ _ Hg).
        apply render_components_draws.
      * rewrite (contains_false_field _ _ Hc). apply draws_ret.
    + intros _. apply draws_pure_bind. intros has_ingredients Hi.
      destruct has_ingredients.
      * apply draws_pure_bind. intros ings Hg.
        rewrite (contains_getitem_field _ _ _ Hg).
        apply render_ingredients_draws.
      * rewrite (contains_false_field _ _ Hi). apply draws_ret.
Qed.

Lemma section_draws (data : yaml) (key title : string)
    (content : yaml -> list string) (body : yaml -> M unit) :
  (forall v, draws (content v) (body v)) ->
  draws (block data key title content) (section data key title body).
Proof.
  intros Hbody. unfold section, block.
  apply draws_pure_bind. intros present Hp. destruct present.
  - apply draws_ext with
      (m := bind (_section_header title) (fun _ =>
            bind (pure (Py.getitem data key)) (fun v => body v)));
      [reflexivity|].
    intros st Hf. rewrite bind_run.
    destruct (section_header_draws title st Hf) as [Hin Ht].
    destruct (snd (_section_header title st)) as [[]|e]; cbn [fst snd].
    + rewrite bind_run. cbn [pure fst snd].
      destruct (Py.getitem data key) as [v|e] eqn:Eg; cbn [fst snd].
      * rewrite (contains_getitem_field _ _ _ Eg).
        destruct (Hbody v (fst (_section_header title st)) Hin)
          as [Hin2 Ht2].
        split; [exact Hin2|]. intros a Ha.
        rewrite (Ht2 a Ha), (Ht tt eq_refl), <- app_assoc. reflexivity.
      * split; [exact Hin|]. intros a Ha. discriminate.
    + split; [exact Hin|]. intros a Ha. discriminate.
  - rewrite (contains_false_field _ _ Hp). apply draws_ret.
Qed.

Lemma getitem_raise_field (v : yaml) (key : string) (e : exn) :
  Py.getitem v key = Raise e -> field v key = None.
Proof.
  destruct v; cbn; try reflexivity.
  destruct (Py.lookup key entries); [discriminate | reflexivity].
Qed.

Lemma source_link_draws (data source : yaml) (key : string) :
  Py.getitem data "source" = Ok source ->
  draws (source_link source key)
    (bind (pure (Py.getitem data "source")) (fun source =>
     bind (pure (Py.contains key source)) (fun present =>
     if present : bool then
       bind (pure (Py.getitem data "source")) (fun source =>
       bind (pure (Py.getitem source key)) (fun url =>
       bind (gets cur_font) (fun current =>
       bind (pure (Fpdf.cell_text (family current) url)) (fun text =>
       bind (cell_next 0 5 text) (fun _ => act (Fpdf.ln 1))))))
     else ret tt))).
Proof.
  intros Hs. rewrite Hs. unfold source_link.
  apply draws_pure_bind. intros s [= <-].
  apply draws_pure_bind. intros present Hp. destruct present.
  - apply draws_pure_bind. intros s [= <-].
    apply draws_pure_bind. intros url Hu.
    apply draws_gets_bind. intros current.
    apply draws_pure_bind. intros text Ht.
    rewrite (contains_getitem_field _ _ _ Hu).
    assert (Hd : draws [text]
                   (bind (cell_next 0 5 text) (fun _ => act (Fpdf.ln 1))))
      by (apply draws_text_then; [apply draws_cell_next | draws_head]).
    destruct url; cbn [Fpdf.cell_text] in Ht;
      try (destruct (Fpdf.is_ttf (family current) && _)%bool;
           [|discriminate Ht]);
      injection Ht as <-; exact Hd.
  - rewrite (contains_false_field _ _ Hp). apply draws_ret.
Qed.

Lemma text_line_draws (parts : list string) :
  draws (text_line parts)
    (match parts with
     | [] => ret tt
     | _ =>
         bind (use_font EmptyString 10) (fun _ =>
         bind (act (Fpdf.set_text_color GRAY_TEXT)) (fun _ =>
         bind (cell_next 0 6 (Str.join " | " parts)) (fun _ =>
         act (Fpdf.ln 2))))
     end).
Proof.
  destruct parts as [|p parts]; [apply draws_ret|].
  unfold text_line. do 2 draws_head.
  apply draws_text_then; [apply draws_cell_next | draws_head].
Qed.

Lemma render_header_draws (data : yaml) :
  draws (header_texts data) (render_header line_count data).
Proof.
  unfold render_header, header_texts. do 2 draws_head.
  apply draws_pure_bind. intros name Hname.
  apply draws_pure_bind. intros title Htitle.
  rewrite (contains_getitem_field _ _ _ Hname).
  destruct name; try discriminate Htitle. injection Htitle as ->.
  apply draws_text_then; [apply draws_multi_cell|].
  do 5 draws_head.
  apply draws_pure_bind. intros parts Hparts.
  apply meta_parts_fields in Hparts. subst parts.
  apply draws_bind; [apply text_line_draws | intros _].
  apply draws_pure_bind. intros parts Hparts.
  apply time_parts_fields in Hparts. subst parts.
  apply draws_bind; [apply text_line_draws | intros _].
  apply draws_pure_bind. intros has_source Hsrc.
  rewrite <- (app_nil_r (source_links data)).
  apply draws_bind; [|intros _; draws_head].
  unfold source_links. destruct has_source.
  - do 2 draws_head.
    destruct (Py.getitem data "source") as [source|e] eqn:Eg.
    + rewrite (contains_getitem_field _ _ _ Eg).
      replace (app (source_link source "url") (source_link source "url2"))
        with (flat_map (source_link source) ["url"; "url2"])
        by (cbn; now rewrite app_nil_r).
      apply draws_for_each. intros key.
      rewrite <- Eg. apply source_link_draws. exact Eg.
    + rewrite (getitem_raise_field _ _ _ Eg).
      cbn [for_each]. apply draws_pure_bind. intros s Hs. discriminate.
  - rewrite (contains_false_field _ _ Hsrc). apply draws_ret.
Qed.

Lemma render_recipe_draws (data : yaml) :
  draws (recipe_texts data) (render_recipe line_count data).
Proof.
  unfold render_recipe, recipe_texts. do 2 draws_head.
  apply draws_bind; [apply render_header_draws | intros _].
  apply draws_bind;
    [apply section_draws; intros; apply render_components_draws | intros _].
  apply draws_bind;
    [apply section_draws; intros; apply render_ingredients_draws | intros _].
  apply draws_bind; [apply render_optional_section_draws | intros _].
  apply draws_bind;
    [apply section_draws; intros; apply render_steps_draws | intros _].
  apply draws_bind;
    [apply section_draws; intros; apply render_steps_draws | intros _].
  apply draws_bind;
    [apply section_draws; intros; apply render_substitutions_draws | intros _].
  apply draws_bind;
    [apply section_draws; intros; apply render_garnishes_draws | intros _].
  apply section_draws; intros; apply render_notes_draws.
Qed.

(** X11: The content of a document: when [render_recipe] completes, the text
    blocks drawn outside footers are, in order, the header block (name,
    metadata line, time and yield line, links) and then, for each section
    whose field is present, its title followed by its content; neither the
    wrapping of lines nor the page breaks change which texts are drawn or
    their order. *)
Theorem render_recipe_texts : forall (font : string) (data : yaml),
  let run := render_recipe line_count data (Fpdf.init font) in
  snd run = Ok tt ->
  body_texts (ops (fst run)) = recipe_texts data.
Proof.
  intros font data run Hok.
  destruct (render_recipe_draws data (Fpdf.init font) eq_refl) as [_ H].
  exact (H tt Hok).
Qed.

(** X12: The content of a component block: when [render_component] completes, it
    has drawn the heading (the name, with "  (yields ...)" when the
    component has a yield) and then, for each of [ingredients], [steps],
    [substitutions] that is present and for an [optional] that is a list,
    a label line followed by the bullets or numbered steps; the numbering of
    the steps starts again at 1 in each component. *)
Theorem render_component_texts : forall (comp : yaml) (st : pdf),
  in_footer st = false ->
  let run := render_component line_count comp st in
  snd run = Ok tt ->
  body_texts (ops (fst run))
  = app (body_texts (ops st)) (component_texts comp).
Proof.
  intros comp st Hf run Hok.
  destruct (render_component_draws comp st Hf) as [_ H].
  exact (H tt Hok).
Qed.

End Content.

(** ** Records that render *)

Lemma format_time_returns (v : yaml) : exists s, format_time v = Ok s.
Proof.
  unfold format_time, Py.index.
  destruct (nth_error (Str.split ":" (Py.str v)) 0) as [a|];
    cbn [rbind try_except format_time_handled]; [|eexists; reflexivity].
  destruct (Str.to_int a) as [h|e] eqn:Eh;
    cbn [rbind try_except format_time_handled].
  2:{ rewrite (to_int_raises _ _ Eh). eexists; reflexivity. }
  destruct (nth_error (Str.split ":" (Py.str v)) 1) as [b|];
    cbn [rbind try_except format_time_handled]; [|eexists; reflexivity].
  destruct (Str.to_int b) as [m|e] eqn:Em;
    cbn [rbind try_except format_time_handled].
  2:{ rewrite (to_int_raises _ _ Em). eexists; reflexivity. }
  destruct (0 <? h)%Z; eexists; reflexivity.
Qed.

Lemma labelled_returns (d : dict) (key label : string) (parts : list string) :
  exists parts', labelled (YDict d) key label parts = Ok parts'.
Proof.
  unfold labelled. cbn [Py.contains Py.getitem rbind]. unfold Py.has_key.
  destruct (Py.lookup key d); cbn [rbind]; eexists; reflexivity.
Qed.

Lemma labelled_time_returns (d : dict) (key label : string)
    (parts : list string) :
  exists parts', labelled_time (YDict d) key label parts = Ok parts'.
Proof.
  unfold labelled_time. cbn [Py.contains Py.getitem rbind]. unfold Py.has_key.
  destruct (Py.lookup key d) as [v|]; cbn [rbind]; [|eexists; reflexivity].
  destruct (format_time_returns v) as [s ->]. cbn [rbind].
  eexists; reflexivity.
Qed.

Lemma yield_text_returns (d : dict) (y : yaml) :
  Py.lookup "yield" d = Some y -> exists s, yield_text (YDict d) = Ok s.
Proof.
  intros H. unfold yield_text. cbn [Py.contains Py.getitem rbind].
  rewrite H. cbn [rbind]. unfold Py.has_key.
  destruct (Py.lookup "yield_unit" d); cbn [rbind]; eexists; reflexivity.
Qed.

Lemma meta_parts_returns (d : dict) :
  exists parts, meta_parts (YDict d) = Ok parts.
Proof.
  unfold meta_parts.
  destruct (labelled_returns d "region" "Region: " []) as [p1 ->].
  cbn [rbind].
  destruct (labelled_returns d "ethnicity" "Ethnicity: " p1) as [p2 ->].
  cbn [rbind].
  destruct (labelled_returns d "restaurant" "Restaurant: " p2) as [p3 ->].
  cbn [rbind]. apply labelled_returns.
Qed.

Lemma time_parts_returns (d : dict) :
  exists parts, time_parts (YDict d) = Ok parts.
Proof.
  unfold time_parts.
  destruct (labelled_time_returns d "prep_time" "Prep: " []) as [p1 ->].
  cbn [rbind].
  destruct (labelled_time_returns d "cook_time" "Cook: " p1) as [p2 ->].
  cbn [rbind Py.contains]. unfold Py.has_key.
  destruct (Py.lookup "yield" d) as [y|] eqn:Ey; cbn [rbind].
  - destruct (yield_text_returns d y Ey) as [s ->]. cbn [rbind].
    apply labelled_returns.
  - apply labelled_returns.
Qed.

Lemma ingredient_record_returns (v : yaml) :
  ingredient_record v -> exists line, format_ingredient v = Ok line.
Proof.
  destruct v; cbn; try contradiction.
  intros [[item Hitem] Href]. eexists.
  apply (format_ingredient_returns entries item Hitem).
  intros r Hr. unfold field_ok in Href. now rewrite Hr in Href.
Qed.

Lemma substitution_record_returns (v : yaml) :
  ingredient_record v -> exists line, format_substitution v = Ok line.
Proof.
  intros H. destruct (ingredient_record_returns v H) as [line Hl].
  destruct v; cbn in H; try contradiction.
  unfold format_substitution. rewrite Hl. cbn [rbind Py.get].
  destruct (Py.truthy match Py.lookup "replaces" entries with
                      | Some x => x
                      | None => YNull
                      end); cbn [rbind Py.get]; eexists; reflexivity.
Qed.

Section Returns.

Variable line_count : font -> Q -> string -> nat.

Lemma returns_bind {A B} (m : M A) (f : A -> M B) :
  returns m -> (forall a, returns (f a)) -> returns (bind m f).
Proof.
  intros Hm Hf st. rewrite bind_run. destruct (Hm st) as [a ->].
  apply Hf.
Qed.

Lemma returns_pure_bind {A B} (r : result A) (a : A) (f : A -> M B) :
  r = Ok a -> returns (f a) -> returns (bind (pure r) f).
Proof. intros -> H st. rewrite bind_pure_ok. apply H. Qed.

(** a computation that leaves the object alone and gives [a] *)
Lemma returns_const_bind {A B} (m : M A) (a : A) (f : A -> M B) :
  (forall st, m st = (st, Ok a)) -> returns (f a) -> returns (bind m f).
Proof. intros Hm H st. unfold bind. rewrite Hm. apply H. Qed.

Lemma returns_act (f : pdf -> pdf) : returns (act f).
Proof. intros st. exists tt. reflexivity. Qed.

Lemma returns_ret {A} (a : A) : returns (ret a).
Proof. intros st. exists a. reflexivity. Qed.

Lemma returns_gets_bind {A B} (g : pdf -> A) (f : A -> M B) :
  (forall a, returns (f a)) -> returns (bind (gets g) f).
Proof. intros H st. unfold bind, gets. apply H. Qed.

Lemma returns_for_each {A} (items : list A) (body : A -> M unit) :
  (forall a, In a items -> returns (body a)) ->
  returns (for_each items body).
Proof.
  induction items as [|a rest IH]; intros H; cbn [for_each].
  - apply returns_ret.
  - apply returns_bind; [apply H; now left|].
    intros _. apply IH. intros b Hb. apply H. now right.
Qed.

Ltac returns_head :=
  lazymatch goal with
  | |- returns (bind (gets _) _) => apply returns_gets_bind; intros ?
  | |- returns (bind (act _) _) =>
      apply returns_bind; [apply returns_act | intros _]
  | |- returns (bind (use_font _ _) _) =>
      apply returns_bind; [apply returns_act | intros _]
  | |- returns (bind (cell_next _ _ _) _) =>
      apply returns_bind; [apply returns_act | intros _]
  | |- returns (bind (multi_cell _ _ _ _) _) =>
      apply returns_bind; [apply returns_act | intros _]
  | |- returns (bind rule_here _) =>
      apply returns_bind; [apply returns_act | intros _]
  | |- returns (act _) => apply returns_act
  | |- returns (ret _) => apply returns_ret
  end.

Lemma bullet_line_returns (text : yaml) (indent : Q) :
  returns (_bullet_line line_count text indent).
Proof. unfold _bullet_line. repeat returns_head. Qed.

Lemma numbered_line_returns (n : Z) (text : yaml) (indent : Q) :
  returns (_numbered_line line_count n text indent).
Proof. unfold _numbered_line. repeat returns_head. Qed.

Lemma sub_label_returns (text : string) : returns (sub_label text).
Proof. unfold sub_label. repeat returns_head. Qed.

Lemma section_header_total (title : string) : returns (_section_header title).
Proof.
  unfold _section_header. returns_head.
  apply returns_bind.
  { destruct (Qlt_bool 250 a); [apply returns_act | apply returns_ret]. }
  intros _. repeat returns_head.
Qed.

Lemma render_ingredients_returns (v : yaml) (indent : Q) :
  is_list_of ingredient_record v ->
  returns (render_ingredients line_count v indent).
Proof.
  destruct v; cbn [is_list_of]; try contradiction. intros H.
  unfold render_ingredients. eapply returns_pure_bind; [reflexivity|].
  apply returns_for_each. intros ing Hin.
  rewrite Forall_forall in H.
  destruct (ingredient_record_returns ing (H ing Hin)) as [line Hl].
  eapply returns_pure_bind; [exact Hl | apply bullet_line_returns].
Qed.

Lemma render_substitutions_returns (v : yaml) (indent : Q) :
  is_list_of ingredient_record v ->
  returns (render_substitutions line_count v indent).
Proof.
  destruct v; cbn [is_list_of]; try contradiction. intros H.
  unfold render_substitutions. eapply returns_pure_bind; [reflexivity|].
  apply returns_for_each. intros ing Hin.
  rewrite Forall_forall in H.
  destruct (substitution_record_returns ing (H ing Hin)) as [line Hl].
  eapply returns_pure_bind; [exact Hl | apply bullet_line_returns].
Qed.

Lemma render_steps_from_returns (steps : list yaml) (i : Z) (indent : Q) :
  returns (render_steps_from line_count i steps indent).
Proof.
  revert i. induction steps as [|s rest IH]; intros i; cbn [render_steps_from].
  - apply returns_ret.
  - apply returns_bind; [apply numbered_line_returns | intros _; apply IH].
Qed.

Lemma render_steps_returns (v : yaml) (indent : Q) :
  any_list v -> returns (render_steps line_count v indent).
Proof.
  destruct v; cbn; try contradiction. intros _.
  unfold render_steps. eapply returns_pure_bind; [reflexivity|].
  apply render_steps_from_returns.
Qed.

Lemma render_notes_returns (v : yaml) :
  any_list v -> returns (render_notes line_count v).
Proof.
  destruct v; cbn; try contradiction. intros _.
  unfold render_notes. eapply returns_pure_bind; [reflexivity|].
  apply returns_for_each. intros n _. apply bullet_line_returns.
Qed.

Lemma render_garnishes_returns (v : yaml) :
  is_list_of garnish_record v -> returns (render_garnishes line_count v).
Proof.
  destruct v; cbn [is_list_of]; try contradiction. intros H.
  unfold render_garnishes. eapply returns_pure_bind; [reflexivity|].
  apply returns_for_each. intros g Hin.
  rewrite Forall_forall in H. specialize (H g Hin).
  destruct g; cbn in H; try contradiction.
  destruct (Py.lookup "item" entries) as [x|] eqn:E; [|congruence].
  eapply returns_pure_bind; [cbn; rewrite E; reflexivity|].
  apply bullet_line_returns.
Qed.

(** [if key in d: head; body(d[key])], then the rest *)
Lemma returns_block {A} (d : dict) (key : string) (P : yaml -> Prop)
    (head : M unit) (body : yaml -> M unit) (k : M A) :
  field_ok d key P -> returns head -> (forall v, P v -> returns (body v)) ->
  returns k ->
  returns
    (bind (pure (Py.contains key (YDict d))) (fun present =>
     bind (if present : bool then
             bind head (fun _ =>
             bind (pure (Py.getitem (YDict d) key)) (fun v => body v))
           else ret tt) (fun _ => k))).
Proof.
  intros Hok Hhead Hbody Hk. unfold field_ok in Hok.
  eapply returns_pure_bind; [reflexivity|].
  apply returns_bind; [|intros _; exact Hk].
  unfold Py.has_key. cbn [Py.getitem].
  destruct (Py.lookup key d) as [v|]; [|apply returns_ret].
  apply returns_bind; [exact Hhead | intros _].
  eapply returns_pure_bind; [reflexivity | now apply Hbody].
Qed.

Lemma section_returns (d : dict) (key title : string) (P : yaml -> Prop)
    (body : yaml -> M unit) :
  field_ok d key P -> (forall v, P v -> returns (body v)) ->
  returns (section (YDict d) key title body).
Proof.
  intros Hok Hbody. unfold section, field_ok in *.
  eapply returns_pure_bind; [reflexivity|].
  unfold Py.has_key. cbn [Py.getitem].
  destruct (Py.lookup key d) as [v|]; [|apply returns_ret].
  apply returns_bind; [apply section_header_total | intros _].
  eapply returns_pure_bind; [reflexivity | now apply Hbody].
Qed.

Lemma render_component_returns (comp : yaml) :
  component_record comp -> returns (render_component line_count comp).
Proof.
  destruct comp as [| | | | | |d]; cbn [component_record]; try contradiction.
  intros ([name Hname] & Hi & Hs & Hsub & Ho).
  unfold render_component. do 2 returns_head.
  eapply returns_pure_bind; [cbn; rewrite Hname; reflexivity|].
  eapply returns_pure_bind; [reflexivity|].
  apply returns_bind.
  { unfold Py.has_key.
    destruct (Py.lookup "yield" d) as [y|] eqn:Ey; [|apply returns_ret].
    destruct (yield_text_returns d y Ey) as [s Hy].
    eapply returns_pure_bind; [exact Hy|].
    intros st. eexists. reflexivity. }
  intros label. do 3 returns_head.
  apply (returns_block d "ingredients" _ _ _ _ Hi);
    [apply sub_label_returns
    | intros; now apply render_ingredients_returns |].
  apply (returns_block d "steps" _ _ _ _ Hs);
    [apply sub_label_returns | intros; now apply render_steps_returns |].
  apply (returns_block d "substitutions" _ _ _ _ Hsub);
    [apply sub_label_returns
    | intros; now apply render_substitutions_returns |].
  eapply returns_pure_bind; [reflexivity|].
  unfold field_ok in Ho. unfold Py.has_key. cbn [Py.getitem].
  destruct (Py.lookup "optional" d) as [o|].
  - apply (returns_const_bind _ (Py.is_list o)); [reflexivity|].
    apply returns_bind; [|intros _; returns_head].
    destruct o; cbn [Py.is_list]; try apply returns_ret.
    apply returns_bind; [apply sub_label_returns | intros _].
    eapply returns_pure_bind; [reflexivity|].
    now apply render_ingredients_returns.
  - apply (returns_const_bind _ false); [reflexivity|].
    apply returns_bind; [apply returns_ret | intros _; returns_head].
Qed.

Lemma render_components_returns (v : yaml) :
  is_list_of component_record v -> returns (render_components line_count v).
Proof.
  destruct v; cbn [is_list_of]; try contradiction. intros H.
  unfold render_components. eapply returns_pure_bind; [reflexivity|].
  apply returns_for_each. intros c Hin.
  rewrite Forall_forall in H. now apply render_component_returns, H.
Qed.

Lemma render_optional_section_returns (d : dict) :
  field_ok d "optional" optional_record ->
  returns (render_optional_section line_count (YDict d)).
Proof.
  intros H. unfold render_optional_section, field_ok in *.
  eapply returns_pure_bind; [reflexivity|]. cbn [Py.get].
  destruct (Py.lookup "optional" d) as [o|]; [|apply returns_ret].
  destruct (Py.truthy o) eqn:Et; cbn [negb]; [|apply returns_ret].
  apply returns_bind; [apply section_header_total | intros _].
  destruct o as [| | | | |items|od]; cbn [Py.is_list Py.is_dict];
    try apply returns_ret.
  - apply render_ingredients_returns. exact H.
  - destruct H as [Hc Hi].
    apply (returns_const_bind _ (Py.has_key "components" od));
      [reflexivity|].
    apply returns_bind.
    { unfold field_ok in Hc. unfold Py.has_key. cbn [Py.getitem].
      destruct (Py.lookup "components" od) as [c|]; [|apply returns_ret].
      eapply returns_pure_bind; [reflexivity|].
      now apply render_components_returns. }
    intros _.
    apply (returns_const_bind _ (Py.has_key "ingredients" od));
      [reflexivity|].
    unfold field_ok in Hi. unfold Py.has_key. cbn [Py.getitem].
    destruct (Py.lookup "ingredients" od) as [c|]; [|apply returns_ret].
    eapply returns_pure_bind; [reflexivity|].
    now apply render_ingredients_returns.
Qed.

Lemma header_line_returns (parts : list string) :
  returns (match parts with
           | [] => ret tt
           | _ =>
               bind (use_font EmptyString 10) (fun _ =>
               bind (act (Fpdf.set_text_color GRAY_TEXT)) (fun _ =>
               bind (cell_next 0 6 (Str.join " | " parts)) (fun _ =>
               act (Fpdf.ln 2))))
           end).
Proof. destruct parts; repeat returns_head. Qed.

Lemma render_header_returns (d : dict) :
  text_field d "name" -> field_ok d "source" source_record ->
  returns (render_header line_count (YDict d)).
Proof.
  intros [name Hname] Hsrc. unfold render_header. do 2 returns_head.
  eapply returns_pure_bind; [cbn; rewrite Hname; reflexivity|].
  eapply returns_pure_bind; [reflexivity|].
  do 6 returns_head.
  destruct (meta_parts_returns d) as [mp Hmp].
  eapply returns_pure_bind; [exact Hmp|].
  apply returns_bind; [apply header_line_returns | intros _].
  destruct (time_parts_returns d) as [tp Htp].
  eapply returns_pure_bind; [exact Htp|].
  apply returns_bind; [apply header_line_returns | intros _].
  eapply returns_pure_bind; [reflexivity|].
  apply returns_bind; [|intros _; returns_head].
  unfold field_ok in Hsrc. unfold Py.has_key. cbn [Py.getitem].
  destruct (Py.lookup "source" d) as [src|]; [|apply returns_ret].
  do 2 returns_head.
  destruct src as [| | | | | |sd]; cbn [source_record] in Hsrc;
    try contradiction.
  destruct Hsrc as [Hu Hu2].
  apply returns_for_each. intros key Hkey.
  assert (Hk : field_ok sd key (fun u => Py.is_str u = true)).
  { destruct Hkey as [<-|[<-|[]]]; assumption. }
  eapply returns_pure_bind; [reflexivity|].
  eapply returns_pure_bind; [reflexivity|].
  unfold field_ok in Hk. unfold Py.has_key. cbn [Py.getitem].
  destruct (Py.lookup key sd) as [u|] eqn:Ek; [|apply returns_ret].
  eapply returns_pure_bind; [reflexivity|].
  eapply returns_pure_bind; [cbn [Py.getitem]; rewrite Ek; reflexivity|].
  destruct u; cbn in Hk; try discriminate.
  returns_head.
  eapply returns_pure_bind; [reflexivity|].
  repeat returns_head.
Qed.

(** no step of [render_recipe] raises on a record shaped as the data
    model *)
Lemma render_recipe_returns (data : yaml) (st : pdf) :
  recipe_record data -> snd (render_recipe line_count data st) = Ok tt.
Proof.
  destruct data as [| | | | | |d]; cbn [recipe_record]; try contradiction.
  intros (Hn & Hsrc & Hc & Hi & Ho & Hs & Hsa & Hsub & Hg & Hnotes).
  assert (H : returns (render_recipe line_count (YDict d))).
  { unfold render_recipe. do 2 returns_head.
    apply returns_bind; [now apply render_header_returns | intros _].
    apply returns_bind;
      [apply (section_returns d _ _ _ _ Hc);
       intros; now apply render_components_returns | intros _].
    apply returns_bind;
      [apply (section_returns d _ _ _ _ Hi);
       intros; now apply render_ingredients_returns | intros _].
    apply returns_bind;
      [now apply render_optional_section_returns | intros _].
    apply returns_bind;
      [apply (section_returns d _ _ _ _ Hs);
       intros; now apply render_steps_returns | intros _].
    apply returns_bind;
      [apply (section_returns d _ _ _ _ Hsa);
       intros; now apply render_steps_returns | intros _].
    apply returns_bind;
      [apply (section_returns d _ _ _ _ Hsub);
       intros; now apply render_substitutions_returns | intros _].
    apply returns_bind;
      [apply (section_returns d _ _ _ _ Hg);
       intros; now apply render_garnishes_returns | intros _].
    apply (section_returns d _ _ _ _ Hnotes).
    intros; now apply render_notes_returns. }
  destruct (H st) as [[] E]. exact E.
Qed.

(** X13: A record shaped as the data model is rendered to the end with the
    DejaVu font: no step of [render_recipe] raises and no text is refused.
    When the file loads as such a record, the constructor and the writing
    raise nothing, the file is not skipped and its turn of the loop writes
    exactly one document, at its output path. *)
Theorem valid_record_rendered (f : recipe_file) (data : yaml) :
  loaded f = Ok data -> recipe_record data ->
  constructed f = Ok tt -> stored f = Ok tt ->
  documents_of line_count "DejaVu" f
  = [(output_path f,
      output (clock f)
             (fst (render_recipe line_count data (Fpdf.init "DejaVu"))))].
Proof.
  intros Hl Hr Hc Hs.
  pose proof (render_recipe_returns data (Fpdf.init "DejaVu") Hr) as E.
  unfold documents_of, attempt_file, lacks_name. rewrite Hl. cbn [rbind].
  destruct data as [| | | | | |d]; cbn [recipe_record] in Hr;
    try contradiction.
  destruct Hr as [[name Hname] _].
  assert (Ht : Py.truthy (YDict d) = true).
  { destruct d; [discriminate Hname | reflexivity]. }
  rewrite Ht. cbn [negb Py.contains rbind]. unfold Py.has_key.
  rewrite Hname. cbn [negb]. rewrite Hc. cbn [rbind].
  destruct (render_recipe line_count (YDict d) (Fpdf.init "DejaVu"))
    as [st r]. cbn [snd fst] in *. rewrite E.
  unfold refusal, accepted. cbn [Fpdf.is_ttf String.eqb orb rbind].
  rewrite Hs. reflexivity.
Qed.

End Returns.

(** ** Pages, footers and the text area *)

Lemma footer_texts_app (a b : list op) :
  footer_texts (app a b) = app (footer_texts a) (footer_texts b).
Proof. apply flat_map_app. Qed.

Lemma sorted_snoc (l : list nat) (n : nat) :
  StronglySorted le l -> Forall (fun x => (x <= n)%nat) l ->
  StronglySorted le (app l [n]).
Proof.
  induction 1 as [|a l Hs IH Ha]; intros Hn; cbn [app].
  - repeat constructor.
  - inversion Hn as [|? ? Han Hln]; subst. constructor.
    + apply IH, Hln.
    + apply Forall_app. split; [exact Ha | repeat constructor; exact Han].
Qed.

Lemma placed_mono (n m : nat) (o : op) :
  (n <= m)%nat -> placed n o -> placed m o.
Proof. unfold placed. intros H [[H1 H2] H3]. repeat split; auto; lia. Qed.

(** the footer of the page being left *)
Lemma close_page_run (st : pdf) :
  let st' := Fpdf.close_page st in
  in_footer st' = false /\ page st' = page st /\
  str_alias_nb_pages st' = str_alias_nb_pages st /\
  ops st'
  = app (ops st)
        [OText true (page st) Fpdf.l_margin (Fpdf.page_h + -15)
               (mkFont (font_name st) EmptyString 8) GRAY_TEXT
               (page_label "{nb}" (page st))].
Proof.
  unfold Fpdf.close_page, Fpdf.footer, Fpdf.cell_with, Fpdf.page_break_with,
    Fpdf.will_page_break.
  cbn [in_footer Fpdf.with_in_footer Fpdf.set_y Fpdf.set_font
       Fpdf.set_text_color Fpdf.with_cursor].
  rewrite andb_false_r. repeat split; reflexivity.
Qed.

(** what holds of the drawing when the footer of the current page is added *)
Lemma close_page_laid_out (st : pdf) :
  laid_out st ->
  let os := ops (Fpdf.close_page st) in
  footer_texts os = map (page_label "{nb}") (seq 1 (page st)) /\
  Forall (placed (page st)) os /\
  StronglySorted le (map op_page os).
Proof.
  intros (Hf & Hp & Ha & Hy & Hft & Hpl & Hs) os. subst os.
  destruct (close_page_run st) as (_ & _ & _ & ->).
  rewrite footer_texts_app, map_app, Hft. repeat split.
  - assert (E : seq 1 (page st) = app (seq 1 (page st - 1)) [page st]).
    { replace (page st) with (S (page st - 1)) at 1 by lia.
      rewrite seq_S. do 2 f_equal. lia. }
    rewrite E, map_app. reflexivity.
  - apply Forall_app. split; [exact Hpl|].
    repeat constructor; cbn [op_page]; try lia.
  - cbn [map op_page]. apply sorted_snoc; [exact Hs|].
    rewrite Forall_map. eapply Forall_impl; [|exact Hpl].
    intros o [[_ H] _]. exact H.
Qed.

Lemma add_page_laid_out (st : pdf) : laid_out st -> laid_out (Fpdf.add_page st).
Proof.
  intros H. destruct (close_page_laid_out st H) as (Hft & Hpl & Hs).
  destruct (close_page_run st) as (Hf' & Hp' & Ha' & _).
  destruct H as (Hf & Hp & Ha & Hy & _).
  unfold Fpdf.add_page.
  assert (E : (0 <? page st)%nat = true) by (apply Nat.ltb_lt; lia).
  rewrite E. unfold laid_out.
  cbn [in_footer page str_alias_nb_pages cur_y ops].
  rewrite Hp', Ha'. repeat split; auto; try lia.
  - unfold Fpdf.t_margin. lra.
  - replace (S (page st) - 1)%nat with (page st) by lia. exact Hft.
  - eapply Forall_impl; [|exact Hpl]. intros o. apply placed_mono. lia.
Qed.

Lemma laid_out_cursor (x y : Q) (st : pdf) :
  laid_out st -> Fpdf.t_margin <= y -> laid_out (Fpdf.with_cursor x y st).
Proof.
  intros (Hf & Hp & Ha & Hy & Hft & Hpl & Hs) H. unfold laid_out.
  cbn [in_footer page str_alias_nb_pages cur_y ops Fpdf.with_cursor].
  repeat split; auto.
Qed.

Lemma laid_out_emit (o : op) (st : pdf) :
  laid_out st -> is_footer_op o = false -> op_page o = page st ->
  in_text_area o -> laid_out (Fpdf.emit o st).
Proof.
  intros (Hf & Hp & Ha & Hy & Hft & Hpl & Hs) Ho Hpg Hin. unfold laid_out.
  cbn [in_footer page str_alias_nb_pages cur_y ops Fpdf.emit].
  rewrite footer_texts_app, map_app. repeat split; auto.
  - rewrite Hft. destruct o as [[|] ? ? ? ? ? ?|]; try discriminate;
      cbn; now rewrite app_nil_r.
  - apply Forall_app. split; [exact Hpl|].
    repeat constructor; try lia. exact Hin.
  - cbn [map]. rewrite Hpg. apply sorted_snoc; [exact Hs|].
    rewrite Forall_map. eapply Forall_impl; [|exact Hpl].
    intros o' [[_ H] _]. exact H.
Qed.

(** after the automatic page break a line of height [h] fits *)
Lemma page_break_laid_out (h : Q) (st : pdf) :
  laid_out st -> 5 <= h ->
  laid_out (Fpdf.page_break h st) /\
  cur_y (Fpdf.page_break h st) <= Fpdf.page_break_trigger - 5.
Proof.
  intros H Hh. unfold Fpdf.page_break, Fpdf.page_break_with.
  destruct (Fpdf.will_page_break h st) eqn:E.
  - pose proof (add_page_laid_out st H) as H'. split.
    + apply laid_out_cursor; [exact H'|].
      destruct H' as (_ & _ & _ & Hy & _). exact Hy.
    + unfold Fpdf.add_page. destruct (0 <? page st)%nat;
        cbn [cur_y Fpdf.with_cursor];
        pose proof page_break_trigger_value; unfold Fpdf.t_margin; lra.
  - split; [exact H|].
    destruct H as (Hf & _). unfold Fpdf.will_page_break in E.
    rewrite Hf, andb_true_r in E. apply Qlt_bool_false_iff in E.
    lra.
Qed.

Lemma cell_laid_out (w h : Q) (txt : string) (nx : new_x_mode)
    (ny : new_y_mode) (st : pdf) :
  laid_out st -> 5 <= h -> laid_out (Fpdf.cell w h txt nx ny st).
Proof.
  intros H Hh. destruct (page_break_laid_out h st H Hh) as [H1 Hy1].
  unfold Fpdf.cell, Fpdf.cell_with, Fpdf.draw_cell.
  fold (Fpdf.page_break h st).
  set (st1 := Fpdf.page_break h st) in *.
  assert (Hy : Fpdf.t_margin <= cur_y st1)
    by (destruct H1 as (_ & _ & _ & Hy & _); exact Hy).
  assert (Hf : in_footer st1 = false) by (destruct H1 as (Hf & _); exact Hf).
  apply laid_out_cursor.
  - apply laid_out_emit; [exact H1 | exact Hf | reflexivity |].
    rewrite Hf. cbn [in_text_area]. split; assumption.
  - destruct ny; [exact Hy | lra].
Qed.

Section Layout.

Variable line_count : font -> Q -> string -> nat.

Lemma flow_lines_laid_out (n : nat) (h : Q) (st : pdf) :
  laid_out st -> 5 <= h -> laid_out (Fpdf.flow_lines n h st).
Proof.
  revert st. induction n as [|n IH]; intros st H Hh; cbn [Fpdf.flow_lines].
  - exact H.
  - destruct (page_break_laid_out h st H Hh) as [H1 _].
    apply IH; [|exact Hh]. apply laid_out_cursor; [exact H1|].
    destruct H1 as (_ & _ & _ & Hy & _). lra.
Qed.

Lemma multi_cell_laid_out (w h : Q) (txt : string) (st : pdf) :
  laid_out st -> 5 <= h -> laid_out (Fpdf.multi_cell line_count w h txt st).
Proof.
  intros H Hh. destruct (page_break_laid_out h st H Hh) as [H1 Hy1].
  unfold Fpdf.multi_cell.
  set (st1 := Fpdf.page_break h st) in *.
  assert (Hy : Fpdf.t_margin <= cur_y st1)
    by (destruct H1 as (_ & _ & _ & Hy & _); exact Hy).
  assert (Hf : in_footer st1 = false) by (destruct H1 as (Hf & _); exact Hf).
  match goal with
  | |- laid_out (Fpdf.with_cursor _ _ (Fpdf.flow_lines ?n h ?s)) =>
      assert (Hs : laid_out s)
  end.
  { apply laid_out_cursor.
    - apply laid_out_emit; [exact H1 | exact Hf | reflexivity |].
      rewrite Hf. cbn [in_text_area]. split; assumption.
    - cbn [cur_y Fpdf.emit]. lra. }
  match goal with
  | |- laid_out (Fpdf.with_cursor _ _ (Fpdf.flow_lines ?n h ?s)) =>
      pose proof (flow_lines_laid_out n h s Hs Hh) as H4;
      set (st4 := Fpdf.flow_lines n h s) in *
  end.
  apply laid_out_cursor; [exact H4|].
  destruct H4 as (_ & _ & _ & Hy4 & _). exact Hy4.
Qed.

Lemma library_call_laid_out (st st' : pdf) :
  library_call line_count st st' -> laid_out st -> laid_out st'.
Proof.
  intros Hc H. destruct Hc.
  - destruct H as (Hf & Hp & Ha & Hy & Hft & Hpl & Hs).
    repeat split; auto.
  - apply add_page_laid_out, H.
  - destruct H as (Hf & Hp & Ha & Hy & Hft & Hpl & Hs). repeat split; auto.
  - destruct H as (Hf & Hp & Ha & Hy & Hft & Hpl & Hs). repeat split; auto.
  - destruct H as (Hf & Hp & Ha & Hy & Hft & Hpl & Hs). repeat split; auto.
  - destruct H as (Hf & Hp & Ha & Hy & Hft & Hpl & Hs). repeat split; auto.
  - apply laid_out_cursor; [exact H|].
    destruct H as (_ & _ & _ & Hy & _). exact Hy.
  - apply laid_out_cursor; [exact H|].
    destruct H as (_ & _ & _ & Hy & _). lra.
  - apply laid_out_emit; auto. exact I.
  - now apply cell_laid_out.
  - now apply multi_cell_laid_out.
Qed.

Lemma calls_laid_out (st st' : pdf) :
  calls line_count st st' -> laid_out st -> laid_out st'.
Proof.
  induction 1 as [|st1 st2 st3 _ IH Hc]; intros H; [exact H|].
  eapply library_call_laid_out; [exact Hc | apply IH, H].
Qed.

Lemma calls_trans (a b c : pdf) :
  calls line_count a b -> calls line_count b c -> calls line_count a c.
Proof.
  intros Hab Hbc. induction Hbc as [|st1 st2 st3 _ IH Hc]; [exact Hab|].
  eapply calls_then; [apply IH, Hab | exact Hc].
Qed.

Lemma walks_bind {A B} (m : M A) (f : A -> M B) :
  walks line_count m -> (forall a, walks line_count (f a)) ->
  walks line_count (bind m f).
Proof.
  intros Hm Hf st. rewrite bind_run. specialize (Hm st).
  destruct (snd (m st)) as [a|e]; [|exact Hm].
  eapply calls_trans; [exact Hm | apply Hf].
Qed.

Lemma walks_ret {A} (a : A) : walks line_count (ret a).
Proof. intros st. apply calls_none. Qed.

Lemma walks_pure {A} (r : result A) : walks line_count (pure r).
Proof. intros st. apply calls_none. Qed.

Lemma walks_gets {A} (g : pdf -> A) : walks line_count (gets g).
Proof. intros st. apply calls_none. Qed.

Lemma walks_act (f : pdf -> pdf) :
  (forall st, library_call line_count st (f st)) -> walks line_count (act f).
Proof. intros H st. eapply calls_then; [apply calls_none | apply H]. Qed.

Lemma walks_for_each {A} (items : list A) (body : A -> M unit) :
  (forall a, walks line_count (body a)) ->
  walks line_count (for_each items body).
Proof.
  intros H. induction items as [|a rest IH]; cbn [for_each].
  - apply walks_ret.
  - apply walks_bind; [apply H | intros _; exact IH].
Qed.

Ltac walks_step :=
  lazymatch goal with
  | |- walks _ (bind _ _) => apply walks_bind; [|intros ?]
  | |- walks _ (ret _) => apply walks_ret
  | |- walks _ (pure _) => apply walks_pure
  | |- walks _ (gets _) => apply walks_gets
  | |- walks _ (for_each _ _) => apply walks_for_each; intros ?
  | |- walks _ (use_font _ _) =>
      apply walks_act; intros ?; apply call_set_font
  | |- walks _ (cell_next _ _ _) =>
      apply walks_act; intros ?; apply call_cell; lra
  | |- walks _ (multi_cell _ _ _ _) =>
      apply walks_act; intros ?; apply call_multi_cell; lra
  | |- walks _ rule_here => apply walks_act; intros ?; apply call_line
  | |- walks _ (act (Fpdf.ln _)) =>
      apply walks_act; intros ?; apply call_ln; lra
  | |- walks _ (act _) => apply walks_act; intros ?; constructor
  | |- walks _ (if ?b then _ else _) => destruct b
  | |- walks _ (match ?x with _ => _ end) => destruct x
  end.

Lemma section_header_walks (title : string) :
  walks line_count (_section_header title).
Proof. unfold _section_header. repeat walks_step. Qed.

Lemma bullet_line_walks (text : yaml) (indent : Q) :
  walks line_count (_bullet_line line_count text indent).
Proof. unfold _bullet_line. repeat walks_step. Qed.

Lemma numbered_line_walks (n : Z) (text : yaml) (indent : Q) :
  walks line_count (_numbered_line line_count n text indent).
Proof. unfold _numbered_line. repeat walks_step. Qed.

Lemma render_header_walks (data : yaml) :
  walks line_count (render_header line_count data).
Proof. unfold render_header. repeat walks_step. Qed.

Lemma render_ingredients_walks (v : yaml) (indent : Q) :
  walks line_count (render_ingredients line_count v indent).
Proof.
  unfold render_ingredients. repeat walks_step. apply bullet_line_walks.
Qed.

Lemma render_substitutions_walks (v : yaml) (indent : Q) :
  walks line_count (render_substitutions line_count v indent).
Proof.
  unfold render_substitutions. repeat walks_step. apply bullet_line_walks.
Qed.

Lemma render_steps_walks (v : yaml) (indent : Q) :
  walks line_count (render_steps line_count v indent).
Proof.
  unfold render_steps. walks_step; [walks_step|].
  generalize 1%Z. induction a as [|s rest IH]; intros i;
    cbn [render_steps_from]; [apply walks_ret|].
  apply walks_bind; [apply numbered_line_walks | intros _; apply IH].
Qed.

Lemma render_garnishes_walks (v : yaml) :
  walks line_count (render_garnishes line_count v).
Proof.
  unfold render_garnishes. repeat walks_step. apply bullet_line_walks.
Qed.

Lemma render_notes_walks (v : yaml) :
  walks line_count (render_notes line_count v).
Proof.
  unfold render_notes. repeat walks_step. apply bullet_line_walks.
Qed.

Lemma sub_label_walks (text : string) : walks line_count (sub_label text).
Proof. unfold sub_label. repeat walks_step. Qed.

Lemma render_component_walks (comp : yaml) :
  walks line_count (render_component line_count comp).
Proof.
  unfold render_component.
  repeat first
    [ apply sub_label_walks | apply render_ingredients_walks
    | apply render_steps_walks | apply render_substitutions_walks
    | walks_step ].
Qed.

Lemma render_components_walks (v : yaml) :
  walks line_count (render_components line_count v).
Proof.
  unfold render_components. repeat walks_step. apply render_component_walks.
Qed.

Lemma render_optional_section_walks (data : yaml) :
  walks line_count (render_optional_section line_count data).
Proof.
  unfold render_optional_section.
  repeat first
    [ apply section_header_walks | apply render_ingredients_walks
    | apply render_components_walks | walks_step ].
Qed.

Lemma section_walks (data : yaml) (key title : string)
    (body : yaml -> M unit) :
  (forall v, walks line_count (body v)) ->
  walks line_count (section data key title body).
Proof.
  intros H. unfold section.
  repeat first [ apply section_header_walks | apply H | walks_step ].
Qed.

(** [render_recipe] sets the alias, opens the first page, and goes on by
    calls of the library *)
Lemma render_recipe_walks (data : yaml) (st : pdf) :
  calls line_count (Fpdf.add_page (Fpdf.alias_nb_pages st))
        (fst (render_recipe line_count data st)).
Proof.
  unfold render_recipe.
  match goal with
  | |- calls _ ?s (fst (bind _ (fun _ => bind _ (fun _ => ?k)) _)) =>
      change (calls line_count s (fst (k s)));
      assert (W : walks line_count k); [|apply W]
  end.
  repeat first
    [ apply render_header_walks | apply render_optional_section_walks
    | apply section_walks; intros ?
    | apply render_components_walks | apply render_ingredients_walks
    | apply render_steps_walks | apply render_substitutions_walks
    | apply render_garnishes_walks | apply render_notes_walks
    | walks_step ].
Qed.

(** the object when the first page is open *)
Lemma first_page_laid_out (resolved_font : string) :
  laid_out (Fpdf.add_page (Fpdf.alias_nb_pages (Fpdf.init resolved_font))).
Proof.
  unfold laid_out. cbn. repeat split; auto; try lia; try constructor.
  unfold Fpdf.t_margin. lra.
Qed.

Lemma render_recipe_laid_out (resolved_font : string) (data : yaml) :
  laid_out (fst (render_recipe line_count data (Fpdf.init resolved_font))).
Proof.
  eapply calls_laid_out; [apply render_recipe_walks|].
  apply first_page_laid_out.
Qed.

End Layout.

(** *** The page total in the footers *)

Lemma free_of_app (c : ascii) (a b : string) :
  free_of c (a ++ b) = free_of c a && free_of c b.
Proof.
  induction a as [|x a IH]; cbn [append free_of]; [reflexivity|].
  now rewrite IH, andb_assoc.
Qed.

Lemma string_of_uint_free (d : Decimal.uint) :
  free_of "{" (NilEmpty.string_of_uint d) = true.
Proof. induction d; cbn; auto. Qed.

(** a number is printed without a brace *)
Lemma of_Z_free (n : Z) : free_of "{" (Str.of_Z n) = true.
Proof.
  unfold Str.of_Z, NilZero.string_of_int, NilZero.string_of_uint.
  destruct (Z.to_int n) as [d|d]; cbn [free_of Ascii.eqb Bool.eqb negb andb];
    destruct d; try reflexivity;
    match goal with
    | |- free_of _ (NilEmpty.string_of_uint ?u) = true =>
        apply (string_of_uint_free u)
    end.
Qed.

(** the text before the first brace stays *)
Lemma replace_from_free (old_tail new s t : string) :
  free_of "{" s = true ->
  replace_from (String "{" old_tail) new (s ++ t) 0
  = s ++ replace_from (String "{" old_tail) new t 0.
Proof.
  induction s as [|c s IH]; intros H; [reflexivity|].
  cbn [free_of] in H. apply andb_true_iff in H. destruct H as [Hc Hs].
  cbn [append replace_from String.prefix].
  destruct (ascii_dec "{" c) as [<-|_]; [discriminate|].
  now rewrite IH.
Qed.

Lemma replace_page_label (total : string) (k : nat) :
  replace "{nb}" total (page_label "{nb}" k) = page_label total k.
Proof.
  unfold replace, page_label.
  rewrite <- !append_assoc.
  rewrite replace_from_free.
  - cbn. now rewrite append_nil_r.
  - rewrite !free_of_app, of_Z_free. reflexivity.
Qed.

Lemma footer_texts_resolved (alias total : string) (os : list op) :
  footer_texts (map (resolve_alias alias total) os)
  = map (replace alias total) (footer_texts os).
Proof.
  induction os as [|o os IH]; [reflexivity|].
  cbn [map footer_texts flat_map]. fold (footer_texts os).
  fold (footer_texts (map (resolve_alias alias total) os)).
  rewrite map_app, IH. f_equal.
  destruct o as [[|] ? ? ? ? ? ?|]; reflexivity.
Qed.

Lemma op_page_resolved (alias total : string) (o : op) :
  op_page (resolve_alias alias total o) = op_page o.
Proof. destruct o; reflexivity. Qed.

Lemma in_text_area_resolved (alias total : string) (o : op) :
  in_text_area o -> in_text_area (resolve_alias alias total o).
Proof. destruct o as [[|] ? ? ? ? ? ?|]; auto. Qed.

(** the document of an object on an open page *)
Lemma output_laid_out (now : Z) (st : pdf) :
  laid_out st ->
  let doc := output now st in
  doc_pages doc = page st /\
  (1 <= doc_pages doc)%nat /\
  footer_texts (doc_objects doc)
  = map (page_label (Str.of_Z (Z.of_nat (doc_pages doc))))
        (seq 1 (doc_pages doc)) /\
  Forall (placed (doc_pages doc)) (doc_objects doc) /\
  StronglySorted le (map op_page (doc_objects doc)).
Proof.
  intros H doc. subst doc. unfold output.
  destruct (close_page_laid_out st H) as (Hft & Hpl & Hs).
  destruct (close_page_run st) as (_ & Hp' & Ha' & _).
  pose proof H as (_ & Hp & Ha & _).
  assert (E : (page st =? 0)%nat = false) by (apply Nat.eqb_neq; lia).
  rewrite E. cbn [doc_pages doc_objects]. rewrite Hp', Ha', Ha.
  repeat split; try assumption.
  - rewrite footer_texts_resolved, Hft, map_map.
    apply map_ext. intros k. apply replace_page_label.
  - rewrite Forall_map. eapply Forall_impl; [|exact Hpl].
    intros o [Hpg Hin]. split.
    + now rewrite op_page_resolved.
    + now apply in_text_area_resolved.
  - rewrite map_map.
    erewrite map_ext; [exact Hs | intros o; apply op_page_resolved].
Qed.

Section Documents.

Variable line_count : font -> Q -> string -> nat.
Variable resolved_font : string.

(** a document is written for a rendering that returned *)
Lemma attempt_file_rendered (f : recipe_file) (doc : document) :
  attempt_file line_count resolved_font f = Ok (Rendered doc) ->
  exists data,
    loaded f = Ok data /\
    snd (render_recipe line_count data (Fpdf.init resolved_font)) = Ok tt /\
    doc = output (clock f)
                 (fst (render_recipe line_count data
                                     (Fpdf.init resolved_font))).
Proof.
  intros H.
  assert (Hd : documents_of line_count resolved_font f
               = [(output_path f, doc)])
    by (unfold documents_of; now rewrite H).
  apply documents_of_completes in Hd.
  destruct Hd as (data & st & Hl & _ & _ & _ & Hr & _ & _ & ->).
  exists data. rewrite Hr. repeat split. exact Hl.
Qed.

(** X14: Every document written has one footer per page, in the order of the
    pages, and the footer of page [k] reads [Page k/N] with [N] the number
    of pages: the alias of the total is resolved in each. *)
Theorem written_footers (f : recipe_file) (doc : document) :
  attempt_file line_count resolved_font f = Ok (Rendered doc) ->
  (1 <= doc_pages doc)%nat /\
  footer_texts (doc_objects doc)
  = map (page_label (Str.of_Z (Z.of_nat (doc_pages doc))))
        (seq 1 (doc_pages doc)).
Proof.
  intros H. destruct (attempt_file_rendered f doc H) as (data & _ & _ & ->).
  pose proof (output_laid_out (clock f) _
                (render_recipe_laid_out line_count resolved_font data))
    as (_ & H1 & H2 & _).
  split; assumption.
Qed.

(** X15: The rendering is forward only: in a written document the texts and
    rules are in the order of their pages, each on one of the pages
    [1..N]. *)
Theorem written_forward_only (f : recipe_file) (doc : document) :
  attempt_file line_count resolved_font f = Ok (Rendered doc) ->
  StronglySorted le (map op_page (doc_objects doc)) /\
  Forall (fun o => (1 <= op_page o <= doc_pages doc)%nat) (doc_objects doc).
Proof.
  intros H. destruct (attempt_file_rendered f doc H) as (data & _ & _ & ->).
  pose proof (output_laid_out (clock f) _
                (render_recipe_laid_out line_count resolved_font data))
    as (_ & _ & _ & H3 & H4).
  split; [exact H4|]. eapply Forall_impl; [|exact H3].
  intros o [Hpg _]. exact Hpg.
Qed.

(** X16: In a written document no text outside a footer starts above the top
    margin or where a line no longer fits above the bottom margin, and
    every footer is 15 above the bottom edge, whatever the length of the
    record and the number of lines its texts take. *)
Theorem written_text_area (f : recipe_file) (doc : document) :
  attempt_file line_count resolved_font f = Ok (Rendered doc) ->
  Forall in_text_area (doc_objects doc).
Proof.
  intros H. destruct (attempt_file_rendered f doc H) as (data & _ & _ & ->).
  pose proof (output_laid_out (clock f) _
                (render_recipe_laid_out line_count resolved_font data))
    as (_ & _ & _ & H3 & _).
  eapply Forall_impl; [|exact H3]. intros o [_ Hin]. exact Hin.
Qed.

(** X18: under the fallback font a record with a text outside Latin-1 is
    never written: the library refuses the text, and the turn of the loop
    ends in an error.  Every bullet is such a text. *)
Theorem fallback_font_refuses (f : recipe_file) (data : yaml) (txt : string) :
  loaded f = Ok data ->
  Fpdf.is_ttf resolved_font = false ->
  In txt (recipe_texts data) -> latin1 txt = false ->
  documents_of line_count resolved_font f = [] /\
  forall text, latin1 (bullet text) = false.
Proof.
  intros Hl Hf Hin Hlat. split; [|reflexivity].
  destruct (documents_of_cases line_count resolved_font f)
    as [H | [doc H]]; [exact H | exfalso].
  apply documents_of_completes in H.
  destruct H as (data' & st & Hl' & _ & _ & _ & Hr & Ha & _).
  assert (data' = data) by congruence. subst data'.
  destruct (render_recipe_draws line_count data (Fpdf.init resolved_font)
              eq_refl) as [_ Hd].
  rewrite Hr in Hd. cbn [fst snd] in Hd.
  specialize (Hd tt eq_refl).
  change (body_texts (ops (Fpdf.init resolved_font))) with (@nil string)
    in Hd.
  cbn [app] in Hd.
  unfold accepted in Ha. rewrite Hf in Ha. cbn [orb] in Ha.
  rewrite forallb_forall in Ha.
  assert (Hop : In txt (flat_map op_text (ops st))).
  { rewrite <- Hd in Hin. unfold body_texts in Hin.
    apply in_flat_map in Hin. destruct Hin as (o & Ho & Ht).
    apply in_flat_map. exists o. split; [exact Ho|].
    destruct o as [[|] ? ? ? ? ? ?|]; cbn in Ht |- *; tauto. }
  rewrite (Ha txt Hop) in Hlat. discriminate.
Qed.

End Documents.

(** ** Instances of the further properties *)

Lemma format_ingredient_errors_witness :
  format_ingredient (YStr "flour") = Raise AttributeError /\
  format_ingredient (YDict [(YStr "amount", YInt 2)]) = Raise KeyError /\
  format_ingredient (YDict [(YStr "item", YInt 3)]) = Raise TypeError /\
  format_ingredient (YDict [(YStr "item", YStr "salt"); (YStr "ref", YInt 7)])
  = Raise TypeError.
Proof.
  refine (conj _ (conj _ (conj _ _))).
  - exact (proj1 (format_ingredient_errors (YStr "flour")) eq_refl).
  - exact (proj1 (proj2 (format_ingredient_errors
                           (YDict [(YStr "amount", YInt 2)])))
                 _ eq_refl eq_refl).
  - exact (proj1 (proj2 (proj2 (format_ingredient_errors
                                  (YDict [(YStr "item", YInt 3)]))))
                 _ _ eq_refl eq_refl eq_refl).
  - exact (proj1 (proj2 (proj2 (proj2
             (format_ingredient_errors
                (YDict [(YStr "item", YStr "salt"); (YStr "ref", YInt 7)])))))
                 _ _ _ eq_refl eq_refl eq_refl eq_refl eq_refl).
Defined.

Lemma main_writes_distinct_paths_witness :
  NoDup (map fst (written (snd (main one_line "DejaVu" three_and_one)))) /\
  output_path (plain_file ["drafts"; ".yaml"] (Ok YNull))
  = output_path (plain_file ["drafts"; ".yaml.yaml"] (Ok YNull)).
Proof.
  split.
  - apply (proj2 (proj2 (main_writes_distinct_paths one_line "DejaVu"))).
    + intros f Hf. cbn in Hf.
      destruct Hf as [<-|[<-|[<-|[<-|[]]]]]; cbn [rel_path nameless].
      * exists [], "tea". reflexivity.
      * exists ["soups"], "draft". reflexivity.
      * exists ["soups"], "broth". reflexivity.
      * exists ["sauces"], "base_sauce". reflexivity.
    + cbn. repeat constructor; cbn; intuition discriminate.
    + intros f g Hf Hg (dirs & H & _). cbn in Hf.
      destruct Hf as [<-|[<-|[<-|[<-|[]]]]]; cbn in H;
        destruct dirs as [|d1 [|d2 [|d3 dirs]]]; discriminate H.
  - apply (proj1 (proj2 (main_writes_distinct_paths one_line "DejaVu"))).
    exists ["drafts"]. split; reflexivity.
Defined.

Lemma setup_fonts_fallback_witness :
  _setup_fonts bare_env = ("Helvetica", []).
Proof.
  exact (proj2 (setup_fonts_fallback bare_env) (fun d _ => eq_refl)).
Defined.

Lemma setup_fonts_prefers_fc_match_witness :
  exists d,
    found_by_fc_match nix_env d /\ has_both_fonts nix_env d = true /\
    _setup_fonts nix_env
    = ("DejaVu",
       [mkAddFont "DejaVu" EmptyString d "DejaVuSans.ttf";
        mkAddFont "DejaVu" "B" d "DejaVuSans-Bold.ttf"]).
Proof.
  apply (setup_fonts_prefers_fc_match
           nix_env "/nix/store/dejavu/share/fonts/truetype").
  - split; [left; reflexivity|]. cbn. intuition discriminate.
  - reflexivity.
Defined.

Lemma render_ingredients_bullets_witness :
  let run := render_ingredients one_line
               (YList [YDict flour_with_ref; YStr "salt";
                       YDict flour_empty_ref])
               0 low_on_page in
  snd run = Raise AttributeError /\
  body_texts (ops (fst run))
  = ["•  2 cups flour  [optional]  (see: Base Sauce)"].
Proof.
  exact (proj2 (render_ingredients_bullets one_line
                  (YList [YDict flour_with_ref; YStr "salt";
                          YDict flour_empty_ref])
                  0 low_on_page (conj eq_refl (conj (le_n 1) eq_refl)))
               _ eq_refl).
Defined.

Lemma render_notes_bullets_witness :
  body_texts (ops (fst (render_notes one_line (YStr "hot") low_on_page)))
  = ["•  h"; "•  o"; "•  t"].
Proof.
  exact (proj2 (render_notes_bullets one_line (YStr "hot") low_on_page
                  (conj eq_refl (conj (le_n 1) eq_refl)))
               "hot" eq_refl).
Defined.

Lemma render_garnishes_bullets_witness :
  let run := render_garnishes one_line
               (YList [YDict [(YStr "item", YStr "parmesan")]; YDict [];
                       YDict [(YStr "item", YStr "basil")]])
               low_on_page in
  snd run = Raise KeyError /\
  body_texts (ops (fst run)) = ["•  parmesan"].
Proof.
  exact (render_garnishes_bullets one_line
           [YDict [(YStr "item", YStr "parmesan")]; YDict [];
            YDict [(YStr "item", YStr "basil")]]
           low_on_page (conj eq_refl (conj (le_n 1) eq_refl))).
Defined.

Lemma render_recipe_texts_witness :
  body_texts (ops (fst (render_recipe one_line ragu (Fpdf.init "DejaVu"))))
  = ["Ragu"; "Region: Emilia | Category: Sauce";
     "Prep: 20 min | Yield: 4 servings"; "http://a"; "http://b";
     "Components"; "▸ Soffritto  (yields 1)"; "Ingredients:"; "•  onion";
     "Steps:"; "1.  chop"; "Optional:"; "•  celery"; "Ingredients";
     "•  2 cups flour  [optional]  (see: Base Sauce)"; "Optional";
     "•  basil"; "Steps"; "1.  boil"; "2.  then: stir"; "Garnishes";
     "•  parmesan"; "Notes"; "•  freeze"; "•  3"].
Proof.
  exact (render_recipe_texts one_line "DejaVu" ragu eq_refl).
Defined.

Lemma render_component_texts_witness :
  body_texts (ops (fst (render_component one_line soffritto low_on_page)))
  = ["▸ Soffritto  (yields 1)"; "Ingredients:"; "•  onion"; "Steps:";
     "1.  chop"; "Optional:"; "•  celery"].
Proof.
  exact (render_component_texts one_line soffritto low_on_page
           eq_refl eq_refl).
Defined.

Lemma valid_record_rendered_witness :
  documents_of one_line "DejaVu" ragu_file
  = [(["PDF"; "sauces"; "ragu.pdf"],
      output 0 (fst (render_recipe one_line ragu (Fpdf.init "DejaVu"))))].
Proof.
  refine (valid_record_rendered one_line ragu_file ragu
            eq_refl _ eq_refl eq_refl).
  cbn [recipe_record ragu]. unfold field_ok, text_field.
  cbn -[soffritto two_steps flour_with_ref].
  repeat split; try (eexists; reflexivity);
    repeat constructor; try (eexists; reflexivity);
    try discriminate; auto.
Defined.

Lemma main_mkdir_aborts_witness :
  let run := main one_line "DejaVu" [tea_later; no_directory; broth_file] in
  fst run = Raise OSError /\ exit_status (fst run) = 1%Z /\
  written (snd run) = flat_map (documents_of one_line "DejaVu") [broth_file] /\
  console (snd run) = map (report_of one_line "DejaVu") [broth_file] /\
  (success_count (snd run) + error_count (snd run) = 1)%nat.
Proof.
  refine (main_mkdir_aborts one_line "DejaVu"
            [tea_later; no_directory; broth_file] [broth_file] [tea_later]
            no_directory OSError eq_refl _ eq_refl).
  repeat constructor.
Defined.

Lemma fallback_font_refuses_witness :
  documents_of one_line "Helvetica" base_sauce_file = [].
Proof.
  refine (proj1 (fallback_font_refuses one_line "Helvetica" base_sauce_file
                   _ "•  2 cups flour  [optional]  (see: Base Sauce)"
                   eq_refl eq_refl _ eq_refl)).
  vm_compute. tauto.
Defined.

Lemma written_footers_witness :
  (1 <= doc_pages stock_document)%nat /\
  footer_texts (doc_objects stock_document) = ["Page 1/2"; "Page 2/2"].
Proof.
  refine (written_footers one_line "DejaVu" stock_file stock_document _).
  vm_compute. reflexivity.
Defined.

Lemma written_forward_only_witness :
  StronglySorted le (map op_page (doc_objects stock_document)) /\
  Forall (fun o => (1 <= op_page o <= 2)%nat) (doc_objects stock_document).
Proof.
  refine (written_forward_only one_line "DejaVu" stock_file stock_document _).
  vm_compute. reflexivity.
Defined.

Lemma written_text_area_witness :
  Forall in_text_area (doc_objects stock_document).
Proof.
  refine (written_text_area one_line "DejaVu" stock_file stock_document _).
  vm_compute. reflexivity.
Defined.
